(** * Regex length bounding: estimator, rewriters, candidate generator

    A shallow embedding of [library/src/regex-parser.ts].  The regular
    expression parser itself ([parseRegExpLiteral] of the regexpp package) is
    an external collaborator: it is a parameter of the development, and the
    functions below work on the tree it returns.

    Numbers.  The counts and lengths the code handles are JavaScript numbers
    that hold integers, plus [Infinity] for an open quantifier; they are
    modelled by [Z] and by [num] (an integer or [Infinity]).  [null] in
    [number | null] is [None].  The requested lengths of the public entry
    point are integers, as its interface declares.  A braced count too large
    for a double, which the parser returns as [Infinity], is outside these
    trees: the module [WideCounts] embeds the estimator for it.

    Strings.  Pattern text is a [string]; code points are restricted to one
    byte, where [String.fromCodePoint] gives exactly one character. *)

From Stdlib Require Import ZArith Ascii List Lia Bool.
From stdpp Require Import base gmap strings pretty.

Import ListNotations.
Local Open Scope Z_scope.

(* ================================================================== *)
(** ** Numbers *)

(** A JavaScript number holding an integer or [Infinity]. *)
Inductive num : Type :=
| Fin (z : Z)
| Infinity.

Definition num_eqb (a b : num) : bool :=
  match a, b with
  | Fin x, Fin y => x =? y
  | Infinity, Infinity => true
  | _, _ => false
  end.

(** [Math.min] on numbers. *)
Definition num_min (a b : num) : num :=
  match a, b with
  | Fin x, Fin y => Fin (Z.min x y)
  | Fin x, Infinity => Fin x
  | Infinity, b => b
  end.

(** Template interpolation [`${n}`]. *)
Definition showZ (z : Z) : string := pretty z.

Definition showNum (n : num) : string :=
  match n with
  | Fin z => showZ z
  | Infinity => "Infinity"
  end.

(* ================================================================== *)
(** ** 1. Types: the tree of the parser and the records of the module *)

Inductive CharacterSetKind : Type :=
| cs_any
| cs_digit
| cs_space
| cs_word
| cs_property (key : string) (value : option string).

(** [AST.CharacterSet]: [.], [\d \D], [\s \S], [\w \W], [\p{..} \P{..}]. *)
Record CharacterSet : Type := mkCharacterSet {
  cs_kind : CharacterSetKind;
  cs_negate : bool
}.

(** The members of a bracketed class. *)
Inductive ClassElement : Type :=
| ClassCharacter (value : ascii)
| CharacterClassRange (min max : ascii)
| ClassCharacterSet (node : CharacterSet)
| ClassOtherElement.

Inductive AssertionKind : Type :=
| as_start
| as_end
| as_word
| as_lookahead
| as_lookbehind.

(** A reference by group number or by group name. *)
Inductive BackrefTarget : Type :=
| RefNumber (n : Z)
| RefName (name : string).

(** [AST.Element], [AST.Quantifier] and [AST.Alternative].  A quantifier node
    carries [q_id], the identity of the node object: the candidate generator
    keys a [Map] by the node itself and looks nodes up with [includes]. *)
Inductive Element : Type :=
| Character (value : ascii)
| CharacterClass (negate : bool) (elements : list ClassElement)
| CharacterSetE (node : CharacterSet)
| QuantifierE (q : Quantifier)
| CapturingGroup (name : option string) (alternatives : list Alternative)
| Group (alternatives : list Alternative)
| Assertion (kind : AssertionKind) (negate : bool)
            (alternatives : list Alternative)
| Backreference (ref : BackrefTarget)
| OtherElement
with Quantifier : Type :=
| mkQuantifier (q_id : nat) (q_min : Z) (q_max : num) (q_greedy : bool)
               (q_element : Element)
with Alternative : Type :=
| mkAlternative (elements : list Element).

Definition q_id (q : Quantifier) : nat :=
  match q with mkQuantifier i _ _ _ _ => i end.
Definition q_min (q : Quantifier) : Z :=
  match q with mkQuantifier _ m _ _ _ => m end.
Definition q_max (q : Quantifier) : num :=
  match q with mkQuantifier _ _ m _ _ => m end.
Definition q_greedy (q : Quantifier) : bool :=
  match q with mkQuantifier _ _ _ g _ => g end.
Definition q_element (q : Quantifier) : Element :=
  match q with mkQuantifier _ _ _ _ e => e end.
Definition alt_elements (a : Alternative) : list Element :=
  match a with mkAlternative es => es end.

Record Pattern : Type := mkPattern {
  p_alternatives : list Alternative
}.

Record Flags : Type := mkFlags {
  raw : string
}.

(** What [parseRegExpLiteral] returns. *)
Record RegExpLiteral : Type := mkRegExpLiteral {
  lit_pattern : Pattern;
  lit_flags : Flags
}.

(** The nodes [estimate] is handed: a pattern, an element, or the empty
    object the candidate generator stores when its input did not parse. *)
Inductive Node : Type :=
| NLiteral (ast : RegExpLiteral)
| NPattern (pattern : Pattern)
| NAlternative (alt : Alternative)
| NElement (e : Element)
| NEmptyObject.

Record ParsedRegex : Type := mkParsedRegex {
  pr_ast : Node;
  pr_pattern : Node;
  pr_flags : Flags;
  pr_source : string
}.

Record RegexLengthEstimate : Type := mkEstimate {
  est_min : Z;
  est_max : option Z
}.

Record Candidate : Type := mkCandidate {
  c_regex : string;
  c_minLength : Z;
  c_maxLength : option Z
}.

Record RegexTransformResult : Type := mkResult {
  transformed : string;
  actualMinLength : Z;
  actualMaxLength : option Z;
  isExact : bool;
  candidates : option (list Candidate);
  warning : option string
}.

Record MinMaxOptions : Type := mkOptions {
  preferLazy : option bool;
  generateCandidates : option bool;
  candidateCount : option Z
}.

(** The argument [regex : string | RegExp]. *)
Inductive RegexInput : Type :=
| RegexString (s : string)
| RegExpObject (source flags : string).

(* ================================================================== *)
(** ** 3. Length estimator *)

Module LengthEstimatorVisitor.

(** One turn of the loop of [visitSequence]. *)
Definition sequence_step (acc result : RegexLengthEstimate)
  : RegexLengthEstimate :=
  {| est_min := est_min acc + est_min result;
     est_max := match est_max result with
                | None => None
                | Some rmax =>
                    match est_max acc with
                    | Some total => Some (total + rmax)
                    | None => None
                    end
                end |}.

Definition sequence_loop (results : list RegexLengthEstimate)
  : RegexLengthEstimate :=
  fold_left sequence_step results {| est_min := 0; est_max := Some 0 |}.

(** One turn of the loop of [visitAlternatives]; [overallMin] starts at
    [Infinity]. *)
Definition alternatives_step (acc : num * option Z)
           (result : RegexLengthEstimate) : num * option Z :=
  (num_min (fst acc) (Fin (est_min result)),
   match est_max result, snd acc with
   | Some rmax, Some overallMax => Some (Z.max overallMax rmax)
   | _, _ => None
   end).

Definition alternatives_loop (results : list RegexLengthEstimate)
  : RegexLengthEstimate :=
  match results with
  | [] => {| est_min := 0; est_max := Some 0 |}
  | _ =>
      let '(overallMin, overallMax) :=
        fold_left alternatives_step results (Infinity, Some 0) in
      {| est_min := match overallMin with Infinity => 0 | Fin m => m end;
         est_max := overallMax |}
  end.

Definition quantifier_result (qmin : Z) (qmax : num)
           (elementResult : RegexLengthEstimate) : RegexLengthEstimate :=
  let min := qmin * est_min elementResult in
  match qmax with
  | Infinity => {| est_min := min; est_max := None |}
  | Fin qmax =>
      match est_max elementResult with
      | None => {| est_min := min; est_max := None |}
      | Some emax => {| est_min := min; est_max := Some (qmax * emax) |}
      end
  end.

Fixpoint visitElement (node : Element) : RegexLengthEstimate :=
  let visitSequence (elements : list Element) :=
    sequence_loop (map visitElement elements) in
  let visitAlternatives (alternatives : list Alternative) :=
    alternatives_loop
      (map (fun alt => match alt with
                       | mkAlternative es => visitSequence es
                       end) alternatives) in
  match node with
  | Character _ | CharacterSetE _ | CharacterClass _ _ =>
      {| est_min := 1; est_max := Some 1 |}
  | QuantifierE (mkQuantifier _ qmin qmax _ element) =>
      quantifier_result qmin qmax (visitElement element)
  | Group alternatives | CapturingGroup _ alternatives =>
      match alternatives with
      | [] => {| est_min := 0; est_max := Some 0 |}
      | _ => visitAlternatives alternatives
      end
  | Assertion _ _ _ => {| est_min := 0; est_max := Some 0 |}
  | Backreference _ => {| est_min := 0; est_max := None |}
  | OtherElement => {| est_min := 0; est_max := Some 0 |}
  end.

Definition visitSequence (elements : list Element) : RegexLengthEstimate :=
  sequence_loop (map visitElement elements).

Definition visitAlternatives (alternatives : list Alternative)
  : RegexLengthEstimate :=
  alternatives_loop
    (map (fun alt => visitSequence (alt_elements alt)) alternatives).

Definition visitQuantifier (node : Quantifier) : RegexLengthEstimate :=
  quantifier_result (q_min node) (q_max node) (visitElement (q_element node)).

Definition visitNode (node : Node) : RegexLengthEstimate :=
  match node with
  | NLiteral ast => visitAlternatives (p_alternatives (lit_pattern ast))
  | NPattern pattern => visitAlternatives (p_alternatives pattern)
  | NAlternative alt => visitSequence (alt_elements alt)
  | NElement e => visitElement e
  | NEmptyObject => {| est_min := 0; est_max := Some 0 |}
  end.

Definition estimate (node : Node) : RegexLengthEstimate :=
  let result := visitNode node in
  {| est_min := est_min result; est_max := est_max result |}.

End LengthEstimatorVisitor.

(* ================================================================== *)
(** ** String helpers of the host language *)

Definition truthy_string (s : string) : bool := negb (String.eqb s EmptyString).

Definition startsWith (s prefix : string) : bool := String.prefix prefix s.

(** [String.fromCodePoint] on a one-byte code point. *)
Definition fromCodePoint (value : ascii) : string := String value EmptyString.

(** [s.includes(c)] for a one-character [c]. *)
Fixpoint includes_char (s : string) (c : ascii) : bool :=
  match s with
  | EmptyString => false
  | String d rest => Ascii.eqb d c || includes_char rest c
  end.

(** [s.lastIndexOf(c)]; [None] stands for -1. *)
Fixpoint lastIndexOf (s : string) (c : ascii) : option nat :=
  match s with
  | EmptyString => None
  | String d rest =>
      match lastIndexOf rest c with
      | Some i => Some (S i)
      | None => if Ascii.eqb d c then Some O else None
      end
  end.

(** [s.slice(1, stop)] for [stop] an index into [s] or -1. *)
Definition slice_from_1 (s : string) (stop : option nat) : string :=
  match stop with
  | None => String.substring 1 (String.length s - 2) s
  | Some j => String.substring 1 (j - 1) s
  end.

Fixpoint last_char (s : string) : option ascii :=
  match s with
  | EmptyString => None
  | String c EmptyString => Some c
  | String _ rest => last_char rest
  end.

(** [parts.join(sep)]. *)
Definition join (sep : string) (parts : list string) : string :=
  String.concat sep parts.

(** [list.slice(0, count)]: a negative count drops from the end. *)
Definition slice0 {A : Type} (l : list A) (count : Z) : list A :=
  if 0 <=? count then firstn (Z.to_nat count) l
  else firstn (length l - Z.to_nat (- count)) l.

(** [arr.indexOf(v)] on integers, for a [v] known to occur. *)
Fixpoint indexOf (arr : list Z) (v : Z) : nat :=
  match arr with
  | [] => O
  | x :: rest => if x =? v then O else S (indexOf rest v)
  end.

(** [arr.filter((v, i, arr) => arr.indexOf(v) === i)]. *)
Definition keep_first_occurrences (arr : list Z) : list Z :=
  map snd
      (filter (fun iv => Nat.eqb (indexOf arr (snd iv)) (fst iv))
              (combine (seq 0 (length arr)) arr)).

(* ================================================================== *)
(** ** 2. Parser wrapper *)

Section Parser.

(** The parser of the regexpp package on a literal [/source/flags];
    [None] when it throws. *)
Variable parseRegExpLiteral : string -> option RegExpLiteral.

(** The literal handed to the parser. *)
Definition literal_of (regex : RegexInput) : string :=
  match regex with
  | RegExpObject source flags => "/" +:+ source +:+ "/" +:+ flags
  | RegexString s => if startsWith s "/" then s else "/" +:+ s +:+ "/"
  end.

(** [None] is the thrown [Failed to parse regex] error. *)
Definition parseRegex (regex : RegexInput) : option ParsedRegex :=
  let source := literal_of regex in
  match parseRegExpLiteral source with
  | Some ast =>
      Some {| pr_ast := NLiteral ast;
              pr_pattern := NPattern (lit_pattern ast);
              pr_flags := lit_flags ast;
              pr_source :=
                match regex with
                | RegExpObject source _ => source
                | RegexString s =>
                    if startsWith s "/"
                    then slice_from_1 s (lastIndexOf s "/")
                    else s
                end |}
  | None => None
  end.

Definition estimateMinLength (regex : RegexInput) : option Z :=
  match parseRegex regex with
  | Some parsed =>
      Some (est_min (LengthEstimatorVisitor.estimate (pr_pattern parsed)))
  | None => None
  end.

(** The outer [option] is the thrown parse error, the inner one [null]. *)
Definition estimateMaxLength (regex : RegexInput) : option (option Z) :=
  match parseRegex regex with
  | Some parsed =>
      Some (est_max (LengthEstimatorVisitor.estimate (pr_pattern parsed)))
  | None => None
  end.

End Parser.

(* ================================================================== *)
(** ** 4. The rewriters: what both classes share

    [MinMaxTransformer] and [ConfigurableTransformer] define the methods of
    this module with the same bodies; they differ in [transformQuantifier]
    alone, which is the parameter [quantifierText] of the traversal. *)

Module Rewriter.

Definition escapeChar (value : ascii) : string :=
  let char := fromCodePoint value in
  if includes_char "\^$.*+?()[]{}|" value then "\" +:+ char
  else if Ascii.eqb value "010" then "\n"
  else if Ascii.eqb value "013" then "\r"
  else if Ascii.eqb value "009" then "\t"
  else char.

Definition transformCharacterSet (node : CharacterSet) : string :=
  match cs_kind node with
  | cs_any => "."
  | cs_digit => "\d"
  | cs_word => "\w"
  | cs_space => "\s"
  | cs_property _ _ => EmptyString
  end.

(** One turn of the loop of [transformCharacterClass]. *)
Definition class_step (result : string) (elem : ClassElement) : string :=
  match elem with
  | ClassCharacter value =>
      let char := fromCodePoint value in
      if Ascii.eqb value "]" || Ascii.eqb value "\"
      then result +:+ "\" +:+ char
      else if Ascii.eqb value "^" && String.eqb result "["
      then result +:+ "\^"
      else if Ascii.eqb value "-"
              && Nat.ltb 1 (String.length result)
              && negb (match last_char result with
                       | Some c => Ascii.eqb c "["
                       | None => false
                       end)
      then result +:+ "\-"
      else result +:+ char
  | CharacterClassRange min max =>
      result +:+ fromCodePoint min +:+ "-" +:+ fromCodePoint max
  | ClassCharacterSet node => result +:+ transformCharacterSet node
  | ClassOtherElement => result
  end.

Definition transformCharacterClass (negate : bool)
           (elements : list ClassElement) : string :=
  let result := if negate then "[^" else "[" in
  fold_left class_step elements result +:+ "]".

Definition transformBackreference (ref : BackrefTarget) : string :=
  match ref with
  | RefNumber n => "\" +:+ showZ n
  | RefName name => "\k<" +:+ name +:+ ">"
  end.

(** [transformAlternatives] once the alternatives are serialized. *)
Definition join_alternatives (texts : list string) : string :=
  match texts with
  | [] => EmptyString
  | [alt] => alt
  | _ => join "|" texts
  end.

Section Traversal.

(** [transformQuantifier node], given the text of [node.element]. *)
Variable quantifierText : Quantifier -> string -> string.

Fixpoint transformElement (element : Element) : string :=
  let transformAlternative (elements : list Element) :=
    join EmptyString (map transformElement elements) in
  let transformAlternatives (alternatives : list Alternative) :=
    join_alternatives
      (map (fun alt => match alt with
                       | mkAlternative es => transformAlternative es
                       end) alternatives) in
  match element with
  | Character value => escapeChar value
  | CharacterClass negate elements =>
      transformCharacterClass negate elements
  | CharacterSetE node => transformCharacterSet node
  | QuantifierE (mkQuantifier i qmin qmax greedy inner) =>
      quantifierText (mkQuantifier i qmin qmax greedy inner)
                     (transformElement inner)
  | CapturingGroup name alternatives =>
      let content := transformAlternatives alternatives in
      match name with
      | Some n =>
          if truthy_string n then "(?<" +:+ n +:+ ">" +:+ content +:+ ")"
          else "(" +:+ content +:+ ")"
      | None => "(" +:+ content +:+ ")"
      end
  | Group alternatives =>
      "(?:" +:+ transformAlternatives alternatives +:+ ")"
  | Assertion kind negate alternatives =>
      match kind with
      | as_start => "^"
      | as_end => "$"
      | as_word => "\b"
      | as_lookahead =>
          let content := transformAlternatives alternatives in
          if negate then "(?!" +:+ content +:+ ")"
          else "(?=" +:+ content +:+ ")"
      | as_lookbehind =>
          let content := transformAlternatives alternatives in
          if negate then "(?<!" +:+ content +:+ ")"
          else "(?<=" +:+ content +:+ ")"
      end
  | Backreference ref => transformBackreference ref
  | OtherElement => EmptyString
  end.

Definition transformAlternative (alternative : Alternative) : string :=
  join EmptyString (map transformElement (alt_elements alternative)).

Definition transformAlternatives (alternatives : list Alternative)
  : string :=
  join_alternatives (map transformAlternative alternatives).

(** The callers hand over the [Pattern] node of a parsed expression. *)
Definition transformPattern (pattern : Node) : string :=
  match pattern with
  | NPattern p => transformAlternatives (p_alternatives p)
  | _ => EmptyString
  end.

End Traversal.

(** The chain of tests that ends [transformQuantifier] in both classes. *)
Definition buildQuantifier (element : string) (min : Z) (max : num)
           (lazy : string) : string :=
  if (min =? 0) && num_eqb max (Fin 1) then element +:+ "?" +:+ lazy
  else if (min =? 0) && num_eqb max Infinity then element +:+ "*" +:+ lazy
  else if (min =? 1) && num_eqb max Infinity then element +:+ "+" +:+ lazy
  else if num_eqb (Fin min) max then element +:+ "{" +:+ showZ min +:+ "}"
  else if num_eqb max Infinity
  then element +:+ "{" +:+ showZ min +:+ ",}" +:+ lazy
  else element +:+ "{" +:+ showZ min +:+ "," +:+ showNum max +:+ "}"
               +:+ lazy.

End Rewriter.

Module MinMaxTransformer.

Section Instance.

Variable parseRegExpLiteral : string -> option RegExpLiteral.

(** The constructor's arguments. *)
Variable minTarget : Z.
Variable maxTarget : num.
Variable preferLazy : option bool.

Definition transformQuantifier (node : Quantifier) (element : string)
  : string :=
  let max := match q_max node with
             | Infinity => maxTarget
             | m => num_min m maxTarget
             end in
  let min := Z.max 0 (Z.min (q_min node) minTarget) in
  let lazy :=
    if match preferLazy with Some b => b | None => false end
       || negb (q_greedy node)
    then "?" else EmptyString in
  Rewriter.buildQuantifier element min max lazy.

Definition transformElement : Element -> string :=
  Rewriter.transformElement transformQuantifier.

Definition transformPattern : Node -> string :=
  Rewriter.transformPattern transformQuantifier.

(** [None] when [parseRegex] throws. *)
Definition transform (pattern : string) (flags : option string)
  : option string :=
  let input :=
    match flags with
    | Some f => if truthy_string f then "/" +:+ pattern +:+ "/" +:+ f
                else pattern
    | None => pattern
    end in
  match parseRegex parseRegExpLiteral (RegexString input) with
  | Some parsed => Some (transformPattern (pr_pattern parsed))
  | None => None
  end.

End Instance.

End MinMaxTransformer.

(* ================================================================== *)
(** ** 5. Candidate generator *)

(** [Map<AST.Quantifier, { min, max }>], keyed by the identity of the node. *)
Abbreviation QuantifierConfig := (gmap nat (Z * num)).

Module ConfigurableTransformer.

Section Instance.

Variable quantifierConfig : QuantifierConfig.

Definition transformQuantifier (node : Quantifier) (element : string)
  : string :=
  let config := quantifierConfig !! q_id node in
  let min := match config with Some c => fst c | None => q_min node end in
  let max := match config with Some c => snd c | None => q_max node end in
  let lazy := if negb (q_greedy node) then "?" else EmptyString in
  Rewriter.buildQuantifier element min max lazy.

Definition transformElement : Element -> string :=
  Rewriter.transformElement transformQuantifier.

Definition transform : Node -> string :=
  Rewriter.transformPattern transformQuantifier.

End Instance.

End ConfigurableTransformer.

Module RegexCandidateGenerator.

Import LengthEstimatorVisitor.

Section Instance.

Variable parseRegExpLiteral : string -> option RegExpLiteral.

(** The constructor: the field [parsed] of the new object. *)
Definition new (regex : RegexInput) : ParsedRegex :=
  match parseRegex parseRegExpLiteral regex with
  | Some parsed => parsed
  | None =>
      {| pr_ast := NEmptyObject;
         pr_pattern := NEmptyObject;
         pr_flags := {| raw := EmptyString |};
         pr_source := match regex with
                      | RegexString s => s
                      | RegExpObject source _ => source
                      end |}
  end.

(** [this.parsed]. *)
Variable parsed : ParsedRegex.

(** The [visitor] closure of [findQuantifiers] on an element. *)
Fixpoint visitor (node : Element) : list Quantifier :=
  match node with
  | QuantifierE (mkQuantifier i qmin qmax greedy element) =>
      mkQuantifier i qmin qmax greedy element :: visitor element
  | Group alternatives | CapturingGroup _ alternatives =>
      flat_map (fun alt => match alt with
                           | mkAlternative es => flat_map visitor es
                           end) alternatives
  | _ => []
  end.

Definition findQuantifiers (pattern : Node) : list Quantifier :=
  match pattern with
  | NPattern p =>
      flat_map (fun alt => flat_map visitor (alt_elements alt))
               (p_alternatives p)
  | NAlternative alt => flat_map visitor (alt_elements alt)
  | NElement e => visitor e
  | NLiteral _ | NEmptyObject => []
  end.

Definition applyQuantifierConfiguration (config : QuantifierConfig)
  : string :=
  ConfigurableTransformer.transform config (pr_pattern parsed).

Definition growable (q : Quantifier) : bool :=
  (q_min q <? match q_max q with Infinity => 1000 | Fin m => m end)
  || (q_min q =? 0).

(** [list.includes(q)]: the same node object. *)
Definition includes (l : list Quantifier) (q : Quantifier) : bool :=
  existsb (fun g => Nat.eqb (q_id g) (q_id q)) l.

(** [estimator.estimate(q.element).min || 1]. *)
Definition elemLength (q : Quantifier) : Z :=
  let m := est_min (estimate (NElement (q_element q))) in
  if m =? 0 then 1 else m.

(** The entry for a quantifier that keeps its own bounds. *)
Definition own_bounds (q : Quantifier) : Z * num :=
  (q_min q, match q_max q with Infinity => Fin (q_min q) | m => m end).

(** [Math.max(q.min, Math.min(repsNeeded, q.max === Infinity ? t : q.max))]
    compared as numbers; the result is finite. *)
Definition clampReps (q : Quantifier) (repsNeeded fallbackMax : Z) : Z :=
  Z.max (q_min q)
        (Z.min repsNeeded
               match q_max q with Infinity => fallbackMax | Fin m => m end).

Definition targetValues (minLength maxLength : Z) : list Z :=
  let range := maxLength - minLength in
  if range =? 0 then [minLength]
  else if range <=? 20 then
    keep_first_occurrences
      [minLength; (minLength + maxLength) / 2; maxLength]
  else
    (* Math.floor(minLength + range * 0.25) and so on: the quarters of an
       integer are exact. *)
    keep_first_occurrences
      [minLength;
       (4 * minLength + range) / 4;
       (2 * minLength + range) / 2;
       (4 * minLength + 3 * range) / 4;
       maxLength].

Section Configurations.

Variable quantifiers : list Quantifier.
Variables minLength maxLength count : Z.

Definition growableQuantifiers : list Quantifier :=
  filter growable quantifiers.

(** The configuration of one target length.  [targetLength /
    growable.length / elemLength] is one real quotient, floored. *)
Definition targetConfig (targetLength : Z) : QuantifierConfig :=
  fold_left
    (fun (config : QuantifierConfig) q =>
       if includes growableQuantifiers q then
         let repsNeeded :=
           targetLength
           / (Z.of_nat (length growableQuantifiers) * elemLength q) in
         let finalValue := clampReps q repsNeeded targetLength in
         <[q_id q := (finalValue, Fin finalValue)]> config
       else <[q_id q := own_bounds q]> config)
    quantifiers ∅.

(** The loop over [targetValues]; [configurations] is its state. *)
Fixpoint targetLoop (targets : list Z)
         (configurations : list QuantifierConfig)
  : list QuantifierConfig :=
  match targets with
  | [] => configurations
  | targetLength :: rest =>
      if count <=? Z.of_nat (length configurations) then configurations
      else
        let config := targetConfig targetLength in
        let testRegex := applyQuantifierConfiguration config in
        match parseRegex parseRegExpLiteral (RegexString testRegex) with
        | Some testParsed =>
            let testEstimate := estimate (pr_pattern testParsed) in
            if (minLength <=? est_min testEstimate)
               && (est_min testEstimate <=? maxLength)
            then targetLoop rest (configurations ++ [config])
            else targetLoop rest configurations
        | None => targetLoop rest configurations
        end
  end.

(** The configuration forced when no target length was kept. *)
Definition fallbackConfig : QuantifierConfig :=
  fold_left
    (fun (config : QuantifierConfig) q =>
       let repsNeeded := minLength / elemLength q in
       let finalValue := clampReps q repsNeeded minLength in
       <[q_id q := (finalValue, Fin finalValue)]> config)
    quantifiers ∅.

Definition generateQuantifierConfigurations : list QuantifierConfig :=
  match growableQuantifiers with
  | [] =>
      [fold_left (fun (config : QuantifierConfig) q =>
                    <[q_id q := own_bounds q]> config)
                 quantifiers ∅]
  | _ =>
      let configurations :=
        targetLoop (targetValues minLength maxLength) [] in
      let configurations :=
        match configurations with
        | [] => [fallbackConfig]
        | _ => configurations
        end in
      slice0 configurations count
  end.

End Configurations.

(** The loop of [generate] over the configurations. *)
Definition candidateOf (config : QuantifierConfig) : list Candidate :=
  let transformedRegex := applyQuantifierConfiguration config in
  match parseRegex parseRegExpLiteral (RegexString transformedRegex) with
  | Some p =>
      let estimate := estimate (pr_pattern p) in
      [{| c_regex := transformedRegex;
          c_minLength := est_min estimate;
          c_maxLength := est_max estimate |}]
  | None => []
  end.

Definition generate (minLength maxLength count : Z) : list Candidate :=
  let quantifiers := findQuantifiers (pr_pattern parsed) in
  match quantifiers with
  | [] =>
      let estimate := estimate (pr_pattern parsed) in
      [{| c_regex := pr_source parsed;
          c_minLength := est_min estimate;
          c_maxLength := est_max estimate |}]
  | _ =>
      let configurations :=
        generateQuantifierConfigurations quantifiers
                                         minLength maxLength count in
      slice0 (flat_map candidateOf configurations) count
  end.

End Instance.

End RegexCandidateGenerator.

(* ================================================================== *)
(** ** 6. Public API *)

Section PublicAPI.

Import LengthEstimatorVisitor.

Variable parseRegExpLiteral : string -> option RegExpLiteral.

(** [regex.toString()]. *)
Definition regex_toString (regex : RegexInput) : string :=
  match regex with
  | RegexString s => s
  | RegExpObject source flags => "/" +:+ source +:+ "/" +:+ flags
  end.

Definition is_true_option (o : option bool) : bool :=
  match o with Some b => b | None => false end.

(** [options.candidateCount || 5]. *)
Definition candidateCount_or_5 (options : MinMaxOptions) : Z :=
  match candidateCount options with
  | Some c => if c =? 0 then 5 else c
  | None => 5
  end.

Definition generateFor (regex : RegexInput) (minLength maxLength count : Z)
  : list Candidate :=
  RegexCandidateGenerator.generate
    parseRegExpLiteral
    (RegexCandidateGenerator.new parseRegExpLiteral regex)
    minLength maxLength count.

(** [regex instanceof RegExp ? regex.source : regex]. *)
Definition source_of (regex : RegexInput) : string :=
  match regex with
  | RegExpObject source _ => source
  | RegexString s => s
  end.

(** [regex instanceof RegExp ? regex.flags : undefined]. *)
Definition flags_of (regex : RegexInput) : option string :=
  match regex with
  | RegExpObject _ flags => Some flags
  | RegexString _ => None
  end.

(** The literal [transformedRegex] that is parsed again. *)
Definition transformedRegexOf (transformedPattern : string)
           (flags : option string) : string :=
  match flags with
  | Some f => if truthy_string f
              then "/" +:+ transformedPattern +:+ "/" +:+ f
              else "/" +:+ transformedPattern +:+ "/"
  | None => "/" +:+ transformedPattern +:+ "/"
  end.

(** The estimate after the rewrite; the re-parse is inside a [try]. *)
Definition finalEstimateOf (transformedPattern : string)
           (flags : option string) (minLength maxLength : Z)
  : RegexLengthEstimate :=
  match parseRegex parseRegExpLiteral
          (RegexString (transformedRegexOf transformedPattern flags)) with
  | Some p => estimate (pr_pattern p)
  | None => {| est_min := minLength; est_max := Some maxLength |}
  end.

(** [None] is a thrown error. *)
Definition regexToStringMinMax (regex : RegexInput)
           (minLength maxLength : Z) (options : MinMaxOptions)
  : option RegexTransformResult :=
  match parseRegex parseRegExpLiteral regex with
  | None => None
  | Some parsed =>
      let currentEstimate := estimate (pr_pattern parsed) in
      if maxLength <? est_min currentEstimate then
        Some {| transformed := regex_toString regex;
                actualMinLength := est_min currentEstimate;
                actualMaxLength := est_max currentEstimate;
                isExact := false;
                warning :=
                  Some ("Cannot meet maxLength=" +:+ showZ maxLength
                        +:+ ". Structural minimum is "
                        +:+ showZ (est_min currentEstimate));
                candidates :=
                  if is_true_option (generateCandidates options)
                  then Some (generateFor regex
                                         (est_min currentEstimate)
                                         (est_min currentEstimate + 10)
                                         (candidateCount_or_5 options))
                  else None |}
      else
        let source := source_of regex in
        let flags := flags_of regex in
        match MinMaxTransformer.transform parseRegExpLiteral
                minLength (Fin maxLength) (preferLazy options)
                source flags with
        | None => None
        | Some transformedPattern =>
            let finalEstimate :=
              finalEstimateOf transformedPattern flags minLength maxLength in
            let candidates :=
              if is_true_option (generateCandidates options)
              then Some (generateFor regex minLength maxLength
                                     (candidateCount_or_5 options))
              else None in
            Some {| transformed := transformedPattern;
                    actualMinLength := est_min finalEstimate;
                    actualMaxLength := est_max finalEstimate;
                    isExact :=
                      (minLength <=? est_min finalEstimate)
                      && match est_max finalEstimate with
                         | None => true
                         | Some m => m <=? maxLength
                         end;
                    candidates := candidates;
                    warning :=
                      if maxLength <? est_min finalEstimate
                      then Some ("Constraints are too strict. Actual min: "
                                 +:+ showZ (est_min finalEstimate))
                      else None |}
        end
  end.

End PublicAPI.

(* ================================================================== *)
(** ** Trees as the parser builds them *)

(** The counts of a quantifier the parser accepts: [0 <= min <= max]
    (it rejects [{3,1}] as out of order). *)
Definition wf_counts (qmin : Z) (qmax : num) : bool :=
  (0 <=? qmin) && match qmax with Fin m => qmin <=? m | Infinity => true end.

Fixpoint wf_element (e : Element) : bool :=
  let wf_alternatives (alternatives : list Alternative) :=
    forallb (fun alt => match alt with
                        | mkAlternative es => forallb wf_element es
                        end) alternatives in
  match e with
  | QuantifierE (mkQuantifier _ qmin qmax _ element) =>
      wf_counts qmin qmax && wf_element element
  | CapturingGroup _ alternatives
  | Group alternatives
  | Assertion _ _ alternatives => wf_alternatives alternatives
  | _ => true
  end.

Definition wf_alternative (alt : Alternative) : bool :=
  forallb wf_element (alt_elements alt).

Definition wf_alternatives (alternatives : list Alternative) : bool :=
  forallb wf_alternative alternatives.


(** Whether a tree holds a [Quantifier] node anywhere, lookarounds included. *)
Fixpoint has_quantifier (e : Element) : bool :=
  let in_alternatives (alternatives : list Alternative) :=
    existsb (fun alt => match alt with
                        | mkAlternative es => existsb has_quantifier es
                        end) alternatives in
  match e with
  | QuantifierE _ => true
  | CapturingGroup _ alternatives
  | Group alternatives
  | Assertion _ _ alternatives => in_alternatives alternatives
  | _ => false
  end.

Definition pattern_has_quantifier (p : Pattern) : bool :=
  existsb (fun alt => existsb has_quantifier (alt_elements alt))
          (p_alternatives p).

(** Structural induction through the lists of alternatives and elements. *)
Section ElementInduction.

Variable P : Element -> Prop.

Definition all_elements (alternatives : list Alternative) : Prop :=
  Forall (fun alt => Forall P (alt_elements alt)) alternatives.

Hypothesis HCharacter : forall value, P (Character value).
Hypothesis HClass : forall negate elements, P (CharacterClass negate elements).
Hypothesis HSet : forall node, P (CharacterSetE node).
Hypothesis HQuantifier :
  forall i qmin qmax greedy element,
    P element -> P (QuantifierE (mkQuantifier i qmin qmax greedy element)).
Hypothesis HCapturing :
  forall name alternatives,
    all_elements alternatives -> P (CapturingGroup name alternatives).
Hypothesis HGroup :
  forall alternatives, all_elements alternatives -> P (Group alternatives).
Hypothesis HAssertion :
  forall kind negate alternatives,
    all_elements alternatives -> P (Assertion kind negate alternatives).
Hypothesis HBackreference : forall ref, P (Backreference ref).
Hypothesis HOther : P OtherElement.

Fixpoint Element_nested_ind (e : Element) : P e :=
  let elements_ind :=
    fix elements_ind (es : list Element) : Forall P es :=
      match es with
      | [] => @List.Forall_nil _ P
      | x :: xs =>
          @List.Forall_cons _ P x xs (Element_nested_ind x) (elements_ind xs)
      end in
  let alternatives_ind :=
    fix alternatives_ind (alts : list Alternative) : all_elements alts :=
      match alts with
      | [] => @List.Forall_nil _ _
      | alt :: rest =>
          @List.Forall_cons _ _ alt rest
            (match alt as a return Forall P (alt_elements a) with
             | mkAlternative es => elements_ind es
             end)
            (alternatives_ind rest)
      end in
  match e with
  | Character value => HCharacter value
  | CharacterClass negate elements => HClass negate elements
  | CharacterSetE node => HSet node
  | QuantifierE (mkQuantifier i qmin qmax greedy element) =>
      HQuantifier i qmin qmax greedy element (Element_nested_ind element)
  | CapturingGroup name alternatives =>
      HCapturing name alternatives (alternatives_ind alternatives)
  | Group alternatives => HGroup alternatives (alternatives_ind alternatives)
  | Assertion kind negate alternatives =>
      HAssertion kind negate alternatives (alternatives_ind alternatives)
  | Backreference ref => HBackreference ref
  | OtherElement => HOther
  end.

End ElementInduction.


(* ================================================================== *)
(** ** Sample expressions

    A parser given by a finite table: the literals it lists are parsed to the
    trees beside them, as regexpp parses them, and every other text is
    rejected. *)

Module Samples.

Definition table_parser (table : list (string * RegExpLiteral))
           (source : string) : option RegExpLiteral :=
  match find (fun entry => String.eqb (fst entry) source) table with
  | Some entry => Some (snd entry)
  | None => None
  end.

Definition literal (alternatives : list (list Element)) : RegExpLiteral :=
  {| lit_pattern := {| p_alternatives := map mkAlternative alternatives |};
     lit_flags := {| raw := EmptyString |} |}.

Definition digits : Element :=
  CharacterClass false [CharacterClassRange "0" "9"].
Definition lower : Element :=
  CharacterClass false [CharacterClassRange "a" "z"].

(** [/^[0-9]+$/] and its rewriting [/^[0-9]{9}$/]. *)
Definition digits_plus : RegExpLiteral :=
  literal [[Assertion as_start false [];
            QuantifierE (mkQuantifier 1 1 Infinity true digits);
            Assertion as_end false []]].
Definition digits_9 : RegExpLiteral :=
  literal [[Assertion as_start false [];
            QuantifierE (mkQuantifier 1 9 (Fin 9) true digits);
            Assertion as_end false []]].

Definition digits_parser : string -> option RegExpLiteral :=
  table_parser [("/^[0-9]+$/", digits_plus);
                ("/^[0-9]{9}$/", digits_9)].

(** A [RegExp] object without flags. *)
Definition regexp (source : string) : RegexInput :=
  RegExpObject source EmptyString.

Definition chars (s : string) : list Element :=
  map Character (String.list_ascii_of_string s).


(** [/hello/]: no quantifier. *)
Definition hello : RegExpLiteral := literal [chars "hello"].
Definition hello_parser : string -> option RegExpLiteral :=
  table_parser [("/hello/", hello)].

(** [/\/+/]: the rewritten texts start with a slash, and neither [/{3}]
    nor [//{0,5}/] is a regular expression literal. *)
Definition slash_plus : RegExpLiteral :=
  literal [[QuantifierE (mkQuantifier 1 1 Infinity true (Character "/"))]].
Definition slash_parser : string -> option RegExpLiteral :=
  table_parser [("/\/+/", slash_plus)].

(** [/(a)\1/]: a group and a reference to it. *)
Definition group_backref : RegExpLiteral :=
  literal [[CapturingGroup None [mkAlternative [Character "a"]];
            Backreference (RefNumber 1)]].
Definition backref_parser : string -> option RegExpLiteral :=
  table_parser [("/(a)\1/", group_backref)].

(** [/[a-z]{20}/]. *)
Definition lower_20 : RegExpLiteral :=
  literal [[QuantifierE (mkQuantifier 1 20 (Fin 20) true lower)]].
Definition lower_parser : string -> option RegExpLiteral :=
  table_parser [("/[a-z]{20}/", lower_20)].

(** [/\D/] and [/\d/]. *)
Definition non_digit : Element :=
  CharacterSetE {| cs_kind := cs_digit; cs_negate := true |}.
Definition digit : Element :=
  CharacterSetE {| cs_kind := cs_digit; cs_negate := false |}.
Definition non_digit_parser : string -> option RegExpLiteral :=
  table_parser [("/\D/", literal [[non_digit]]);
                ("/\d/", literal [[digit]])].

(** The quantifier of [/a{3}?/]: an exact count, written lazy. *)
Definition lazy_exact : Quantifier :=
  mkQuantifier 1 3 (Fin 3) false (Character "a").

Definition digits_parsed : ParsedRegex :=
  RegexCandidateGenerator.new digits_parser (regexp "^[0-9]+$").

Definition no_options : MinMaxOptions :=
  {| preferLazy := None; generateCandidates := None;
     candidateCount := None |}.
Definition with_candidates : MinMaxOptions :=
  {| preferLazy := None; generateCandidates := Some true;
     candidateCount := None |}.

(** [/^[0-9]{n}$/] for the counts the tests of the module reach. *)
Definition digits_n (n : Z) : string * RegExpLiteral :=
  ("/^[0-9]{" +:+ showZ n +:+ "}$/",
   literal [[Assertion as_start false [];
             QuantifierE (mkQuantifier 1 n (Fin n) true digits);
             Assertion as_end false []]]).

Definition digits_range_parser : string -> option RegExpLiteral :=
  table_parser (("/^[0-9]+$/", digits_plus) :: map digits_n [5; 7; 10]).

(** [/^[a-z]+@[a-z]+\.[a-z]+$/] and its rewritings with one count. *)
Definition email (qmin : Z) (qmax : num) : RegExpLiteral :=
  literal [[Assertion as_start false [];
            QuantifierE (mkQuantifier 1 qmin qmax true lower);
            Character "@";
            QuantifierE (mkQuantifier 2 qmin qmax true lower);
            Character ".";
            QuantifierE (mkQuantifier 3 qmin qmax true lower);
            Assertion as_end false []]].

Definition email_n (n : Z) : string * RegExpLiteral :=
  let count := "{" +:+ showZ n +:+ "}" in
  ("/^[a-z]" +:+ count +:+ "@[a-z]" +:+ count +:+ "\.[a-z]" +:+ count
             +:+ "$/",
   email n (Fin n)).

Definition email_parser : string -> option RegExpLiteral :=
  table_parser (("/^[a-z]+@[a-z]+\.[a-z]+$/", email 1 Infinity)
                  :: map email_n [1; 5; 9; 12; 16]).

(** [/^([a-z]{2}){3}$/]: no quantifier can grow. *)
Definition nested_counts : RegExpLiteral :=
  literal [[Assertion as_start false [];
            QuantifierE
              (mkQuantifier 1 3 (Fin 3) true
                 (CapturingGroup None
                    [mkAlternative
                       [QuantifierE (mkQuantifier 2 2 (Fin 2) true lower)]]));
            Assertion as_end false []]].
Definition nested_parser : string -> option RegExpLiteral :=
  table_parser [("/^([a-z]{2}){3}$/", nested_counts)].

Definition candidates_wanted (count : Z) : MinMaxOptions :=
  {| preferLazy := None; generateCandidates := Some true;
     candidateCount := Some count |}.

(** The minima of the candidates of a result. *)
Definition candidate_minima (r : option RegexTransformResult)
  : option (list Z) :=
  match r with
  | Some r => option_map (map c_minLength) (candidates r)
  | None => None
  end.

End Samples.

(* ================================================================== *)
(** ** The properties stated about the module *)

(** The invariant of a length bound: a non-negative minimum, below the
    maximum whenever the maximum is finite. *)
Definition bound_ok (b : RegexLengthEstimate) : Prop :=
  0 <= est_min b /\ forall m, est_max b = Some m -> est_min b <= m.

(** Comparison of numbers, [Infinity] on top. *)
Definition num_le (a b : num) : Prop :=
  match a, b with
  | Fin x, Fin y => x <= y
  | _, Infinity => True
  | Infinity, Fin _ => False
  end.




(** The source of a [RegExp] object never starts with a slash: the host
    language keeps [/source/flags] a valid literal by escaping it. *)
Definition regexp_source_ok (regex : RegexInput) : bool :=
  match regex with
  | RegExpObject source _ => negb (startsWith source "/")
  | RegexString _ => true
  end.

(** The canonical form of a pair of counts, in the words of the
    specification: [?], [*], [+], [{n}], and the general form otherwise. *)
Definition canonical_counts (min : Z) (max : num) : string :=
  if (min =? 0) && num_eqb max (Fin 1) then "?"
  else if (min =? 0) && num_eqb max Infinity then "*"
  else if (min =? 1) && num_eqb max Infinity then "+"
  else if num_eqb (Fin min) max then "{" +:+ showZ min +:+ "}"
  else match max with
       | Infinity => "{" +:+ showZ min +:+ ",}"
       | Fin m => "{" +:+ showZ min +:+ "," +:+ showZ m +:+ "}"
       end.

(** The text the specification asks for: the element, the canonical counts,
    and [?] for a lazy quantifier, whatever the form. *)
Definition specified_quantifier (element : string) (min : Z) (max : num)
           (lazy : bool) : string :=
  element +:+ canonical_counts min max +:+ (if lazy then "?" else EmptyString).

(** The text the rewriters write: the same, but the form [{n}] carries no
    mark of laziness. *)
Definition written_quantifier (element : string) (min : Z) (max : num)
           (lazy : bool) : string :=
  element +:+ canonical_counts min max
          +:+ (if lazy && negb (num_eqb (Fin min) max) then "?"
               else EmptyString).

(** The two accumulators of the loop of [visitAlternatives], one at a time. *)
Definition min_step (acc : num) (result : RegexLengthEstimate) : num :=
  num_min acc (Fin (est_min result)).

Definition max_step (acc : option Z) (result : RegexLengthEstimate)
  : option Z :=
  match est_max result, acc with
  | Some rmax, Some overallMax => Some (Z.max overallMax rmax)
  | _, _ => None
  end.

(** A configuration that binds a node to one repeat count. *)
Definition pinned (config : QuantifierConfig) (id : nat) : Prop :=
  exists n, config !! id = Some (n, Fin n).


(* ================================================================== *)
(** ** 6. Public API, continued: [regexToString] *)

Record RegexStringOptions : Type := mkStringOptions {
  includeDelimiters : option bool;
  includeFlags : option bool;
  so_flags : option string
}.

Section Serialization.

Variable parseRegExpLiteral : string -> option RegExpLiteral.

(** [a || b] on strings. *)
Definition string_or (a b : string) : string :=
  if truthy_string a then a else b.

(** The transformer is built with the targets [0] and [Infinity] and no
    option; [None] when the parse inside [transform] throws. *)
Definition regexToString (parsed : ParsedRegex)
           (options : RegexStringOptions) : option string :=
  match MinMaxTransformer.transform parseRegExpLiteral 0 Infinity None
          (pr_source parsed) (Some (raw (pr_flags parsed))) with
  | None => None
  | Some result =>
      if is_true_option (includeDelimiters options) then
        let flags :=
          match so_flags options with
          | Some f => string_or f (string_or (raw (pr_flags parsed))
                                             EmptyString)
          | None => string_or (raw (pr_flags parsed)) EmptyString
          end in
        Some ("/" +:+ result +:+ "/"
                  +:+ (if is_true_option (includeFlags options) then flags
                       else EmptyString))
      else Some result
  end.

End Serialization.

(* ================================================================== *)
(** ** 7. Analysis utilities *)

Record RegexAnalysis : Type := mkAnalysis {
  hasBackreferences : bool;
  hasLookarounds : bool;
  hasNamedGroups : bool;
  captureGroupCount : Z;
  an_minLength : Z;
  an_maxLength : option Z;
  an_flags : string
}.

(** The four variables the handlers of [analyzeRegex] write. *)
Record AnalysisState : Type := mkAnalysisState {
  st_backreferences : bool;
  st_lookarounds : bool;
  st_namedGroups : bool;
  st_captureGroups : Z
}.

Section Analysis.

Variable parseRegExpLiteral : string -> option RegExpLiteral.

(** The visitor of the regexpp package: the elements [visitRegExpAST]
    enters in the tree it is given, in the order it enters them. *)
Variable enteredElements : Node -> list Element.

(** [onBackreferenceEnter], [onAssertionEnter] and [onCapturingGroupEnter],
    as the visitor calls them on entering [node]. *)
Definition onEnter (st : AnalysisState) (node : Element) : AnalysisState :=
  match node with
  | Backreference _ =>
      {| st_backreferences := true;
         st_lookarounds := st_lookarounds st;
         st_namedGroups := st_namedGroups st;
         st_captureGroups := st_captureGroups st |}
  | Assertion kind _ _ =>
      match kind with
      | as_lookahead | as_lookbehind =>
          {| st_backreferences := st_backreferences st;
             st_lookarounds := true;
             st_namedGroups := st_namedGroups st;
             st_captureGroups := st_captureGroups st |}
      | _ => st
      end
  | CapturingGroup name _ =>
      {| st_backreferences := st_backreferences st;
         st_lookarounds := st_lookarounds st;
         st_namedGroups :=
           match name with
           | Some n => if truthy_string n then true else st_namedGroups st
           | None => st_namedGroups st
           end;
         st_captureGroups := st_captureGroups st + 1 |}
  | _ => st
  end.

(** [None] is the error thrown by [parseRegex]. *)
Definition analyzeRegex (regex : RegexInput) : option RegexAnalysis :=
  match parseRegex parseRegExpLiteral regex with
  | None => None
  | Some parsed =>
      let st :=
        fold_left onEnter (enteredElements (pr_ast parsed))
                  {| st_backreferences := false;
                     st_lookarounds := false;
                     st_namedGroups := false;
                     st_captureGroups := 0 |} in
      let estimate := LengthEstimatorVisitor.estimate (pr_pattern parsed) in
      Some {| hasBackreferences := st_backreferences st;
              hasLookarounds := st_lookarounds st;
              hasNamedGroups := st_namedGroups st;
              captureGroupCount := st_captureGroups st;
              an_minLength := est_min estimate;
              an_maxLength := est_max estimate;
              an_flags := raw (pr_flags parsed) |}
  end.

End Analysis.

(* ================================================================== *)
(** ** Further properties stated about the module *)

Definition sum_Z (l : list Z) : Z := fold_right Z.add 0 l.

(** The elements that match exactly one character. *)
Definition single_character (e : Element) : bool :=
  match e with
  | Character _ | CharacterSetE _ | CharacterClass _ _ => true
  | _ => false
  end.

Definition is_assertion (e : Element) : bool :=
  match e with
  | Assertion _ _ _ => true
  | _ => false
  end.

(** A source of unbounded length below [e], lookarounds left aside: a
    quantifier without upper count, or a backreference. *)
Fixpoint open_ended (e : Element) : bool :=
  match e with
  | QuantifierE (mkQuantifier _ _ qmax _ element) =>
      match qmax with
      | Infinity => true
      | Fin _ => open_ended element
      end
  | CapturingGroup _ alternatives
  | Group alternatives =>
      existsb (fun alt => match alt with
                          | mkAlternative es => existsb open_ended es
                          end) alternatives
  | Backreference _ => true
  | _ => false
  end.

Definition open_ended_alternatives (alternatives : list Alternative) : bool :=
  existsb (fun alt => existsb open_ended (alt_elements alt)) alternatives.

(** The capturing groups and the named ones in a list of entered nodes. *)
Definition is_capturing (e : Element) : bool :=
  match e with
  | CapturingGroup _ _ => true
  | _ => false
  end.

Definition is_named_group (e : Element) : bool :=
  match e with
  | CapturingGroup (Some n) _ => truthy_string n
  | _ => false
  end.

Definition is_backreference (e : Element) : bool :=
  match e with
  | Backreference _ => true
  | _ => false
  end.

Definition is_lookaround (e : Element) : bool :=
  match e with
  | Assertion as_lookahead _ _ | Assertion as_lookbehind _ _ => true
  | _ => false
  end.

(** The identities of the quantifiers of a list are pairwise distinct, as
    those of the nodes of one tree are. *)
Definition distinct_nodes (quantifiers : list Quantifier) : Prop :=
  List.NoDup (map q_id quantifiers).

(** A configuration narrows [q]: it binds the node to counts between the
    node's own. *)
Definition narrows (config : QuantifierConfig) (q : Quantifier) : Prop :=
  exists lo hi,
    config !! q_id q = Some (lo, Fin hi)
    /\ q_min q <= lo /\ lo <= hi /\ num_le (Fin hi) (q_max q).

(** Every quantifier node below [e], lookarounds included, passes [test]. *)
Fixpoint all_quantifiers (test : Quantifier -> bool) (e : Element) : bool :=
  match e with
  | QuantifierE (mkQuantifier i qmin qmax greedy element) =>
      test (mkQuantifier i qmin qmax greedy element)
      && all_quantifiers test element
  | CapturingGroup _ alternatives
  | Group alternatives
  | Assertion _ _ alternatives =>
      forallb (fun alt => match alt with
                          | mkAlternative es =>
                              forallb (all_quantifiers test) es
                          end) alternatives
  | _ => true
  end.

Definition all_quantifiers_of (test : Quantifier -> bool) (p : Pattern)
  : bool :=
  forallb (fun alt => forallb (all_quantifiers test) (alt_elements alt))
          (p_alternatives p).

(** What [regexToString] writes for a quantifier: the minimum count is 0,
    the maximum count is the node's own. *)
Definition zero_minimum_writer (node : Quantifier) (element : string)
  : string :=
  written_quantifier element 0 (q_max node) (negb (q_greedy node)).

(** The text [transform] hands to [parseRegex]. *)
Definition transform_input (pattern : string) (flags : option string)
  : string :=
  match flags with
  | Some f => if truthy_string f then "/" +:+ pattern +:+ "/" +:+ f
              else pattern
  | None => pattern
  end.

(** More samples. *)
Module MoreSamples.

Import Samples.

(** [/a+/] and what [regexToString] makes of it. *)
Definition a_plus : RegExpLiteral :=
  literal [[QuantifierE (mkQuantifier 1 1 Infinity true (Character "a"))]].
Definition a_plus_parser : string -> option RegExpLiteral :=
  table_parser [("/a+/", a_plus)].

(** [/^test$/g], given as a text with its delimiters. *)
Definition test_g : RegExpLiteral :=
  {| lit_pattern :=
       {| p_alternatives :=
            [mkAlternative
               (Assertion as_start false [] :: chars "test"
                  ++ [Assertion as_end false []])] |};
     lit_flags := {| raw := "g" |} |}.
Definition test_g_parser : string -> option RegExpLiteral :=
  table_parser [("/^test$/g", test_g)].

(** [/(?<year>\d{4})-(?<month>\d{2})/]. *)
Definition year_month : RegExpLiteral :=
  literal [[CapturingGroup (Some "year")
              [mkAlternative
                 [QuantifierE (mkQuantifier 1 4 (Fin 4) true digit)]];
            Character "-";
            CapturingGroup (Some "month")
              [mkAlternative
                 [QuantifierE (mkQuantifier 2 2 (Fin 2) true digit)]]]].
Definition year_month_parser : string -> option RegExpLiteral :=
  table_parser [("/(?<year>\d{4})-(?<month>\d{2})/", year_month)].

(** A visitor that enters every element, parents first. *)
Fixpoint preorder (e : Element) : list Element :=
  let below (alternatives : list Alternative) :=
    flat_map (fun alt => match alt with
                         | mkAlternative es => flat_map preorder es
                         end) alternatives in
  e :: match e with
       | QuantifierE (mkQuantifier _ _ _ _ element) => preorder element
       | CapturingGroup _ alternatives
       | Group alternatives
       | Assertion _ _ alternatives => below alternatives
       | _ => []
       end.

Definition enter_all (n : Node) : list Element :=
  match n with
  | NLiteral ast =>
      flat_map (fun alt => flat_map preorder (alt_elements alt))
               (p_alternatives (lit_pattern ast))
  | NPattern p =>
      flat_map (fun alt => flat_map preorder (alt_elements alt))
               (p_alternatives p)
  | NAlternative alt => flat_map preorder (alt_elements alt)
  | NElement e => preorder e
  | NEmptyObject => []
  end.

(** The quantifier of [/a{5,10}/]. *)
Definition five_to_ten : Quantifier :=
  mkQuantifier 1 5 (Fin 10) true (Character "a").

End MoreSamples.

(** A configuration kept by the loop over the target lengths: its rewritten
    text parses and the estimated minimum lies in the requested range. *)
Definition in_range_config
           (parseRegExpLiteral : string -> option RegExpLiteral)
           (parsed : ParsedRegex) (minLength maxLength : Z)
           (config : QuantifierConfig) : Prop :=
  exists p,
    parseRegex parseRegExpLiteral
      (RegexString
         (RegexCandidateGenerator.applyQuantifierConfiguration parsed config))
    = Some p
    /\ minLength
       <= est_min (LengthEstimatorVisitor.estimate (pr_pattern p))
       <= maxLength.

(** The entry the loop over the target lengths gives a quantifier. *)
Definition target_entry (quantifiers : list Quantifier) (targetLength : Z)
           (q : Quantifier) : Z * num :=
  if RegexCandidateGenerator.includes
       (RegexCandidateGenerator.growableQuantifiers quantifiers) q
  then
    let finalValue :=
      RegexCandidateGenerator.clampReps
        q
        (targetLength
         / (Z.of_nat (length (RegexCandidateGenerator.growableQuantifiers
                                quantifiers))
            * RegexCandidateGenerator.elemLength q))
        targetLength in
    (finalValue, Fin finalValue)
  else RegexCandidateGenerator.own_bounds q.

(** The entry the fallback configuration gives a quantifier. *)
Definition fallback_entry (minLength : Z) (q : Quantifier) : Z * num :=
  let finalValue :=
    RegexCandidateGenerator.clampReps
      q (minLength / RegexCandidateGenerator.elemLength q) minLength in
  (finalValue, Fin finalValue).

(** A configuration built by binding each quantifier of a list in turn. *)
Definition bind_all (entry : Quantifier -> Z * num)
           (quantifiers : list Quantifier) : QuantifierConfig :=
  fold_left (fun (config : QuantifierConfig) q =>
               <[q_id q := entry q]> config)
            quantifiers ∅.

(* ================================================================== *)
(** ** The schema walker: [handleSchema] and [createMockGenerator]

    The schema library, the custom generators, the handlers of the schema
    kinds and the random source are outside this development: they are the
    parameters of the section.  A generator reads and advances the state of
    the random source; it returns a value or throws. *)

Module SchemaWalker.

(** The outcome of a call: a returned value, or a thrown error. *)
Inductive Outcome (A : Type) : Type :=
| Returned (value : A)
| Thrown (message : string).

Arguments Returned {A} value.
Arguments Thrown {A} message.

Section Walker.

(** What a schema or a pipe item carries besides its type and its pipe. *)
Variable Payload : Type.

(** A schema or a pipe item: an object with a [type], maybe a [pipe]. *)
Unset Elimination Schemes.
Inductive Item : Type :=
| mkItem (it_type : string) (it_payload : Payload)
         (it_pipe : option (list Item)).
Set Elimination Schemes.

Definition it_type (s : Item) : string :=
  match s with mkItem t _ _ => t end.
Definition it_payload (s : Item) : Payload :=
  match s with mkItem _ p _ => p end.
Definition it_pipe (s : Item) : option (list Item) :=
  match s with mkItem _ _ pipe => pipe end.

(** [firstItem.pipe && firstItem.type === schema.type]. *)
Definition nested_schema (firstItem : Item) (type : string) : bool :=
  match it_pipe firstItem with
  | Some _ => String.eqb (it_type firstItem) type
  | None => false
  end.

(** The loop that unwraps nested pipes.  [allPipeItems] is its accumulator,
    [descended] tells whether [schema] is no longer the original object. *)
Fixpoint unwrap (schema : Item) (allPipeItems : list Item)
         (descended : bool) : Item * list Item * bool :=
  match schema with
  | mkItem type payload (Some (firstItem :: rest)) =>
      if nested_schema firstItem type
      then unwrap firstItem (rest ++ allPipeItems) true
      else (mkItem type payload (Some (firstItem :: rest)),
            (firstItem :: rest) ++ allPipeItems, descended)
  | mkItem type payload (Some []) =>
      (mkItem type payload (Some []), allPipeItems, descended)
  | mkItem type payload None =>
      (mkItem type payload None, allPipeItems, descended)
  end.

(** The schema the generators and handlers are given. *)
Definition unwrapped (originalSchema : Item) : Item :=
  let '(schema, allPipeItems, descended) := unwrap originalSchema [] false in
  match allPipeItems with
  | [] => schema
  | _ => if descended
         then mkItem (it_type schema) (it_payload schema) (Some allPipeItems)
         else schema
  end.

Variable Value : Type.
Variable Rng : Type.

(** [undefined], and the test [result === VOID]. *)
Variable undefined : Value.
Variable is_VOID : Value -> bool.

Definition Generator : Type := Rng -> Outcome Value * Rng.

(** [getFakeGenerator(schema)]: the custom generator, or [null]. *)
Variable getFakeGenerator : Item -> option Generator.

(** [schemaHandlers[type]], applied to the schema. *)
Variable schemaHandlers : string -> option (Item -> Generator).

(** [v.safeParse(originalSchema, result)]: the output when it succeeds. *)
Variable safeParse : Item -> Value -> option Value.

(** [faker.lorem.word()]. *)
Variable word : Rng -> Value * Rng.

(** The loop [while (maxAttempts > 0)] followed by its [throw]. *)
Fixpoint attempts (generator : Generator) (originalSchema : Item)
         (message : string) (maxAttempts : nat) (rng : Rng)
  : Outcome Value * Rng :=
  match maxAttempts with
  | O => (Thrown message, rng)
  | S remaining =>
      match generator rng with
      | (Thrown e, rng') => (Thrown e, rng')
      | (Returned result, rng') =>
          let result := if is_VOID result then undefined else result in
          match safeParse originalSchema result with
          | Some output => (Returned output, rng')
          | None => attempts generator originalSchema message remaining rng'
          end
      end
  end.

(** The default handlers, after the custom generator if there is one. *)
Definition defaultHandlers (schema originalSchema : Item) (maxAttempts : Z)
           (rng : Rng) : Outcome Value * Rng :=
  match schemaHandlers (it_type schema) with
  | Some handler =>
      attempts (handler schema) originalSchema
               ("Max attempts reached for schema type: " +:+ it_type schema)
               (Z.to_nat maxAttempts) rng
  | None => let (w, rng') := word rng in (Returned w, rng')
  end.

(** [options.maxAttempts] is the only option read here; [None] is a missing
    schema. *)
Definition handleSchema (schema : option Item) (maxAttempts : Z) (rng : Rng)
  : Outcome Value * Rng :=
  match schema with
  | None => let (w, rng') := word rng in (Returned w, rng')
  | Some originalSchema =>
      let schema := unwrapped originalSchema in
      match getFakeGenerator schema with
      | Some customGenerator =>
          match attempts customGenerator originalSchema
                         "Max attempts reached using custom fake generator"
                         (Z.to_nat maxAttempts) rng with
          | (Returned output, rng') => (Returned output, rng')
          | (Thrown _, rng') =>
              defaultHandlers schema originalSchema maxAttempts rng'
          end
      | None => defaultHandlers schema originalSchema maxAttempts rng
      end
  end.

(** [createMockGenerator(schema, options).generate()], with
    [options.maxAttempts ?? 10]. *)
Definition generate (schema : Item) (maxAttempts : option Z) (rng : Rng)
  : Outcome Value * Rng :=
  handleSchema (Some schema)
               (match maxAttempts with Some n => n | None => 10 end) rng.

(** [generateMany(count)]: [count] calls of [generate] in turn. *)
Fixpoint generateMany (schema : Item) (maxAttempts : option Z)
         (count : nat) (rng : Rng) : Outcome (list Value) * Rng :=
  match count with
  | O => (Returned [], rng)
  | S n =>
      match generate schema maxAttempts rng with
      | (Thrown e, rng') => (Thrown e, rng')
      | (Returned v, rng') =>
          match generateMany schema maxAttempts n rng' with
          | (Thrown e, rng'') => (Thrown e, rng'')
          | (Returned vs, rng'') => (Returned (v :: vs), rng'')
          end
      end
  end.

(** The pipe of a schema with the pipes nested in its first items laid out,
    the innermost first. *)
Fixpoint flat_pipe (schema : Item) : list Item :=
  match schema with
  | mkItem type _ (Some (firstItem :: rest)) =>
      if nested_schema firstItem type then flat_pipe firstItem ++ rest
      else firstItem :: rest
  | _ => []
  end.

(** A value the validation of [originalSchema] has accepted. *)
Definition validated (originalSchema : Item) (v : Value) : Prop :=
  exists result, safeParse originalSchema result = Some v.

(** Induction along the first items of the pipes, as [unwrap] descends. *)
Section FirstItemInduction.

Variable P : Item -> Prop.
Hypothesis Hnone : forall type payload, P (mkItem type payload None).
Hypothesis Hempty : forall type payload, P (mkItem type payload (Some [])).
Hypothesis Hfirst :
  forall type payload firstItem rest,
    P firstItem -> P (mkItem type payload (Some (firstItem :: rest))).

Fixpoint first_item_ind (s : Item) : P s :=
  match s with
  | mkItem type payload None => Hnone type payload
  | mkItem type payload (Some []) => Hempty type payload
  | mkItem type payload (Some (firstItem :: rest)) =>
      Hfirst type payload firstItem rest (first_item_ind firstItem)
  end.

End FirstItemInduction.

End Walker.

Arguments mkItem {Payload} it_type it_payload it_pipe.

(** A sample: lengths as payloads, a counter as random source. *)
Module WalkerSamples.

Definition leaf (type : string) (n : Z) : Item Z := mkItem type n None.

(** [v.pipe(v.pipe(v.string(), v.maxLength(50)), v.maxLength(10))]. *)
Definition inner_pipe : Item Z :=
  mkItem "string" 0 (Some [leaf "string" 0; leaf "max_length" 50]).
Definition outer_pipe : Item Z :=
  mkItem "string" 0 (Some [inner_pipe; leaf "max_length" 10]).

(** A handler that returns the state of the counter and advances it, and a
    validation that accepts the values from 3 on. *)
Definition counting (_ : Item Z) : Generator Z nat :=
  fun rng => (Returned (Z.of_nat rng), S rng).
Definition handlers (type : string) : option (Item Z -> Generator Z nat) :=
  if String.eqb type "string" then Some counting else None.
Definition from_three (_ : Item Z) (v : Z) : option Z :=
  if 3 <=? v then Some v else None.
Definition no_custom (_ : Item Z) : option (Generator Z nat) := None.
Definition a_word (rng : nat) : Z * nat := (-1, rng).

End WalkerSamples.

End SchemaWalker.

(* ================================================================== *)
(** ** The estimator on counts that overflow

    The parser reads a braced count digit by digit into a JavaScript number,
    so a count too large for a double comes back as [Infinity], as the
    minimum of the quantifier and, for [{n}], as its maximum too.  The trees
    above cannot hold such a node.  This module embeds the estimator again
    over the numbers such a tree brings in: the integers, the two infinities
    and [NaN]. *)

Module WideCounts.

(** A JavaScript number: an integer, [Infinity], [-Infinity] or [NaN]. *)
Inductive double : Type :=
| Finite (z : Z)
| PosInfinity
| NegInfinity
| NaN.

(** [x === Infinity]. *)
Definition is_Infinity (x : double) : bool :=
  match x with PosInfinity => true | _ => false end.

(** [x * y]: zero times an infinity is [NaN]. *)
Definition mul (x y : double) : double :=
  match x, y with
  | NaN, _ | _, NaN => NaN
  | Finite a, Finite b => Finite (a * b)
  | Finite a, PosInfinity | PosInfinity, Finite a =>
      if a =? 0 then NaN else if 0 <? a then PosInfinity else NegInfinity
  | Finite a, NegInfinity | NegInfinity, Finite a =>
      if a =? 0 then NaN else if 0 <? a then NegInfinity else PosInfinity
  | PosInfinity, PosInfinity | NegInfinity, NegInfinity => PosInfinity
  | PosInfinity, NegInfinity | NegInfinity, PosInfinity => NegInfinity
  end.

(** [x + y]. *)
Definition add (x y : double) : double :=
  match x, y with
  | NaN, _ | _, NaN => NaN
  | Finite a, Finite b => Finite (a + b)
  | PosInfinity, NegInfinity | NegInfinity, PosInfinity => NaN
  | PosInfinity, _ | _, PosInfinity => PosInfinity
  | NegInfinity, _ | _, NegInfinity => NegInfinity
  end.

(** [Math.min(x, y)]: [NaN] as soon as one argument is. *)
Definition Math_min (x y : double) : double :=
  match x, y with
  | NaN, _ | _, NaN => NaN
  | NegInfinity, _ | _, NegInfinity => NegInfinity
  | PosInfinity, other | other, PosInfinity => other
  | Finite a, Finite b => Finite (Z.min a b)
  end.

(** [Math.max(x, y)]. *)
Definition Math_max (x y : double) : double :=
  match x, y with
  | NaN, _ | _, NaN => NaN
  | PosInfinity, _ | _, PosInfinity => PosInfinity
  | NegInfinity, other | other, NegInfinity => other
  | Finite a, Finite b => Finite (Z.max a b)
  end.

(** The tree of the parser, with the counts of a quantifier as it stores
    them: two numbers. *)
Inductive Element : Type :=
| Character (value : ascii)
| CharacterClass (negate : bool) (elements : list ClassElement)
| CharacterSetE (node : CharacterSet)
| QuantifierE (q : Quantifier)
| CapturingGroup (name : option string) (alternatives : list Alternative)
| Group (alternatives : list Alternative)
| Assertion (kind : AssertionKind) (negate : bool)
            (alternatives : list Alternative)
| Backreference (ref : BackrefTarget)
| OtherElement
with Quantifier : Type :=
| mkQuantifier (q_id : nat) (q_min q_max : double) (q_greedy : bool)
               (q_element : Element)
with Alternative : Type :=
| mkAlternative (elements : list Element).

Definition q_min (q : Quantifier) : double :=
  match q with mkQuantifier _ m _ _ _ => m end.
Definition q_max (q : Quantifier) : double :=
  match q with mkQuantifier _ _ m _ _ => m end.
Definition q_element (q : Quantifier) : Element :=
  match q with mkQuantifier _ _ _ _ e => e end.
Definition alt_elements (a : Alternative) : list Element :=
  match a with mkAlternative es => es end.

Record Pattern : Type := mkPattern {
  p_alternatives : list Alternative
}.

Record RegExpLiteral : Type := mkRegExpLiteral {
  lit_pattern : Pattern;
  lit_flags : Flags
}.

Inductive Node : Type :=
| NLiteral (ast : RegExpLiteral)
| NPattern (pattern : Pattern)
| NAlternative (alt : Alternative)
| NElement (e : Element)
| NEmptyObject.

(** [{ min: number; max: number | null }]. *)
Record LengthEstimate : Type := mkEstimate {
  est_min : double;
  est_max : option double
}.

(** One turn of the loop of [visitSequence]. *)
Definition sequence_step (acc result : LengthEstimate) : LengthEstimate :=
  {| est_min := add (est_min acc) (est_min result);
     est_max := match est_max result with
                | None => None
                | Some rmax =>
                    match est_max acc with
                    | Some total => Some (add total rmax)
                    | None => None
                    end
                end |}.

Definition sequence_loop (results : list LengthEstimate) : LengthEstimate :=
  fold_left sequence_step results
            {| est_min := Finite 0; est_max := Some (Finite 0) |}.

(** One turn of the loop of [visitAlternatives]. *)
Definition alternatives_step (acc : double * option double)
           (result : LengthEstimate) : double * option double :=
  (Math_min (fst acc) (est_min result),
   match est_max result, snd acc with
   | Some rmax, Some overallMax => Some (Math_max overallMax rmax)
   | _, _ => None
   end).

Definition alternatives_loop (results : list LengthEstimate)
  : LengthEstimate :=
  match results with
  | [] => {| est_min := Finite 0; est_max := Some (Finite 0) |}
  | _ =>
      let '(overallMin, overallMax) :=
        fold_left alternatives_step results
                  (PosInfinity, Some (Finite 0)) in
      {| est_min := if is_Infinity overallMin then Finite 0 else overallMin;
         est_max := overallMax |}
  end.

Definition quantifier_result (qmin qmax : double)
           (elementResult : LengthEstimate) : LengthEstimate :=
  let min := mul qmin (est_min elementResult) in
  if is_Infinity qmax then {| est_min := min; est_max := None |}
  else
    match est_max elementResult with
    | None => {| est_min := min; est_max := None |}
    | Some emax => {| est_min := min; est_max := Some (mul qmax emax) |}
    end.

Fixpoint visitElement (node : Element) : LengthEstimate :=
  let visitSequence (elements : list Element) :=
    sequence_loop (map visitElement elements) in
  let visitAlternatives (alternatives : list Alternative) :=
    alternatives_loop
      (map (fun alt => match alt with
                       | mkAlternative es => visitSequence es
                       end) alternatives) in
  match node with
  | Character _ | CharacterSetE _ | CharacterClass _ _ =>
      {| est_min := Finite 1; est_max := Some (Finite 1) |}
  | QuantifierE (mkQuantifier _ qmin qmax _ element) =>
      quantifier_result qmin qmax (visitElement element)
  | Group alternatives | CapturingGroup _ alternatives =>
      match alternatives with
      | [] => {| est_min := Finite 0; est_max := Some (Finite 0) |}
      | _ => visitAlternatives alternatives
      end
  | Assertion _ _ _ => {| est_min := Finite 0; est_max := Some (Finite 0) |}
  | Backreference _ => {| est_min := Finite 0; est_max := None |}
  | OtherElement => {| est_min := Finite 0; est_max := Some (Finite 0) |}
  end.

Definition visitSequence (elements : list Element) : LengthEstimate :=
  sequence_loop (map visitElement elements).

Definition visitAlternatives (alternatives : list Alternative)
  : LengthEstimate :=
  alternatives_loop
    (map (fun alt => visitSequence (alt_elements alt)) alternatives).

Definition visitQuantifier (node : Quantifier) : LengthEstimate :=
  quantifier_result (q_min node) (q_max node) (visitElement (q_element node)).

Definition visitNode (node : Node) : LengthEstimate :=
  match node with
  | NLiteral ast => visitAlternatives (p_alternatives (lit_pattern ast))
  | NPattern pattern => visitAlternatives (p_alternatives pattern)
  | NAlternative alt => visitSequence (alt_elements alt)
  | NElement e => visitElement e
  | NEmptyObject => {| est_min := Finite 0; est_max := Some (Finite 0) |}
  end.

Definition estimate (node : Node) : LengthEstimate :=
  let result := visitNode node in
  {| est_min := est_min result; est_max := est_max result |}.

Section Parser.

(** The parser of the regexpp package; [None] when it throws. *)
Variable parseRegExpLiteral : string -> option RegExpLiteral.

(** [parseRegex(regex).pattern]; [None] is the thrown error. *)
Definition parsed_pattern (regex : RegexInput) : option Node :=
  match parseRegExpLiteral (literal_of regex) with
  | Some ast => Some (NPattern (lit_pattern ast))
  | None => None
  end.

Definition estimateMinLength (regex : RegexInput) : option double :=
  match parsed_pattern regex with
  | Some pattern => Some (est_min (estimate pattern))
  | None => None
  end.

(** The outer [option] is the thrown parse error, the inner one [null]. *)
Definition estimateMaxLength (regex : RegexInput) : option (option double) :=
  match parsed_pattern regex with
  | Some pattern => Some (est_max (estimate pattern))
  | None => None
  end.

End Parser.

(** The invariant of a length bound: the minimum is a non-negative integer,
    and a maximum that is not [null] is an integer at least the minimum. *)
Definition bound_ok (b : LengthEstimate) : Prop :=
  exists lo,
    est_min b = Finite lo
    /\ 0 <= lo
    /\ forall m, est_max b = Some m -> exists hi, m = Finite hi /\ lo <= hi.

(** The group of [a] starred, repeated by a braced count of 400 digits, and
    the tree the parser returns for it: the count has overflowed to
    [Infinity]. *)
Module Samples.

Fixpoint nines (n : nat) : string :=
  match n with
  | O => EmptyString
  | S k => String "9" (nines k)
  end.

Definition overflowing_text : string := "(?:a*){" +:+ nines 400 +:+ "}".

Definition a_star : Element :=
  QuantifierE (mkQuantifier 1 (Finite 0) PosInfinity true (Character "a")).

Definition overflowing_node : Quantifier :=
  mkQuantifier 2 PosInfinity PosInfinity true
               (Group [mkAlternative [a_star]]).

Definition overflowing_tree : RegExpLiteral :=
  {| lit_pattern :=
       {| p_alternatives := [mkAlternative [QuantifierE overflowing_node]] |};
     lit_flags := {| raw := EmptyString |} |}.

Definition overflowing_parser (source : string) : option RegExpLiteral :=
  if String.eqb source ("/" +:+ overflowing_text +:+ "/")
  then Some overflowing_tree
  else None.

End Samples.

End WideCounts.

(** A tree with integer counts among the trees with counts of any number. *)
Definition widen_num (n : num) : WideCounts.double :=
  match n with
  | Fin z => WideCounts.Finite z
  | Infinity => WideCounts.PosInfinity
  end.

Fixpoint widen_element (e : Element) : WideCounts.Element :=
  let widen_alternatives (alternatives : list Alternative) :=
    map (fun alt => match alt with
                    | mkAlternative es =>
                        WideCounts.mkAlternative (map widen_element es)
                    end) alternatives in
  match e with
  | Character value => WideCounts.Character value
  | CharacterClass negate elements => WideCounts.CharacterClass negate elements
  | CharacterSetE node => WideCounts.CharacterSetE node
  | QuantifierE (mkQuantifier i qmin qmax greedy element) =>
      WideCounts.QuantifierE
        (WideCounts.mkQuantifier i (WideCounts.Finite qmin) (widen_num qmax)
                                 greedy (widen_element element))
  | CapturingGroup name alternatives =>
      WideCounts.CapturingGroup name (widen_alternatives alternatives)
  | Group alternatives => WideCounts.Group (widen_alternatives alternatives)
  | Assertion kind negate alternatives =>
      WideCounts.Assertion kind negate (widen_alternatives alternatives)
  | Backreference ref => WideCounts.Backreference ref
  | OtherElement => WideCounts.OtherElement
  end.

Definition widen_alternative (alt : Alternative) : WideCounts.Alternative :=
  WideCounts.mkAlternative (map widen_element (alt_elements alt)).

Definition widen_pattern (p : Pattern) : WideCounts.Pattern :=
  {| WideCounts.p_alternatives := map widen_alternative (p_alternatives p) |}.

Definition widen_estimate (r : RegexLengthEstimate)
  : WideCounts.LengthEstimate :=
  {| WideCounts.est_min := WideCounts.Finite (est_min r);
     WideCounts.est_max := option_map WideCounts.Finite (est_max r) |}.

(** The two estimators return the same bound for [e]. *)
Definition widen_agrees (e : Element) : Prop :=
  WideCounts.visitElement (widen_element e)
  = widen_estimate (LengthEstimatorVisitor.visitElement e).

(** [/(?=a+)b/]: the only quantifier of the expression sits inside a
    lookahead. *)
Module LookaheadSample.

Definition lookahead_plus : RegExpLiteral :=
  Samples.literal
    [[Assertion as_lookahead false
                [mkAlternative
                   [QuantifierE
                      (mkQuantifier 1 1 Infinity true (Character "a"))]];
      Character "b"]].

Definition lookahead_parser : string -> option RegExpLiteral :=
  Samples.table_parser [("/(?=a+)b/", lookahead_plus)].

End LookaheadSample.

(* ================================================================== *)
(** ** Proofs *)

(** The traversals written with the projections agree with their nested
    form inside the fixpoints. *)
Lemma map_alternative_ext {A : Type} (f : list Element -> A)
      (alternatives : list Alternative) :
  map (fun alt => match alt with mkAlternative es => f es end) alternatives
  = map (fun alt => f (alt_elements alt)) alternatives.
Proof. apply map_ext. intros []. reflexivity. Qed.


(* ================================================================== *)
(** ** The length estimator *)

Module EstimatorFacts.

Import LengthEstimatorVisitor.

Lemma visitElement_quantifier i qmin qmax greedy element :
  visitElement (QuantifierE (mkQuantifier i qmin qmax greedy element))
  = quantifier_result qmin qmax (visitElement element).
Proof. reflexivity. Qed.

Lemma visitElement_alternatives_nested (alternatives : list Alternative) :
  alternatives_loop
    (map (fun alt => match alt with
                     | mkAlternative es => sequence_loop (map visitElement es)
                     end) alternatives)
  = visitAlternatives alternatives.
Proof.
  unfold visitAlternatives, visitSequence.
  now rewrite (map_alternative_ext
                 (fun es => sequence_loop (map visitElement es))).
Qed.

Lemma alternatives_loop_nil_free (alternatives : list Alternative) :
  match alternatives with
  | [] => {| est_min := 0; est_max := Some 0 |}
  | _ => visitAlternatives alternatives
  end = visitAlternatives alternatives.
Proof. now destruct alternatives. Qed.

Lemma visitElement_group alternatives :
  visitElement (Group alternatives) = visitAlternatives alternatives.
Proof.
  rewrite <- alternatives_loop_nil_free, <- visitElement_alternatives_nested.
  now destruct alternatives.
Qed.

Lemma visitElement_capturing name alternatives :
  visitElement (CapturingGroup name alternatives)
  = visitAlternatives alternatives.
Proof.
  rewrite <- alternatives_loop_nil_free, <- visitElement_alternatives_nested.
  now destruct alternatives.
Qed.

(** *** Sequences *)




(** *** Alternations: the two accumulators of the loop, one at a time *)

Lemma alternatives_fold_split results : forall acc,
  fold_left alternatives_step results acc
  = (fold_left min_step results (fst acc),
     fold_left max_step results (snd acc)).
Proof.
  induction results as [|r rest IH]; intros [a b]; simpl; [reflexivity|].
  now rewrite IH.
Qed.


Lemma max_fold_none results : fold_left max_step results None = None.
Proof.
  induction results as [|r rest IH]; simpl; [reflexivity|].
  replace (max_step None r) with (@None Z); [exact IH|].
  unfold max_step. now destruct (est_max r).
Qed.

Lemma bounded_or_not (results : list RegexLengthEstimate) :
  (exists b, In b results /\ est_max b = None)
  \/ (forall b, In b results -> est_max b <> None).
Proof.
  induction results as [|r rest [(b & Hin & Hb)|IH]].
  - right. intros b [].
  - left. exists b. split; [now right|exact Hb].
  - destruct (est_max r) as [m|] eqn:Er.
    + right. intros b [<-|Hin]; [now rewrite Er|now apply IH].
    + left. exists r. split; [now left|exact Er].
Qed.

Lemma max_fold_unbounded results : forall acc,
  (exists b, In b results /\ est_max b = None) ->
  fold_left max_step results acc = None.
Proof.
  induction results as [|r rest IH]; intros acc (b & Hin & Hb); simpl.
  - destruct Hin.
  - destruct Hin as [->|Hin].
    + replace (max_step acc b) with (@None Z); [apply max_fold_none|].
      unfold max_step. now rewrite Hb.
    + apply IH. now exists b.
Qed.

Lemma max_fold_bounded results : forall o,
  (forall b, In b results -> est_max b <> None) ->
  exists M, fold_left max_step results (Some o) = Some M
            /\ (M = o \/ In (Some M) (map est_max results))
            /\ o <= M
            /\ Forall (fun b => forall m, est_max b = Some m -> m <= M)
                      results.
Proof.
  induction results as [|r rest IH]; intros o Hall; simpl.
  - exists o. repeat split; [now left|lia|constructor].
  - assert (Hr : est_max r <> None) by (apply Hall; now left).
    destruct (est_max r) as [rmax|] eqn:Er; [|easy].
    destruct (IH (Z.max o rmax)) as (M & Hfold & Hin & Hle & Hrest).
    { intros b Hb. apply Hall. now right. }
    exists M.
    replace (max_step (Some o) r) with (Some (Z.max o rmax))
      by (unfold max_step; now rewrite Er).
    repeat split.
    + exact Hfold.
    + destruct Hin as [->|Hin]; [|now right; right].
      destruct (Z.max_spec o rmax) as [[_ ->]|[_ ->]];
        [right; now left | now left].
    + lia.
    + constructor; [|exact Hrest].
      intros m. rewrite Er. intros [= <-]. lia.
Qed.



End EstimatorFacts.

Module EstimatorInvariant.

Import LengthEstimatorVisitor EstimatorFacts.











End EstimatorInvariant.


(** C7.  For a repetition with counts (qmin, qmax) around an element of bound
    (im, ix), the estimate has minimum qmin * im; its maximum is unbounded
    exactly when qmax or ix is unbounded, and is qmax * ix otherwise. *)
Theorem repetition_bound (q : Quantifier) :
  let inner := LengthEstimatorVisitor.visitElement (q_element q) in
  let r := LengthEstimatorVisitor.visitElement (QuantifierE q) in
  r = LengthEstimatorVisitor.visitQuantifier q
  /\ est_min r = q_min q * est_min inner
  /\ (est_max r = None <-> q_max q = Infinity \/ est_max inner = None)
  /\ est_max r = match q_max q, est_max inner with
                 | Fin qmax, Some ix => Some (qmax * ix)
                 | _, _ => None
                 end.
Proof.
  destruct q as [i qmin qmax greedy element]. cbn zeta.
  rewrite EstimatorFacts.visitElement_quantifier.
  unfold LengthEstimatorVisitor.visitQuantifier,
    LengthEstimatorVisitor.quantifier_result.
  cbn [q_min q_max q_element].
  destruct qmax as [qm|],
           (est_max (LengthEstimatorVisitor.visitElement element)) as [ix|];
    cbn [est_min est_max]; repeat split; auto; try discriminate;
    intros [H|H]; discriminate.
Qed.



Lemma repetition_bound_witness :
  est_min (LengthEstimatorVisitor.visitElement
             (QuantifierE (mkQuantifier 1 3 (Fin 5) true Samples.digits)))
  = 3 * 1
  /\ est_max (LengthEstimatorVisitor.visitElement
                (QuantifierE (mkQuantifier 1 3 (Fin 5) true Samples.digits)))
     = Some (5 * 1).
Proof.
  destruct (repetition_bound (mkQuantifier 1 3 (Fin 5) true Samples.digits))
    as (_ & Hmin & _ & Hmax).
  split; [exact Hmin|exact Hmax].
Defined.


(* ================================================================== *)
(** ** The candidate generator *)

Module GeneratorFacts.

Import LengthEstimatorVisitor RegexCandidateGenerator.

Lemma flat_map_nil {A B : Type} (f : A -> list B) (l : list A) :
  Forall (fun x => f x = []) l -> flat_map f l = [].
Proof.
  induction 1 as [|x xs Hx _ IH]; simpl; [reflexivity|].
  now rewrite Hx, IH.
Qed.

Lemma visitor_alternatives (alternatives : list Alternative) :
  flat_map (fun alt => match alt with
                       | mkAlternative es => flat_map visitor es
                       end) alternatives
  = flat_map (fun alt => flat_map visitor (alt_elements alt)) alternatives.
Proof.
  induction alternatives as [|[es] rest IH]; simpl; [reflexivity|].
  now rewrite IH.
Qed.

Lemma has_quantifier_alternatives (alternatives : list Alternative) :
  existsb (fun alt => match alt with
                      | mkAlternative es => existsb has_quantifier es
                      end) alternatives
  = existsb (fun alt => existsb has_quantifier (alt_elements alt))
            alternatives.
Proof.
  induction alternatives as [|[es] rest IH]; simpl; [reflexivity|].
  now rewrite IH.
Qed.

(** Without a quantifier below them, alternatives yield none. *)
Lemma no_quantifier_alternatives (alternatives : list Alternative) :
  all_elements (fun e => has_quantifier e = false -> visitor e = [])
               alternatives ->
  existsb (fun alt => existsb has_quantifier (alt_elements alt))
          alternatives = false ->
  flat_map (fun alt => flat_map visitor (alt_elements alt)) alternatives
  = [].
Proof.
  unfold all_elements. intros IH Hno. apply flat_map_nil.
  rewrite List.Forall_forall in *. intros alt Halt.
  apply flat_map_nil. apply List.Forall_forall. intros e He.
  apply (proj1 (List.Forall_forall _ _) (IH alt Halt) e He).
  destruct (has_quantifier e) eqn:Eq; [|reflexivity].
  rewrite <- Hno. symmetry. apply existsb_exists. exists alt.
  split; [exact Halt|]. apply existsb_exists. now exists e.
Qed.

Lemma visitor_no_quantifier (e : Element) :
  has_quantifier e = false -> visitor e = [].
Proof.
  induction e using Element_nested_ind; intros Hno;
    try reflexivity; try discriminate.
  - cbn [visitor]. rewrite visitor_alternatives.
    cbn [has_quantifier] in Hno. rewrite has_quantifier_alternatives in Hno.
    now apply no_quantifier_alternatives.
  - cbn [visitor]. rewrite visitor_alternatives.
    cbn [has_quantifier] in Hno. rewrite has_quantifier_alternatives in Hno.
    now apply no_quantifier_alternatives.
Qed.

Lemma findQuantifiers_no_quantifier (p : Pattern) :
  pattern_has_quantifier p = false -> findQuantifiers (NPattern p) = [].
Proof.
  intros Hno. cbn [findQuantifiers].
  apply no_quantifier_alternatives; [|exact Hno].
  apply List.Forall_forall. intros alt _.
  apply List.Forall_forall. intros e _. apply visitor_no_quantifier.
Qed.

Lemma new_parsed parser regex parsed :
  parseRegex parser regex = Some parsed -> new parser regex = parsed.
Proof. unfold new. now intros ->. Qed.

Lemma parseRegex_pattern parser regex parsed :
  parseRegex parser regex = Some parsed ->
  exists ast, parser (literal_of regex) = Some ast
              /\ pr_pattern parsed = NPattern (lit_pattern ast).
Proof.
  unfold parseRegex.
  destruct (parser (literal_of regex)) as [ast|]; [|discriminate].
  intros [= <-]. now exists ast.
Qed.

End GeneratorFacts.

(** C5.  When the expression parses to a tree without any quantifier node,
    the candidate generator returns exactly one candidate: its text is the
    source of the parsed expression, unchanged, and its bound is the bound
    the estimator gives for the pattern, that is the results of
    [estimateMinLength] and [estimateMaxLength]. *)
Theorem fixed_pattern_single_candidate
        (parseRegExpLiteral : string -> option RegExpLiteral)
        (regex : RegexInput) (parsed : ParsedRegex) (p : Pattern)
        (minLength maxLength count : Z) :
  parseRegex parseRegExpLiteral regex = Some parsed ->
  pr_pattern parsed = NPattern p ->
  pattern_has_quantifier p = false ->
  exists c,
    generateFor parseRegExpLiteral regex minLength maxLength count = [c]
    /\ c_regex c = pr_source parsed
    /\ c_minLength c = est_min (LengthEstimatorVisitor.estimate (NPattern p))
    /\ c_maxLength c = est_max (LengthEstimatorVisitor.estimate (NPattern p))
    /\ estimateMinLength parseRegExpLiteral regex = Some (c_minLength c)
    /\ estimateMaxLength parseRegExpLiteral regex = Some (c_maxLength c).
Proof.
  intros Hparse Hp Hno.
  unfold generateFor, RegexCandidateGenerator.generate.
  rewrite (GeneratorFacts.new_parsed _ _ _ Hparse), Hp.
  rewrite (GeneratorFacts.findQuantifiers_no_quantifier _ Hno).
  eexists. split; [reflexivity|]. cbn [c_regex c_minLength c_maxLength].
  unfold estimateMinLength, estimateMaxLength. rewrite Hparse, Hp.
  repeat split.
Qed.

Lemma fixed_pattern_single_candidate_witness :
  generateFor Samples.hello_parser (Samples.regexp "hello") 3 8 5
  = [{| c_regex := "hello"; c_minLength := 5; c_maxLength := Some 5 |}].
Proof.
  assert (Hparse : parseRegex Samples.hello_parser (Samples.regexp "hello")
                   = Some (RegexCandidateGenerator.new
                             Samples.hello_parser (Samples.regexp "hello")))
    by (vm_compute; reflexivity).
  destruct (fixed_pattern_single_candidate
              Samples.hello_parser (Samples.regexp "hello") _
              (lit_pattern Samples.hello) 3 8 5
              Hparse eq_refl eq_refl)
    as (c & Hgen & Hregex & Hmin & Hmax & _).
  rewrite Hgen. destruct c as [regex lo hi].
  cbn [c_regex c_minLength c_maxLength] in *.
  rewrite Hregex, Hmin, Hmax. vm_compute. reflexivity.
Defined.

Module ConfigurationFacts.

Import LengthEstimatorVisitor RegexCandidateGenerator.

Lemma slice0_nonempty {A : Type} (l : list A) (count : Z) :
  1 <= count -> l <> [] -> slice0 l count <> [].
Proof.
  intros Hc Hl. unfold slice0.
  destruct (0 <=? count) eqn:E; [|apply Z.leb_gt in E; lia].
  destruct l as [|x xs]; [easy|].
  destruct (Z.to_nat count) as [|n] eqn:En; [lia|]. discriminate.
Qed.

Lemma slice0_from_empty {A : Type} (l : list A) (count : Z) :
  slice0 l count <> [] -> l <> [].
Proof.
  intros H ->. apply H. unfold slice0.
  destruct (0 <=? count); now rewrite firstn_nil.
Qed.

Lemma flat_map_nonempty {A B : Type} (f : A -> list B) (l : list A) :
  flat_map f l <> [] <-> exists x, In x l /\ f x <> [].
Proof.
  split.
  - induction l as [|x xs IH]; simpl; [easy|].
    destruct (f x) as [|y ys] eqn:Ex.
    + intros H. destruct (IH H) as (z & Hz & Hfz). exists z. auto.
    + intros _. exists x. split; [now left|now rewrite Ex].
  - intros (x & Hx & Hfx) Hnil. apply Hfx.
    apply List.in_split in Hx as (l1 & l2 & ->).
    rewrite flat_map_app in Hnil. simpl in Hnil.
    apply app_eq_nil in Hnil as [_ Hnil].
    now apply app_eq_nil in Hnil as [Hnil _].
Qed.

Lemma candidateOf_nonempty parser parsed config :
  candidateOf parser parsed config <> []
  <-> parseRegex parser
        (RegexString (applyQuantifierConfiguration parsed config)) <> None.
Proof.
  unfold candidateOf.
  destruct (parseRegex parser _); split; intros H; try easy.
Qed.

Lemma configurations_nonempty parser parsed quantifiers
      minLength maxLength count :
  1 <= count ->
  generateQuantifierConfigurations parser parsed quantifiers
                                   minLength maxLength count <> [].
Proof.
  intros Hc. unfold generateQuantifierConfigurations.
  destruct (growableQuantifiers quantifiers); [discriminate|].
  apply slice0_nonempty; [exact Hc|].
  now destruct (targetLoop _ _ _ _ _ _ _ _).
Qed.

Lemma generate_unfold parser parsed minLength maxLength count :
  findQuantifiers (pr_pattern parsed) <> [] ->
  generate parser parsed minLength maxLength count
  = slice0
      (flat_map (candidateOf parser parsed)
                (generateQuantifierConfigurations
                   parser parsed (findQuantifiers (pr_pattern parsed))
                   minLength maxLength count))
      count.
Proof.
  intros Hq. unfold generate.
  now destruct (findQuantifiers (pr_pattern parsed)).
Qed.

Lemma fallback_fold_pinned minLength (l : list Quantifier) :
  forall (config : QuantifierConfig) (id : nat),
    pinned config id \/ (exists q, In q l /\ q_id q = id) ->
    pinned
      (fold_left
         (fun (config : QuantifierConfig) q =>
            let repsNeeded := minLength / elemLength q in
            let finalValue := clampReps q repsNeeded minLength in
            <[q_id q := (finalValue, Fin finalValue)]> config)
         l config) id.
Proof.
  induction l as [|q rest IH]; intros config id H; simpl.
  - destruct H as [H|(q & [] & _)]. exact H.
  - apply IH.
    destruct (decide (q_id q = id)) as [Heq|Hne].
    + left. eexists. rewrite <- Heq. apply lookup_insert_eq.
    + destruct H as [(n & Hn)|(q' & [->|Hin] & Hid)].
      * left. exists n. now rewrite lookup_insert_ne.
      * contradiction.
      * right. now exists q'.
Qed.

End ConfigurationFacts.

(** C4, amended.  For a pattern in which [findQuantifiers] finds a
    quantifier, and a count of at least one, the list of configurations is
    never empty; the list of candidates is non-empty exactly when the text
    rewritten for one of these configurations parses again.  When no target
    length gives a configuration inside the range, the only configuration is
    the fallback one, which binds every quantifier found to one repeat count
    computed from [minLength]. *)
Theorem generate_nonempty
        (parseRegExpLiteral : string -> option RegExpLiteral)
        (parsed : ParsedRegex) (minLength maxLength count : Z) :
  let quantifiers :=
    RegexCandidateGenerator.findQuantifiers (pr_pattern parsed) in
  let configurations :=
    RegexCandidateGenerator.generateQuantifierConfigurations
      parseRegExpLiteral parsed quantifiers minLength maxLength count in
  quantifiers <> [] ->
  1 <= count ->
  configurations <> []
  /\ (RegexCandidateGenerator.generate parseRegExpLiteral parsed
        minLength maxLength count <> []
      <-> exists config,
            In config configurations
            /\ parseRegex parseRegExpLiteral
                 (RegexString
                    (RegexCandidateGenerator.applyQuantifierConfiguration
                       parsed config)) <> None)
  /\ (RegexCandidateGenerator.growableQuantifiers quantifiers <> [] ->
      RegexCandidateGenerator.targetLoop
        parseRegExpLiteral parsed quantifiers minLength maxLength count
        (RegexCandidateGenerator.targetValues minLength maxLength) [] = [] ->
      configurations
      = [RegexCandidateGenerator.fallbackConfig quantifiers minLength])
  /\ (forall q, In q quantifiers ->
        exists n,
          RegexCandidateGenerator.fallbackConfig quantifiers minLength
            !! q_id q = Some (n, Fin n)).
Proof.
  intros quantifiers configurations Hq Hc.
  split; [now apply ConfigurationFacts.configurations_nonempty|].
  split; [|split].
  - rewrite (ConfigurationFacts.generate_unfold _ _ _ _ _ Hq).
    fold quantifiers configurations. split.
    + intros H. apply ConfigurationFacts.slice0_from_empty in H.
      apply ConfigurationFacts.flat_map_nonempty in H as (config & Hin & Hne).
      exists config. split; [exact Hin|].
      now apply ConfigurationFacts.candidateOf_nonempty.
    + intros (config & Hin & Hne).
      apply ConfigurationFacts.slice0_nonempty; [exact Hc|].
      apply ConfigurationFacts.flat_map_nonempty. exists config.
      split; [exact Hin|]. now apply ConfigurationFacts.candidateOf_nonempty.
  - intros Hg Hloop. subst configurations.
    unfold RegexCandidateGenerator.generateQuantifierConfigurations.
    destruct (RegexCandidateGenerator.growableQuantifiers quantifiers);
      [easy|].
    rewrite Hloop. unfold slice0.
    destruct (0 <=? count) eqn:E; [|apply Z.leb_gt in E; lia].
    destruct (Z.to_nat count) as [|n] eqn:En; [lia|]. now destruct n.
  - intros q Hin.
    apply (ConfigurationFacts.fallback_fold_pinned minLength quantifiers).
    right. now exists q.
Qed.

(** C4 as stated fails: for [/\/+/] every rewritten text starts with a slash
    and is rejected when parsed again, so that no candidate is left; and a
    count of zero leaves none for [/^[0-9]+$/]. *)
Lemma generate_can_be_empty :
  (RegexCandidateGenerator.findQuantifiers
     (NPattern (lit_pattern Samples.slash_plus)) <> []
   /\ generateFor Samples.slash_parser (Samples.regexp "\/+") 3 3 5 = [])
  /\ (RegexCandidateGenerator.findQuantifiers
        (NPattern (lit_pattern Samples.digits_plus)) <> []
      /\ generateFor Samples.digits_parser (Samples.regexp "^[0-9]+$")
                     9 9 0 = []).
Proof.
  split; split; try discriminate; vm_compute; reflexivity.
Qed.

Lemma generate_nonempty_witness :
  RegexCandidateGenerator.findQuantifiers (pr_pattern Samples.digits_parsed)
  <> []
  /\ 1 <= 1
  /\ RegexCandidateGenerator.generate
       Samples.digits_parser Samples.digits_parsed 9 9 1
     = [{| c_regex := "^[0-9]{9}$"; c_minLength := 9;
           c_maxLength := Some 9 |}]
  /\ RegexCandidateGenerator.generateQuantifierConfigurations
       Samples.digits_parser Samples.digits_parsed
       (RegexCandidateGenerator.findQuantifiers
          (pr_pattern Samples.digits_parsed))
       9 9 1 <> [].
Proof.
  assert (Hq : RegexCandidateGenerator.findQuantifiers
                 (pr_pattern Samples.digits_parsed) <> [])
    by (vm_compute; discriminate).
  assert (Hc : 1 <= 1) by lia.
  split; [exact Hq|]. split; [exact Hc|]. split; [vm_compute; reflexivity|].
  exact (proj1 (generate_nonempty Samples.digits_parser Samples.digits_parsed
                                  9 9 1 Hq Hc)).
Defined.

(* ================================================================== *)
(** ** The rewriters *)

Module RewriterFacts.

Lemma append_nil_r (s : string) : s +:+ EmptyString = s.
Proof.
  induction s as [|c s IH]; [reflexivity|].
  change (String c (s +:+ EmptyString) = String c s). now rewrite IH.
Qed.

Lemma append_assoc (a b c : string) : (a +:+ b) +:+ c = a +:+ b +:+ c.
Proof.
  induction a as [|x a IH]; [reflexivity|].
  change (String x ((a +:+ b) +:+ c) = String x (a +:+ b +:+ c)).
  now rewrite IH.
Qed.

Lemma num_eqb_eq (a b : num) : num_eqb a b = true <-> a = b.
Proof.
  destruct a as [x|], b as [y|]; simpl; split; intros H;
    try discriminate; try reflexivity.
  - apply Z.eqb_eq in H. now subst.
  - injection H as ->. apply Z.eqb_refl.
Qed.

(** The chain of tests of [transformQuantifier] writes the canonical
    counts, and marks laziness except on the form [{n}]. *)
Lemma buildQuantifier_written element lo hi (lazy : bool) :
  Rewriter.buildQuantifier element lo hi (if lazy then "?" else EmptyString)
  = written_quantifier element lo hi lazy.
Proof.
  unfold Rewriter.buildQuantifier, written_quantifier, canonical_counts.
  destruct (num_eqb (Fin lo) hi) eqn:Eeq; cbn [negb];
    rewrite ?andb_true_r, ?andb_false_r.
  - (* equal counts: none of the three shorthands applies *)
    apply num_eqb_eq in Eeq as <-. cbn [num_eqb].
    rewrite ?andb_false_r.
    destruct (lo =? 0) eqn:E0, (lo =? 1) eqn:E1; cbn [andb];
      try (now rewrite append_nil_r).
    apply Z.eqb_eq in E0, E1. lia.
  - destruct ((lo =? 0) && num_eqb hi (Fin 1)); [reflexivity|].
    destruct ((lo =? 0) && num_eqb hi Infinity); [reflexivity|].
    destruct ((lo =? 1) && num_eqb hi Infinity); [reflexivity|].
    destruct hi as [m|]; cbn [num_eqb showNum];
      now rewrite !append_assoc.
Qed.

Lemma transformElement_quantifier
      (quantifierText : Quantifier -> string -> string) (q : Quantifier) :
  Rewriter.transformElement quantifierText (QuantifierE q)
  = quantifierText q
      (Rewriter.transformElement quantifierText (q_element q)).
Proof. now destruct q. Qed.

End RewriterFacts.

(** C9, amended.  Both rewriters write a quantifier as the text of its
    element followed by the canonical form of its new counts: [?] for
    {0,1}, [*] for {0,unbounded}, [+] for {1,unbounded}, [{n}] when the
    counts are equal, and [{min,}] or [{min,max}] otherwise.  A trailing [?]
    follows every form but [{n}] when the quantifier is lazy: for the
    global-target rewriter, when the node was lazy or laziness is preferred
    globally; for the per-assignment rewriter, when the node was lazy. *)
Theorem quantifier_serialization
        (minTarget : Z) (maxTarget : num) (preferLazy : option bool)
        (quantifierConfig : QuantifierConfig) (node : Quantifier) :
  let newMax := match q_max node with
                | Infinity => maxTarget
                | m => num_min m maxTarget
                end in
  let newMin := Z.max 0 (Z.min (q_min node) minTarget) in
  let assigned := quantifierConfig !! q_id node in
  let cfgMin := match assigned with Some c => fst c | None => q_min node end in
  let cfgMax := match assigned with Some c => snd c | None => q_max node end in
  MinMaxTransformer.transformElement minTarget maxTarget preferLazy
                                     (QuantifierE node)
  = written_quantifier
      (MinMaxTransformer.transformElement minTarget maxTarget preferLazy
                                          (q_element node))
      newMin newMax
      (is_true_option preferLazy || negb (q_greedy node))
  /\ ConfigurableTransformer.transformElement quantifierConfig
                                              (QuantifierE node)
     = written_quantifier
         (ConfigurableTransformer.transformElement quantifierConfig
                                                   (q_element node))
         cfgMin cfgMax (negb (q_greedy node)).
Proof.
  cbn zeta. split.
  - unfold MinMaxTransformer.transformElement.
    rewrite RewriterFacts.transformElement_quantifier.
    unfold MinMaxTransformer.transformQuantifier.
    rewrite <- RewriterFacts.buildQuantifier_written.
    unfold is_true_option. reflexivity.
  - unfold ConfigurableTransformer.transformElement.
    rewrite RewriterFacts.transformElement_quantifier.
    unfold ConfigurableTransformer.transformQuantifier.
    now rewrite <- RewriterFacts.buildQuantifier_written.
Qed.

(** C9 as stated fails: the lazy quantifier of [/a{3}?/] is written [a{3}]
    by both rewriters, without the trailing [?] the claim puts after every
    form. *)
Lemma exact_count_loses_laziness :
  q_greedy Samples.lazy_exact = false
  /\ specified_quantifier "a" 3 (Fin 3) true = "a{3}?"
  /\ MinMaxTransformer.transformElement 3 (Fin 3) None
       (QuantifierE Samples.lazy_exact) = "a{3}"
  /\ ConfigurableTransformer.transformElement ∅
       (QuantifierE Samples.lazy_exact) = "a{3}"
  /\ MinMaxTransformer.transformElement 3 (Fin 3) None
       (QuantifierE Samples.lazy_exact)
     <> specified_quantifier "a" 3 (Fin 3) true.
Proof.
  repeat split; try (vm_compute; reflexivity).
  vm_compute. discriminate.
Qed.

Lemma quantifier_serialization_witness :
  MinMaxTransformer.transformElement 0 (Fin 5) (Some true)
    (QuantifierE (mkQuantifier 1 1 Infinity true Samples.digits))
  = written_quantifier "[0-9]" 0 (Fin 5) true
  /\ written_quantifier "[0-9]" 0 (Fin 5) true = "[0-9]{0,5}?".
Proof.
  split; [|vm_compute; reflexivity].
  exact (proj1 (quantifier_serialization
                  0 (Fin 5) (Some true) ∅
                  (mkQuantifier 1 1 Infinity true Samples.digits))).
Defined.

(** C2 fails on the code.  Whatever the targets, the rewriters write the
    negated set [\D] as [\d], the text of the plain set: the two trees
    differ and their rewritten texts are the same, so the text does not keep
    the construct.  Through the public entry point, [/\D/] comes back as
    [\d]. *)
Theorem negated_set_written_plain
        (minTarget : Z) (maxTarget : num) (preferLazy : option bool)
        (quantifierConfig : QuantifierConfig) :
  Samples.non_digit <> Samples.digit
  /\ MinMaxTransformer.transformElement minTarget maxTarget preferLazy
       Samples.non_digit = "\d"
  /\ MinMaxTransformer.transformElement minTarget maxTarget preferLazy
       Samples.digit = "\d"
  /\ ConfigurableTransformer.transformElement quantifierConfig
       Samples.non_digit = "\d"
  /\ (exists r,
        regexToStringMinMax Samples.non_digit_parser (Samples.regexp "\D")
                            0 5 Samples.no_options = Some r
        /\ transformed r = "\d")
  /\ Rewriter.transformElement
       (MinMaxTransformer.transformQuantifier minTarget maxTarget preferLazy)
       (Assertion as_word true []) = "\b".
Proof.
  repeat split; try discriminate.
  eexists. split; [vm_compute; reflexivity|reflexivity].
Qed.

(* ================================================================== *)
(** ** The public entry point *)

Module ApiFacts.

Import LengthEstimatorVisitor.

Lemma startsWith_slash (s : string) : startsWith ("/" +:+ s) "/" = true.
Proof. now destruct s. Qed.

Lemma truthy_false (s : string) : truthy_string s = false -> s = EmptyString.
Proof.
  unfold truthy_string. intros H. apply negb_false_iff in H.
  now apply String.eqb_eq in H.
Qed.

(** The rewriter parses the very literal the entry point has parsed. *)
Lemma transform_literal (regex : RegexInput) :
  regexp_source_ok regex = true ->
  literal_of
    (RegexString
       match flags_of regex with
       | Some f => if truthy_string f
                   then "/" +:+ source_of regex +:+ "/" +:+ f
                   else source_of regex
       | None => source_of regex
       end)
  = literal_of regex.
Proof.
  destruct regex as [s|source flags]; cbn [flags_of source_of];
    [reflexivity|].
  cbn [regexp_source_ok]. intros Hok. apply negb_true_iff in Hok.
  destruct (truthy_string flags) eqn:Ef.
  - cbn [literal_of]. now rewrite startsWith_slash.
  - apply truthy_false in Ef as ->. cbn [literal_of]. rewrite Hok.
    change ("/" +:+ source +:+ "/" +:+ EmptyString)
      with ("/" +:+ source +:+ "/").
    reflexivity.
Qed.

Lemma transform_parsed parser regex parsed minTarget maxTarget lazy :
  parseRegex parser regex = Some parsed ->
  regexp_source_ok regex = true ->
  MinMaxTransformer.transform parser minTarget maxTarget lazy
                              (source_of regex) (flags_of regex)
  = Some (MinMaxTransformer.transformPattern minTarget maxTarget lazy
                                             (pr_pattern parsed)).
Proof.
  intros Hparse Hok. unfold MinMaxTransformer.transform.
  unfold parseRegex in *. rewrite (transform_literal regex Hok).
  destruct (parser (literal_of regex)) as [ast|]; [|discriminate].
  injection Hparse as <-. reflexivity.
Qed.

(** The result of a feasible request. *)
Lemma feasible_result parser regex minLength maxLength options parsed :
  parseRegex parser regex = Some parsed ->
  regexp_source_ok regex = true ->
  est_min (estimate (pr_pattern parsed)) <= maxLength ->
  let text :=
    MinMaxTransformer.transformPattern
      minLength (Fin maxLength) (preferLazy options) (pr_pattern parsed) in
  let final :=
    finalEstimateOf parser text (flags_of regex) minLength maxLength in
  regexToStringMinMax parser regex minLength maxLength options
  = Some {| transformed := text;
            actualMinLength := est_min final;
            actualMaxLength := est_max final;
            isExact :=
              (minLength <=? est_min final)
              && match est_max final with
                 | None => true
                 | Some m => m <=? maxLength
                 end;
            candidates :=
              if is_true_option (generateCandidates options)
              then Some (generateFor parser regex minLength maxLength
                                     (candidateCount_or_5 options))
              else None;
            warning :=
              if maxLength <? est_min final
              then Some ("Constraints are too strict. Actual min: "
                         +:+ showZ (est_min final))
              else None |}.
Proof.
  intros Hparse Hok Hfeasible text final.
  unfold regexToStringMinMax. rewrite Hparse.
  destruct (maxLength <? est_min (estimate (pr_pattern parsed))) eqn:E;
    [apply Z.ltb_lt in E; lia|].
  now rewrite (transform_parsed _ _ _ _ _ _ Hparse Hok).
Qed.

(** The result of an infeasible request. *)
Lemma infeasible_result parser regex minLength maxLength options parsed :
  parseRegex parser regex = Some parsed ->
  maxLength < est_min (estimate (pr_pattern parsed)) ->
  let structuralMin := est_min (estimate (pr_pattern parsed)) in
  regexToStringMinMax parser regex minLength maxLength options
  = Some {| transformed := regex_toString regex;
            actualMinLength := structuralMin;
            actualMaxLength := est_max (estimate (pr_pattern parsed));
            isExact := false;
            warning :=
              Some ("Cannot meet maxLength=" +:+ showZ maxLength
                    +:+ ". Structural minimum is " +:+ showZ structuralMin);
            candidates :=
              if is_true_option (generateCandidates options)
              then Some (generateFor parser regex structuralMin
                                     (structuralMin + 10)
                                     (candidateCount_or_5 options))
              else None |}.
Proof.
  intros Hparse Hlt structuralMin.
  unfold regexToStringMinMax. rewrite Hparse.
  apply Z.ltb_lt in Hlt. now rewrite Hlt.
Qed.

End ApiFacts.

(** C1, amended.  For a request whose structural minimum does not exceed
    [maxLength], the result reports the re-estimated bound of the rewritten
    pattern whenever the rewritten text parses again, and [isExact] holds if
    and only if the reported minimum is at least [minLength] and the reported
    maximum is either unbounded or at most [maxLength]. *)
Theorem exactness_criterion
        (parseRegExpLiteral : string -> option RegExpLiteral)
        (regex : RegexInput) (minLength maxLength : Z)
        (options : MinMaxOptions) (parsed : ParsedRegex) :
  parseRegex parseRegExpLiteral regex = Some parsed ->
  regexp_source_ok regex = true ->
  est_min (LengthEstimatorVisitor.estimate (pr_pattern parsed))
  <= maxLength ->
  exists r,
    regexToStringMinMax parseRegExpLiteral regex minLength maxLength options
    = Some r
    /\ transformed r
       = MinMaxTransformer.transformPattern
           minLength (Fin maxLength) (preferLazy options) (pr_pattern parsed)
    /\ (forall reparsed,
          parseRegex parseRegExpLiteral
            (RegexString (transformedRegexOf (transformed r) (flags_of regex)))
          = Some reparsed ->
          actualMinLength r
          = est_min (LengthEstimatorVisitor.estimate (pr_pattern reparsed))
          /\ actualMaxLength r
             = est_max (LengthEstimatorVisitor.estimate
                          (pr_pattern reparsed)))
    /\ (isExact r = true
        <-> minLength <= actualMinLength r
            /\ (actualMaxLength r = None
                \/ exists m, actualMaxLength r = Some m /\ m <= maxLength)).
Proof.
  intros Hparse Hok Hfeasible.
  rewrite (ApiFacts.feasible_result _ _ _ _ options _ Hparse Hok Hfeasible).
  eexists. split; [reflexivity|].
  cbn [transformed actualMinLength actualMaxLength isExact].
  split; [reflexivity|]. split.
  - intros reparsed Hre. unfold finalEstimateOf. now rewrite Hre.
  - split.
    + intros H. apply andb_true_iff in H as [Hlo Hhi].
      split; [now apply Z.leb_le|].
      destruct (est_max _) as [m|]; [right|now left].
      exists m. split; [reflexivity|now apply Z.leb_le].
    + intros [Hmin Hmax]. apply andb_true_iff.
      split; [now apply Z.leb_le|].
      destruct Hmax as [->|(m & -> & Hm)]; [reflexivity|now apply Z.leb_le].
Qed.

(** C1 as stated fails: for [(a)\1] and the range [0, 10] the re-estimated
    maximum is unbounded and [isExact] is true. *)
Lemma exact_with_unbounded_maximum :
  exists r,
    regexToStringMinMax Samples.backref_parser (RegexString "(a)\1") 0 10
                        Samples.no_options = Some r
    /\ transformed r = "(a)\1"
    /\ actualMinLength r = 1
    /\ actualMaxLength r = None
    /\ isExact r = true
    /\ ~ (0 <= actualMinLength r
          /\ exists m, actualMaxLength r = Some m /\ m <= 10).
Proof.
  eexists. split; [vm_compute; reflexivity|].
  cbn [transformed actualMinLength actualMaxLength isExact].
  repeat split. intros (_ & m & Hm & _). discriminate.
Qed.

Lemma exactness_criterion_witness :
  exists r,
    regexToStringMinMax Samples.hello_parser (Samples.regexp "hello") 5 5
                        Samples.no_options = Some r
    /\ transformed r = "hello"
    /\ actualMinLength r = 5
    /\ actualMaxLength r = Some 5
    /\ (isExact r = true
        <-> 5 <= actualMinLength r
            /\ (actualMaxLength r = None
                \/ exists m, actualMaxLength r = Some m /\ m <= 5)).
Proof.
  assert (Hparse : parseRegex Samples.hello_parser (Samples.regexp "hello")
                   = Some (RegexCandidateGenerator.new
                             Samples.hello_parser (Samples.regexp "hello")))
    by (vm_compute; reflexivity).
  assert (Hok : regexp_source_ok (Samples.regexp "hello") = true)
    by reflexivity.
  destruct (exactness_criterion
              Samples.hello_parser (Samples.regexp "hello") 5 5
              Samples.no_options _ Hparse Hok
              ltac:(vm_compute; discriminate))
    as (r & Hr & Ht & Hre & Hexact).
  assert (Htext : transformed r = "hello")
    by (rewrite Ht; vm_compute; reflexivity).
  destruct (Hre (RegexCandidateGenerator.new
                   Samples.hello_parser (Samples.regexp "hello")))
    as [Hmin Hmax]; [rewrite Htext; exact Hparse|].
  exists r. split; [exact Hr|]. split; [exact Htext|].
  split; [rewrite Hmin; vm_compute; reflexivity|].
  split; [rewrite Hmax; vm_compute; reflexivity|exact Hexact].
Defined.

(** C10.  For a feasible request whose rewritten text does not parse again,
    the entry point still returns a result, and reports the requested values
    as the bound: [actualMinLength] is [minLength], [actualMaxLength] is
    [maxLength], and [isExact] is true, whatever the rewritten text is. *)
Theorem reparse_failure_reports_request
        (parseRegExpLiteral : string -> option RegExpLiteral)
        (regex : RegexInput) (minLength maxLength : Z)
        (options : MinMaxOptions) (parsed : ParsedRegex) :
  parseRegex parseRegExpLiteral regex = Some parsed ->
  regexp_source_ok regex = true ->
  est_min (LengthEstimatorVisitor.estimate (pr_pattern parsed))
  <= maxLength ->
  parseRegex parseRegExpLiteral
    (RegexString
       (transformedRegexOf
          (MinMaxTransformer.transformPattern
             minLength (Fin maxLength) (preferLazy options)
             (pr_pattern parsed))
          (flags_of regex))) = None ->
  exists r,
    regexToStringMinMax parseRegExpLiteral regex minLength maxLength options
    = Some r
    /\ transformed r
       = MinMaxTransformer.transformPattern
           minLength (Fin maxLength) (preferLazy options) (pr_pattern parsed)
    /\ actualMinLength r = minLength
    /\ actualMaxLength r = Some maxLength
    /\ isExact r = true.
Proof.
  intros Hparse Hok Hfeasible Hre.
  rewrite (ApiFacts.feasible_result _ _ _ _ options _ Hparse Hok Hfeasible).
  eexists. split; [reflexivity|].
  cbn [transformed actualMinLength actualMaxLength isExact].
  unfold finalEstimateOf. rewrite Hre. cbn [est_min est_max].
  do 3 (split; [reflexivity|]).
  now rewrite !Z.leb_refl.
Qed.

Lemma reparse_failure_reports_request_witness :
  exists r,
    regexToStringMinMax Samples.slash_parser (Samples.regexp "\/+") 0 5
                        Samples.no_options = Some r
    /\ transformed r = "/{0,5}"
    /\ actualMinLength r = 0
    /\ actualMaxLength r = Some 5
    /\ isExact r = true.
Proof.
  assert (Hparse : parseRegex Samples.slash_parser (Samples.regexp "\/+")
                   = Some (RegexCandidateGenerator.new
                             Samples.slash_parser (Samples.regexp "\/+")))
    by (vm_compute; reflexivity).
  assert (Hok : regexp_source_ok (Samples.regexp "\/+") = true)
    by reflexivity.
  destruct (reparse_failure_reports_request
              Samples.slash_parser (Samples.regexp "\/+") 0 5
              Samples.no_options _ Hparse Hok
              ltac:(vm_compute; discriminate)
              ltac:(vm_compute; reflexivity))
    as (r & Hr & Ht & Hmin & Hmax & Hexact).
  exists r. split; [exact Hr|]. split; [rewrite Ht; vm_compute; reflexivity|].
  auto.
Defined.

(** C3.  When the structural minimum exceeds [maxLength], the entry point
    returns a result with a non-empty warning and [isExact] false; its
    candidates, when requested, are those generated for the window from the
    structural minimum to the structural minimum plus ten.  In particular,
    once [/[a-z]{20}/] is parsed to its tree, the request for [5, 10] returns
    the warning about the structural minimum 20 and [isExact] false. *)
Theorem infeasible_request
        (parseRegExpLiteral : string -> option RegExpLiteral)
        (regex : RegexInput) (minLength maxLength : Z)
        (options : MinMaxOptions) (parsed : ParsedRegex) :
  parseRegex parseRegExpLiteral regex = Some parsed ->
  maxLength < est_min (LengthEstimatorVisitor.estimate (pr_pattern parsed)) ->
  let structuralMin :=
    est_min (LengthEstimatorVisitor.estimate (pr_pattern parsed)) in
  (exists r w,
     regexToStringMinMax parseRegExpLiteral regex minLength maxLength options
     = Some r
     /\ warning r = Some w /\ w <> EmptyString
     /\ isExact r = false
     /\ actualMinLength r = structuralMin
     /\ candidates r
        = if is_true_option (generateCandidates options)
          then Some (generateFor parseRegExpLiteral regex
                                 structuralMin (structuralMin + 10)
                                 (candidateCount_or_5 options))
          else None)
  /\ (parseRegExpLiteral "/[a-z]{20}/" = Some Samples.lower_20 ->
      exists r,
        regexToStringMinMax parseRegExpLiteral (Samples.regexp "[a-z]{20}")
                            5 10 options = Some r
        /\ warning r
           = Some "Cannot meet maxLength=10. Structural minimum is 20"
        /\ isExact r = false).
Proof.
  intros Hparse Hlt structuralMin. split.
  - rewrite (ApiFacts.infeasible_result _ _ _ _ options _ Hparse Hlt).
    eexists. eexists. split; [reflexivity|].
    cbn [warning isExact actualMinLength candidates].
    split; [reflexivity|]. split; [discriminate|]. auto.
  - intros Hlower.
    assert (Hp : parseRegex parseRegExpLiteral (Samples.regexp "[a-z]{20}")
                 = Some {| pr_ast := NLiteral Samples.lower_20;
                           pr_pattern :=
                             NPattern (lit_pattern Samples.lower_20);
                           pr_flags := lit_flags Samples.lower_20;
                           pr_source := "[a-z]{20}" |}).
    { unfold parseRegex.
      change (literal_of (Samples.regexp "[a-z]{20}")) with "/[a-z]{20}/".
      now rewrite Hlower. }
    assert (Hmin : 10 < est_min (LengthEstimatorVisitor.estimate
                                   (NPattern (lit_pattern Samples.lower_20))))
      by (vm_compute; reflexivity).
    rewrite (ApiFacts.infeasible_result _ _ 5 10 options _ Hp Hmin).
    eexists. split; [reflexivity|]. cbn [warning isExact pr_pattern].
    split; [|reflexivity]. vm_compute. reflexivity.
Qed.

Lemma infeasible_request_witness :
  exists r,
    regexToStringMinMax Samples.lower_parser (Samples.regexp "[a-z]{20}")
                        5 10 Samples.with_candidates = Some r
    /\ (exists w, warning r = Some w /\ w <> EmptyString)
    /\ isExact r = false
    /\ candidates r
       = Some (generateFor Samples.lower_parser
                           (Samples.regexp "[a-z]{20}") 20 30 5).
Proof.
  assert (Hparse : parseRegex Samples.lower_parser
                              (Samples.regexp "[a-z]{20}")
                   = Some (RegexCandidateGenerator.new
                             Samples.lower_parser
                             (Samples.regexp "[a-z]{20}")))
    by (vm_compute; reflexivity).
  destruct (infeasible_request
              Samples.lower_parser (Samples.regexp "[a-z]{20}") 5 10
              Samples.with_candidates _ Hparse
              ltac:(vm_compute; reflexivity))
    as [(r & w & Hr & Hw & Hne & Hexact & _ & Hc) _].
  exists r. split; [exact Hr|].
  split; [exists w; split; assumption|].
  split; [exact Hexact|exact Hc].
Defined.

(* ================================================================== *)
(** ** The cases of the test suite of the module, on the sample parsers *)

Module TestSuite.

Import Samples.

(** [regexToStringMinMax - generates candidates]: three candidates, each
    with a minimum inside the range. *)
Example generates_candidates :
  candidate_minima
    (regexToStringMinMax digits_range_parser (regexp "^[0-9]+$") 5 10
                         (candidates_wanted 3))
  = Some [5; 7; 10].
Proof. vm_compute. reflexivity. Qed.

(** [regexToStringMinMax - exact length]. *)
Example exact_length :
  option_map candidates
    (regexToStringMinMax digits_parser (regexp "^[0-9]+$") 9 9
                         (candidates_wanted 1))
  = Some (Some [{| c_regex := "^[0-9]{9}$"; c_minLength := 9;
                   c_maxLength := Some 9 |}]).
Proof. vm_compute. reflexivity. Qed.

(** [regexToStringMinMax - email regex with range]: five candidates. *)
Example email_with_range :
  candidate_minima
    (regexToStringMinMax email_parser (regexp "^[a-z]+@[a-z]+\.[a-z]+$")
                         5 50 (candidates_wanted 5))
  = Some [5; 17; 29; 38; 50].
Proof. vm_compute. reflexivity. Qed.

(** [regexToStringMinMax - nested quantifiers]. *)
Example nested_quantifiers :
  candidate_minima
    (regexToStringMinMax nested_parser (regexp "^([a-z]{2}){3}$") 6 6
                         with_candidates)
  = Some [6].
Proof. vm_compute. reflexivity. Qed.

(** [estimateMinLength] and [estimateMaxLength] on [/^[0-9]+$/]. *)
Example estimate_digits :
  estimateMinLength digits_parser (regexp "^[0-9]+$") = Some 1
  /\ estimateMaxLength digits_parser (regexp "^[0-9]+$") = Some None.
Proof. split; vm_compute; reflexivity. Qed.

End TestSuite.

(* ================================================================== *)
(** ** Further properties of the length estimator *)

Module SequenceFacts.

Import LengthEstimatorVisitor.

Lemma fold_min (results : list RegexLengthEstimate) : forall acc,
  est_min (fold_left sequence_step results acc)
  = est_min acc + sum_Z (map est_min results).
Proof.
  induction results as [|r rest IH]; intros acc; simpl; [lia|].
  rewrite IH. simpl. lia.
Qed.

Lemma fold_max_none (results : list RegexLengthEstimate) : forall acc,
  est_max acc = None ->
  est_max (fold_left sequence_step results acc) = None.
Proof.
  induction results as [|r rest IH]; intros acc Hacc; simpl; [exact Hacc|].
  apply IH. simpl. rewrite Hacc. now destruct (est_max r).
Qed.

Lemma fold_max_some (results : list RegexLengthEstimate) :
  forall acc a maxes,
    est_max acc = Some a ->
    map est_max results = map Some maxes ->
    est_max (fold_left sequence_step results acc) = Some (a + sum_Z maxes).
Proof.
  induction results as [|r rest IH]; intros acc a maxes Hacc Hmap.
  - destruct maxes; [|discriminate]. simpl. rewrite Hacc. f_equal. lia.
  - destruct maxes as [|m ms]; [discriminate|]. simpl in Hmap.
    injection Hmap as Hr Hrest. simpl.
    rewrite (IH _ (a + m) ms); [f_equal; lia| |exact Hrest].
    simpl. now rewrite Hr, Hacc.
Qed.

Lemma fold_max_unbounded (results : list RegexLengthEstimate) : forall acc,
  est_max (fold_left sequence_step results acc) = None
  <-> est_max acc = None \/ exists b, In b results /\ est_max b = None.
Proof.
  induction results as [|r rest IH]; intros acc; simpl.
  - split; [now left|]. intros [H|(b & [] & _)]. exact H.
  - rewrite IH. simpl. split.
    + intros [H|(b & Hin & Hb)].
      * destruct (est_max r) eqn:Er; [|right; exists r; auto].
        destruct (est_max acc); [discriminate|now left].
      * right. exists b. auto.
    + intros [H|(b & [->|Hin] & Hb)].
      * left. rewrite H. now destruct (est_max r).
      * left. now rewrite Hb.
      * right. exists b. auto.
Qed.

Lemma all_finite (results : list RegexLengthEstimate) :
  (forall b, In b results -> est_max b <> None) ->
  exists maxes, map est_max results = map Some maxes.
Proof.
  induction results as [|r rest IH]; intros Hall.
  - now exists [].
  - destruct (IH (fun b Hb => Hall b (or_intror Hb))) as [ms Hms].
    destruct (est_max r) as [m|] eqn:Er.
    + exists (m :: ms). simpl. now rewrite Er, Hms.
    + exfalso. apply (Hall r); [now left|exact Er].
Qed.

End SequenceFacts.

(** X1.  The bound of a sequence is the sum of the bounds of its elements:
    the minima add up, the maximum is unbounded exactly when the maximum of
    one element is, and the finite maxima add up. *)
Theorem sequence_additivity (elements : list Element) :
  let bounds := map LengthEstimatorVisitor.visitElement elements in
  let r := LengthEstimatorVisitor.visitSequence elements in
  est_min r = sum_Z (map est_min bounds)
  /\ (est_max r = None <-> exists b, In b bounds /\ est_max b = None)
  /\ (forall maxes,
        map est_max bounds = map Some maxes ->
        est_max r = Some (sum_Z maxes)).
Proof.
  cbn zeta. unfold LengthEstimatorVisitor.visitSequence,
              LengthEstimatorVisitor.sequence_loop.
  split; [|split].
  - now rewrite SequenceFacts.fold_min.
  - rewrite SequenceFacts.fold_max_unbounded. simpl.
    split; [intros [H|H]; [discriminate|exact H]|now right].
  - intros maxes Hmap.
    now rewrite (SequenceFacts.fold_max_some
                   _ {| est_min := 0; est_max := Some 0 |} 0 maxes
                   eq_refl Hmap).
Qed.

Lemma sequence_additivity_witness :
  est_max (LengthEstimatorVisitor.visitSequence (Samples.chars "ab"))
  = Some (sum_Z [1; 1]).
Proof.
  exact (proj2 (proj2 (sequence_additivity (Samples.chars "ab")))
               [1; 1] eq_refl).
Defined.

(** X2.  A sequence of [n] elements that each match one character (a
    character, a set or a class) has the bound [(n, n)]. *)
Theorem literal_text_bound (elements : list Element) :
  forallb single_character elements = true ->
  LengthEstimatorVisitor.visitSequence elements
  = {| est_min := Z.of_nat (length elements);
       est_max := Some (Z.of_nat (length elements)) |}.
Proof.
  intros Hall.
  unfold LengthEstimatorVisitor.visitSequence,
    LengthEstimatorVisitor.sequence_loop.
  assert (Hgen : forall a,
             fold_left LengthEstimatorVisitor.sequence_step
                       (map LengthEstimatorVisitor.visitElement elements)
                       {| est_min := a; est_max := Some a |}
             = {| est_min := a + Z.of_nat (length elements);
                  est_max := Some (a + Z.of_nat (length elements)) |}).
  { induction elements as [|e rest IH]; intros a.
    - simpl. now rewrite Z.add_0_r.
    - cbn [forallb] in Hall. apply andb_true_iff in Hall as [He Hrest].
      cbn [map fold_left length].
      replace (LengthEstimatorVisitor.sequence_step
                 {| est_min := a; est_max := Some a |}
                 (LengthEstimatorVisitor.visitElement e))
        with {| est_min := a + 1; est_max := Some (a + 1) |}
        by (destruct e; try discriminate; reflexivity).
      rewrite (IH Hrest). f_equal; [|f_equal]; lia. }
  exact (Hgen 0).
Qed.

Lemma literal_text_bound_witness :
  LengthEstimatorVisitor.visitSequence (Samples.chars "hello")
  = {| est_min := 5; est_max := Some 5 |}.
Proof.
  exact (literal_text_bound (Samples.chars "hello") eq_refl).
Defined.

(** X3.  Assertions, lookarounds included, are transparent to the
    estimator: leaving them out of a sequence does not change its bound. *)
Theorem assertions_are_transparent (elements : list Element) :
  LengthEstimatorVisitor.visitSequence
    (List.filter (fun e => negb (is_assertion e)) elements)
  = LengthEstimatorVisitor.visitSequence elements.
Proof.
  unfold LengthEstimatorVisitor.visitSequence,
    LengthEstimatorVisitor.sequence_loop.
  generalize {| est_min := 0; est_max := Some 0 |}.
  induction elements as [|e rest IH]; intros acc; [reflexivity|].
  cbn [List.filter]. destruct (is_assertion e) eqn:Ea;
    cbn [negb map fold_left].
  - rewrite IH. f_equal.
    destruct e; try discriminate.
    destruct acc as [lo [hi|]]; unfold LengthEstimatorVisitor.sequence_step;
      cbn; now rewrite ?Z.add_0_r.
  - apply IH.
Qed.

Module OpenEndedFacts.

Import LengthEstimatorVisitor EstimatorFacts.

Lemma open_ended_nested (alternatives : list Alternative) :
  existsb (fun alt => match alt with
                      | mkAlternative es => existsb open_ended es
                      end) alternatives
  = open_ended_alternatives alternatives.
Proof.
  unfold open_ended_alternatives.
  induction alternatives as [|[es] rest IH]; simpl; [reflexivity|].
  now rewrite IH.
Qed.

Lemma alternatives_loop_max (results : list RegexLengthEstimate) :
  est_max (alternatives_loop results) = None
  <-> exists b, In b results /\ est_max b = None.
Proof.
  destruct results as [|r0 rest].
  - simpl. split; [discriminate|]. now intros (b & [] & _).
  - unfold alternatives_loop. rewrite alternatives_fold_split.
    cbn [fst snd est_max]. split.
    + intros Hnone.
      destruct (bounded_or_not (r0 :: rest)) as [Hex|Hall]; [exact Hex|].
      destruct (max_fold_bounded (r0 :: rest) 0 Hall) as (M & HM & _).
      rewrite HM in Hnone. discriminate.
    + apply max_fold_unbounded.
Qed.

Lemma sequence_max (es : list Element) :
  Forall (fun e => est_max (visitElement e) = None <-> open_ended e = true)
         es ->
  est_max (visitSequence es) = None <-> existsb open_ended es = true.
Proof.
  intros IH. rewrite List.Forall_forall in IH.
  unfold visitSequence, sequence_loop.
  rewrite SequenceFacts.fold_max_unbounded, existsb_exists.
  cbn [est_max]. split.
  - intros [H|H]; [discriminate|]. revert H.
    intros (b & Hb & Hnone). apply List.in_map_iff in Hb as (e & <- & He).
    exists e. split; [exact He|now apply IH].
  - intros (e & He & Hopen). right. exists (visitElement e).
    split; [now apply in_map|now apply IH].
Qed.

Lemma alternatives_max (alternatives : list Alternative) :
  all_elements
    (fun e => est_max (visitElement e) = None <-> open_ended e = true)
    alternatives ->
  est_max (visitAlternatives alternatives) = None
  <-> open_ended_alternatives alternatives = true.
Proof.
  unfold all_elements. intros IH. rewrite List.Forall_forall in IH.
  unfold visitAlternatives, open_ended_alternatives.
  rewrite alternatives_loop_max, existsb_exists. split.
  - intros (b & Hb & Hnone). apply List.in_map_iff in Hb as (alt & <- & Ha).
    exists alt. split; [exact Ha|]. now apply sequence_max; [apply IH|].
  - intros (alt & Ha & Hopen). exists (visitSequence (alt_elements alt)).
    split; [now apply (in_map (fun a => visitSequence (alt_elements a)))|].
    now apply sequence_max; [apply IH|].
Qed.

Lemma element_max (e : Element) :
  est_max (visitElement e) = None <-> open_ended e = true.
Proof.
  induction e using Element_nested_ind;
    try (split; intros H; discriminate H).
  - rewrite visitElement_quantifier. cbn [open_ended].
    unfold quantifier_result. destruct qmax as [qm|]; [|now split].
    destruct (est_max (visitElement e)) as [ix|] eqn:Ex; cbn [est_max].
    + rewrite <- IHe. now split.
    + rewrite <- IHe. now split.
  - rewrite visitElement_capturing. cbn [open_ended].
    rewrite open_ended_nested. now apply alternatives_max.
  - rewrite visitElement_group. cbn [open_ended].
    rewrite open_ended_nested. now apply alternatives_max.
  - now split.
  - now split.
Qed.

End OpenEndedFacts.

(** X4.  The estimated maximum is unbounded exactly when the tree holds,
    outside assertions, a quantifier without upper count or a backreference:
    for every element, and for a whole pattern. *)
Theorem unbounded_exactly_when_open_ended (e : Element) (p : Pattern) :
  (est_max (LengthEstimatorVisitor.visitElement e) = None
   <-> open_ended e = true)
  /\ (est_max (LengthEstimatorVisitor.estimate (NPattern p)) = None
      <-> open_ended_alternatives (p_alternatives p) = true).
Proof.
  split; [apply OpenEndedFacts.element_max|].
  cbn [LengthEstimatorVisitor.estimate LengthEstimatorVisitor.visitNode
       est_max].
  apply OpenEndedFacts.alternatives_max.
  apply List.Forall_forall. intros alt _.
  apply List.Forall_forall. intros x _. apply OpenEndedFacts.element_max.
Qed.

(* ================================================================== *)
(** ** Further properties of the rewriters *)

Module TraversalFacts.

Lemma all_quantifiers_nested test (alternatives : list Alternative) :
  forallb (fun alt => match alt with
                      | mkAlternative es => forallb (all_quantifiers test) es
                      end) alternatives
  = forallb (fun alt => forallb (all_quantifiers test) (alt_elements alt))
            alternatives.
Proof.
  induction alternatives as [|[es] rest IH]; simpl; [reflexivity|].
  now rewrite IH.
Qed.

(** Two writers of quantifiers that agree on the quantifiers of a tree give
    the same text for the tree. *)
Section Extensionality.

Variables f g : Quantifier -> string -> string.
Variable test : Quantifier -> bool.
Hypothesis Hagree : forall q s, test q = true -> f q s = g q s.

Lemma alternative_ext (es : list Element) :
  Forall (fun e => all_quantifiers test e = true ->
                   Rewriter.transformElement f e
                   = Rewriter.transformElement g e) es ->
  forallb (all_quantifiers test) es = true ->
  map (Rewriter.transformElement f) es = map (Rewriter.transformElement g) es.
Proof.
  intros IH Hall. rewrite forallb_forall in Hall.
  rewrite List.Forall_forall in IH.
  apply map_ext_in. intros e He. apply IH; [exact He|now apply Hall].
Qed.

Lemma alternatives_ext (alternatives : list Alternative) :
  all_elements (fun e => all_quantifiers test e = true ->
                         Rewriter.transformElement f e
                         = Rewriter.transformElement g e) alternatives ->
  forallb (fun alt => forallb (all_quantifiers test) (alt_elements alt))
          alternatives = true ->
  map (fun alt => match alt with
                  | mkAlternative es =>
                      join EmptyString (map (Rewriter.transformElement f) es)
                  end) alternatives
  = map (fun alt => match alt with
                    | mkAlternative es =>
                        join EmptyString
                             (map (Rewriter.transformElement g) es)
                    end) alternatives.
Proof.
  unfold all_elements. intros IH Hall. rewrite forallb_forall in Hall.
  rewrite List.Forall_forall in IH.
  apply map_ext_in. intros [es] Ha.
  rewrite (alternative_ext es); [reflexivity|exact (IH _ Ha)|].
  exact (Hall _ Ha).
Qed.

Lemma element_ext (e : Element) :
  all_quantifiers test e = true ->
  Rewriter.transformElement f e = Rewriter.transformElement g e.
Proof using Hagree.
  induction e using Element_nested_ind; intros Hall; try reflexivity;
    cbn [all_quantifiers] in Hall.
  - apply andb_true_iff in Hall as [Hq He].
    cbn [Rewriter.transformElement]. rewrite (IHe He). now apply Hagree.
  - rewrite all_quantifiers_nested in Hall.
    cbn [Rewriter.transformElement].
    now rewrite (alternatives_ext alternatives).
  - rewrite all_quantifiers_nested in Hall.
    cbn [Rewriter.transformElement].
    now rewrite (alternatives_ext alternatives).
  - rewrite all_quantifiers_nested in Hall.
    cbn [Rewriter.transformElement].
    destruct kind; try reflexivity;
      now rewrite (alternatives_ext alternatives).
Qed.

Lemma pattern_ext (p : Pattern) :
  all_quantifiers_of test p = true ->
  Rewriter.transformPattern f (NPattern p)
  = Rewriter.transformPattern g (NPattern p).
Proof using Hagree.
  unfold all_quantifiers_of. intros Hall. rewrite forallb_forall in Hall.
  cbn [Rewriter.transformPattern]. unfold Rewriter.transformAlternatives.
  f_equal. apply map_ext_in. intros alt Ha.
  unfold Rewriter.transformAlternative. f_equal.
  apply map_ext_in. intros e He. apply element_ext.
  specialize (Hall _ Ha). rewrite forallb_forall in Hall. now apply Hall.
Qed.

End Extensionality.

Lemma all_quantifiers_impl (t1 t2 : Quantifier -> bool) (e : Element) :
  (forall q, t1 q = true -> t2 q = true) ->
  all_quantifiers t1 e = true -> all_quantifiers t2 e = true.
Proof.
  intros Himp.
  assert (Hnested : forall alternatives,
             all_elements (fun e => all_quantifiers t1 e = true ->
                                    all_quantifiers t2 e = true)
                          alternatives ->
             forallb (fun alt => match alt with
                                 | mkAlternative es =>
                                     forallb (all_quantifiers t1) es
                                 end) alternatives = true ->
             forallb (fun alt => match alt with
                                 | mkAlternative es =>
                                     forallb (all_quantifiers t2) es
                                 end) alternatives = true).
  { unfold all_elements. intros alternatives IH H.
    rewrite forallb_forall in *. rewrite List.Forall_forall in IH.
    intros [es] Ha. specialize (H _ Ha). specialize (IH _ Ha).
    cbn [alt_elements] in IH. rewrite forallb_forall in *.
    rewrite List.Forall_forall in IH. intros x Hx. auto. }
  induction e using Element_nested_ind; intros Hw; try reflexivity;
    cbn [all_quantifiers] in *; auto.
  apply andb_true_iff in Hw as [Hq He]. apply andb_true_iff. auto.
Qed.

Lemma wf_all_quantifiers (e : Element) :
  wf_element e = true ->
  all_quantifiers (fun q => wf_counts (q_min q) (q_max q)) e = true.
Proof.
  assert (Hnested : forall alternatives,
             all_elements
               (fun e => wf_element e = true ->
                         all_quantifiers
                           (fun q => wf_counts (q_min q) (q_max q)) e = true)
               alternatives ->
             forallb (fun alt => match alt with
                                 | mkAlternative es => forallb wf_element es
                                 end) alternatives = true ->
             forallb (fun alt =>
                        match alt with
                        | mkAlternative es =>
                            forallb (all_quantifiers
                                       (fun q => wf_counts (q_min q)
                                                           (q_max q))) es
                        end) alternatives = true).
  { unfold all_elements. intros alternatives IH H.
    rewrite forallb_forall in *. rewrite List.Forall_forall in IH.
    intros [es] Ha. specialize (H _ Ha). specialize (IH _ Ha).
    cbn [alt_elements] in IH. rewrite forallb_forall in *.
    rewrite List.Forall_forall in IH. intros x Hx. auto. }
  induction e using Element_nested_ind; intros Hw; try reflexivity;
    cbn [all_quantifiers wf_element] in *; auto.
  apply andb_true_iff in Hw as [Hq He]. apply andb_true_iff. auto.
Qed.

Lemma quantifier_free_all (e : Element) :
  has_quantifier e = false -> all_quantifiers (fun _ => false) e = true.
Proof.
  assert (Hnested : forall alternatives,
             all_elements
               (fun e => has_quantifier e = false ->
                         all_quantifiers (fun _ => false) e = true)
               alternatives ->
             existsb (fun alt => match alt with
                                 | mkAlternative es =>
                                     existsb has_quantifier es
                                 end) alternatives = false ->
             forallb (fun alt =>
                        match alt with
                        | mkAlternative es =>
                            forallb (all_quantifiers (fun _ => false)) es
                        end) alternatives = true).
  { unfold all_elements. intros alternatives IH H.
    rewrite forallb_forall. rewrite List.Forall_forall in IH.
    intros [es] Ha. specialize (IH _ Ha). cbn [alt_elements] in IH.
    rewrite List.Forall_forall in IH. rewrite forallb_forall.
    intros x Hx. apply IH; [exact Hx|].
    destruct (has_quantifier x) eqn:Ex; [|reflexivity].
    rewrite <- H. symmetry. apply existsb_exists.
    exists (mkAlternative es). split; [exact Ha|].
    apply existsb_exists. now exists x. }
  induction e using Element_nested_ind; intros Hw; try reflexivity;
    cbn [all_quantifiers has_quantifier] in *; auto; discriminate.
Qed.

End TraversalFacts.

Module RewriteFacts.

Lemma all_quantifiers_true (e : Element) :
  all_quantifiers (fun _ => true) e = true.
Proof.
  assert (Hnested : forall alternatives,
             all_elements (fun e => all_quantifiers (fun _ => true) e = true)
                          alternatives ->
             forallb (fun alt =>
                        match alt with
                        | mkAlternative es =>
                            forallb (all_quantifiers (fun _ => true)) es
                        end) alternatives = true).
  { unfold all_elements. intros alternatives IH.
    rewrite forallb_forall. rewrite List.Forall_forall in IH.
    intros [es] Ha. specialize (IH _ Ha). cbn [alt_elements] in IH.
    rewrite List.Forall_forall in IH. rewrite forallb_forall. auto. }
  induction e using Element_nested_ind; try reflexivity;
    cbn [all_quantifiers]; auto.
Qed.

Lemma all_quantifiers_of_true (p : Pattern) :
  all_quantifiers_of (fun _ => true) p = true.
Proof.
  unfold all_quantifiers_of. apply forallb_forall. intros alt _.
  apply forallb_forall. intros e _. apply all_quantifiers_true.
Qed.

Lemma quantifier_free_pattern (p : Pattern) :
  pattern_has_quantifier p = false ->
  all_quantifiers_of (fun _ => false) p = true.
Proof.
  unfold pattern_has_quantifier, all_quantifiers_of. intros Hno.
  apply forallb_forall. intros alt Ha. apply forallb_forall. intros e He.
  apply TraversalFacts.quantifier_free_all.
  destruct (has_quantifier e) eqn:Ee; [|reflexivity].
  rewrite <- Hno. symmetry. apply existsb_exists. exists alt.
  split; [exact Ha|]. apply existsb_exists. now exists e.
Qed.

(** With the targets [0] and [Infinity], the new minimum is 0 and the new
    maximum the node's own. *)
Lemma zero_minimum (node : Quantifier) (element : string) :
  MinMaxTransformer.transformQuantifier 0 Infinity None node element
  = zero_minimum_writer node element.
Proof.
  unfold MinMaxTransformer.transformQuantifier, zero_minimum_writer.
  rewrite <- RewriterFacts.buildQuantifier_written.
  replace (Z.max 0 (Z.min (q_min node) 0)) with 0 by lia.
  now destruct (q_max node).
Qed.

Lemma transform_unfold parser minTarget maxTarget lazy pattern flags :
  MinMaxTransformer.transform parser minTarget maxTarget lazy pattern flags
  = match parseRegex parser (RegexString (transform_input pattern flags)) with
    | Some parsed =>
        Some (MinMaxTransformer.transformPattern minTarget maxTarget lazy
                                                 (pr_pattern parsed))
    | None => None
    end.
Proof. reflexivity. Qed.

End RewriteFacts.

(** X5.  With integer targets [0 <= minTarget <= maxTarget], the global
    rewriter writes a quantifier of well-ordered counts with new counts
    [lo] and [hi] that are well ordered and finite: [lo] is at most the old
    minimum and at most [minTarget], [hi] is at most the old maximum and at
    most [maxTarget]. *)
Theorem global_rewrite_counts
        (minTarget maxTarget : Z) (preferLazy : option bool)
        (node : Quantifier) (element : string) :
  wf_counts (q_min node) (q_max node) = true ->
  0 <= minTarget ->
  minTarget <= maxTarget ->
  exists lo hi,
    MinMaxTransformer.transformQuantifier
      minTarget (Fin maxTarget) preferLazy node element
    = written_quantifier element lo (Fin hi)
                         (is_true_option preferLazy || negb (q_greedy node))
    /\ 0 <= lo /\ lo <= hi
    /\ lo <= q_min node /\ lo <= minTarget
    /\ hi <= maxTarget /\ num_le (Fin hi) (q_max node).
Proof.
  intros Hwf Hmin Hle. unfold wf_counts in Hwf.
  apply andb_true_iff in Hwf as [H0 Hord]. apply Z.leb_le in H0.
  exists (Z.max 0 (Z.min (q_min node) minTarget)).
  exists (match q_max node with
          | Infinity => maxTarget
          | Fin m => Z.min m maxTarget
          end).
  split.
  - unfold MinMaxTransformer.transformQuantifier.
    rewrite <- RewriterFacts.buildQuantifier_written.
    unfold is_true_option. now destruct (q_max node).
  - destruct (q_max node) as [m|]; cbn [num_le];
      [apply Z.leb_le in Hord|]; repeat split; lia.
Qed.

Lemma global_rewrite_counts_witness :
  exists lo hi,
    MinMaxTransformer.transformQuantifier 2 (Fin 8) None
                                          MoreSamples.five_to_ten "a"
    = written_quantifier "a" lo (Fin hi) false
    /\ 0 <= lo /\ lo <= hi /\ lo <= 5 /\ lo <= 2 /\ hi <= 8
    /\ num_le (Fin hi) (Fin 10).
Proof.
  destruct (global_rewrite_counts 2 8 None MoreSamples.five_to_ten "a"
                                  eq_refl ltac:(lia) ltac:(lia))
    as (lo & hi & H).
  exists lo, hi. exact H.
Defined.

(** X6.  [regexToString] parses the source of the parsed expression again
    and fails when that parse does; otherwise it writes every quantifier
    with the minimum count 0 and the node's own maximum count, so that [a+]
    comes back as [a*]. *)
Theorem regexToString_zeroes_minimum
        (parseRegExpLiteral : string -> option RegExpLiteral)
        (parsed : ParsedRegex) (options : RegexStringOptions) :
  let input :=
    transform_input (pr_source parsed) (Some (raw (pr_flags parsed))) in
  (parseRegex parseRegExpLiteral (RegexString input) = None ->
   regexToString parseRegExpLiteral parsed options = None)
  /\ (forall reparsed,
        parseRegex parseRegExpLiteral (RegexString input) = Some reparsed ->
        let text :=
          Rewriter.transformPattern zero_minimum_writer
                                    (pr_pattern reparsed) in
        (is_true_option (includeDelimiters options) = false ->
         regexToString parseRegExpLiteral parsed options = Some text)
        /\ (is_true_option (includeDelimiters options) = true ->
            exists flags,
              regexToString parseRegExpLiteral parsed options
              = Some ("/" +:+ text +:+ "/" +:+ flags))).
Proof.
  cbn zeta. unfold regexToString. rewrite RewriteFacts.transform_unfold.
  split; [now intros ->|].
  intros reparsed Hre. rewrite Hre.
  destruct (GeneratorFacts.parseRegex_pattern _ _ _ Hre) as (ast & _ & ->).
  unfold MinMaxTransformer.transformPattern.
  rewrite (TraversalFacts.pattern_ext
             (MinMaxTransformer.transformQuantifier 0 Infinity None)
             zero_minimum_writer (fun _ => true)
             (fun q s _ => RewriteFacts.zero_minimum q s)
             _ (RewriteFacts.all_quantifiers_of_true _)).
  split; intros ->; [reflexivity|]. eexists. reflexivity.
Qed.

Lemma regexToString_zeroes_minimum_witness :
  regexToString MoreSamples.a_plus_parser
    (RegexCandidateGenerator.new MoreSamples.a_plus_parser
                                 (Samples.regexp "a+"))
    {| includeDelimiters := None; includeFlags := None; so_flags := None |}
  = Some "a*".
Proof.
  destruct (regexToString_zeroes_minimum
              MoreSamples.a_plus_parser
              (RegexCandidateGenerator.new MoreSamples.a_plus_parser
                                           (Samples.regexp "a+"))
              {| includeDelimiters := None; includeFlags := None;
                 so_flags := None |})
    as [_ H].
  destruct (H (RegexCandidateGenerator.new MoreSamples.a_plus_parser
                                           (Samples.regexp "a+"))
              ltac:(vm_compute; reflexivity)) as [Hplain _].
  rewrite (Hplain eq_refl). vm_compute. reflexivity.
Defined.

(** X7.  For a pattern without any quantifier node, the text written by the
    global rewriter does not depend on its targets, and is the text the
    per-assignment rewriter writes under any assignment. *)
Theorem rewriters_agree_without_quantifier
        (minTarget minTarget' : Z) (maxTarget maxTarget' : num)
        (preferLazy preferLazy' : option bool)
        (quantifierConfig : QuantifierConfig) (p : Pattern) :
  pattern_has_quantifier p = false ->
  MinMaxTransformer.transformPattern minTarget maxTarget preferLazy
                                     (NPattern p)
  = ConfigurableTransformer.transform quantifierConfig (NPattern p)
  /\ MinMaxTransformer.transformPattern minTarget maxTarget preferLazy
                                        (NPattern p)
     = MinMaxTransformer.transformPattern minTarget' maxTarget' preferLazy'
                                          (NPattern p).
Proof.
  intros Hno. apply RewriteFacts.quantifier_free_pattern in Hno.
  split; apply (TraversalFacts.pattern_ext _ _ (fun _ => false));
    try exact Hno; discriminate.
Qed.

Lemma rewriters_agree_without_quantifier_witness :
  MinMaxTransformer.transformPattern 0 (Fin 3) None
                                     (NPattern (lit_pattern Samples.hello))
  = ConfigurableTransformer.transform ∅ (NPattern (lit_pattern Samples.hello))
  /\ MinMaxTransformer.transformPattern 0 (Fin 3) None
                                        (NPattern (lit_pattern Samples.hello))
     = MinMaxTransformer.transformPattern 7 Infinity (Some true)
         (NPattern (lit_pattern Samples.hello)).
Proof.
  exact (rewriters_agree_without_quantifier
           0 7 (Fin 3) Infinity None (Some true) ∅
           (lit_pattern Samples.hello) eq_refl).
Defined.

(* ================================================================== *)
(** ** Further properties of the candidate generator *)

Module TargetFacts.

Lemma in_filter {A : Type} (P : A -> Prop) `{!forall x, Decision (P x)}
      (l : list A) (x : A) :
  In x (filter P l) <-> P x /\ In x l.
Proof. rewrite <- !list_elem_of_In. apply list_elem_of_filter. Qed.

Lemma indexOf_nth (arr : list Z) (x : Z) :
  In x arr -> nth_error arr (indexOf arr x) = Some x.
Proof.
  induction arr as [|y rest IH]; intros Hin; [destruct Hin|].
  simpl. destruct (y =? x) eqn:E.
  - apply Z.eqb_eq in E as ->. reflexivity.
  - destruct Hin as [->|Hin]; [now rewrite Z.eqb_refl in E|].
    simpl. now apply IH.
Qed.

Lemma in_numbered {A : Type} (l : list A) : forall k i x,
  nth_error l i = Some x ->
  In ((k + i)%nat, x) (combine (seq k (length l)) l).
Proof.
  induction l as [|y rest IH]; intros k i x Hnth; [now destruct i|].
  destruct i as [|i]; simpl in *.
  - injection Hnth as ->. left. f_equal. lia.
  - right. replace (k + S i)%nat with (S k + i)%nat by lia. now apply IH.
Qed.

Lemma numbered_fst {A : Type} (l : list A) (k : nat) :
  map fst (combine (seq k (length l)) l) = seq k (length l).
Proof.
  revert k. induction l as [|y rest IH]; intros k; simpl; [reflexivity|].
  now rewrite IH.
Qed.

Lemma nodup_fst_filter {A B : Type} (P : A * B -> Prop)
      `{!forall x, Decision (P x)} (l : list (A * B)) :
  List.NoDup (map fst l) -> List.NoDup (map fst (filter P l)).
Proof.
  induction l as [|iv rest IH]; intros Hnd; [constructor|].
  simpl in Hnd. inversion Hnd as [|? ? Hnotin Hrest]; subst.
  rewrite filter_cons. destruct (decide (P iv)); [|now apply IH].
  simpl. constructor; [|now apply IH].
  intros Hin. apply Hnotin.
  apply List.in_map_iff in Hin as (jv & Hfst & Hjv).
  apply in_filter in Hjv as [_ Hjv].
  apply List.in_map_iff. now exists jv.
Qed.

Lemma nodup_snd {A B : Type} (F : B -> A) (l : list (A * B)) :
  List.NoDup (map fst l) ->
  (forall iv, In iv l -> fst iv = F (snd iv)) ->
  List.NoDup (map snd l).
Proof.
  induction l as [|iv rest IH]; intros Hnd Hkey; [constructor|].
  simpl in *. inversion Hnd as [|? ? Hnotin Hrest]; subst.
  constructor; [|apply IH; auto].
  intros Hin. apply Hnotin.
  apply List.in_map_iff in Hin as (jv & Hsnd & Hjv).
  apply List.in_map_iff. exists jv. split; [|exact Hjv].
  rewrite (Hkey jv (or_intror Hjv)), (Hkey iv (or_introl eq_refl)).
  now rewrite Hsnd.
Qed.

(** The filter of [targetValues] keeps the values and removes the
    repetitions. *)
Lemma keep_first_in (arr : list Z) (x : Z) :
  In x (keep_first_occurrences arr) <-> In x arr.
Proof.
  unfold keep_first_occurrences. rewrite List.in_map_iff. split.
  - intros (iv & <- & Hiv). apply in_filter in Hiv as [_ Hiv].
    destruct iv as [i v]. now apply in_combine_r in Hiv.
  - intros Hin. exists (indexOf arr x, x). split; [reflexivity|].
    apply in_filter. split.
    + cbn [fst snd]. now rewrite Nat.eqb_refl.
    + apply (in_numbered arr 0). now apply indexOf_nth.
Qed.

Lemma keep_first_nodup (arr : list Z) : List.NoDup (keep_first_occurrences arr).
Proof.
  unfold keep_first_occurrences.
  apply (nodup_snd (indexOf arr)).
  - apply nodup_fst_filter. rewrite numbered_fst. apply List.seq_NoDup.
  - intros iv Hiv. apply in_filter in Hiv as [Hkey _].
    apply Is_true_true in Hkey. apply Nat.eqb_eq in Hkey. now symmetry.
Qed.

End TargetFacts.

(** X8.  For [minLength <= maxLength] the target lengths the generator
    tries are pairwise distinct, lie between [minLength] and [maxLength],
    and hold both ends. *)
Theorem target_values_sample_the_range (minLength maxLength : Z) :
  minLength <= maxLength ->
  List.NoDup (RegexCandidateGenerator.targetValues minLength maxLength)
  /\ (forall t,
        In t (RegexCandidateGenerator.targetValues minLength maxLength) ->
        minLength <= t <= maxLength)
  /\ In minLength (RegexCandidateGenerator.targetValues minLength maxLength)
  /\ In maxLength (RegexCandidateGenerator.targetValues minLength maxLength).
Proof.
  intros Hle. unfold RegexCandidateGenerator.targetValues.
  destruct (maxLength - minLength =? 0) eqn:E0.
  - apply Z.eqb_eq in E0. repeat split.
    + constructor; [intros []|constructor].
    + destruct H as [<-|[]]. lia.
    + destruct H as [<-|[]]. lia.
    + now left.
    + left. lia.
  - assert (Hin : forall arr t,
               (forall x, In x arr -> minLength <= x <= maxLength) ->
               In t (keep_first_occurrences arr) ->
               minLength <= t <= maxLength).
    { intros arr t Harr Ht.
      apply (proj1 (TargetFacts.keep_first_in _ _)) in Ht. now apply Harr. }
    destruct (maxLength - minLength <=? 20) eqn:E20;
      (split; [apply TargetFacts.keep_first_nodup|]);
      (split; [intros t; apply Hin; intros x Hx; cbn [In] in Hx;
               repeat (destruct Hx as [<-|Hx];
                       [Z.div_mod_to_equations; lia|]);
               destruct Hx|]);
      split; apply TargetFacts.keep_first_in; cbn [In]; auto 10.
Qed.

Lemma target_values_sample_the_range_witness :
  List.NoDup (RegexCandidateGenerator.targetValues 5 50)
  /\ RegexCandidateGenerator.targetValues 5 50 = [5; 16; 27; 38; 50]
  /\ RegexCandidateGenerator.targetValues 9 10 = [9; 10].
Proof.
  split; [|split; vm_compute; reflexivity].
  exact (proj1 (target_values_sample_the_range 5 50 ltac:(lia))).
Defined.

Module LoopFacts.

Import LengthEstimatorVisitor RegexCandidateGenerator.

Section Loop.

Variable parser : string -> option RegExpLiteral.
Variable parsed : ParsedRegex.
Variable quantifiers : list Quantifier.
Variables minLength maxLength count : Z.

Abbreviation loop :=
  (targetLoop parser parsed quantifiers minLength maxLength count).

(** The loop only adds configurations, built for the targets, that pass
    its test. *)
Lemma targetLoop_keeps (P : QuantifierConfig -> Prop) (targets : list Z) :
  (forall t config,
      In t targets ->
      config = targetConfig quantifiers t ->
      in_range_config parser parsed minLength maxLength config ->
      P config) ->
  forall acc, Forall P acc -> Forall P (loop targets acc).
Proof.
  induction targets as [|t rest IH]; intros Hnew acc Hacc; [exact Hacc|].
  cbn [targetLoop].
  destruct (count <=? Z.of_nat (length acc)); [exact Hacc|].
  assert (Hrest : forall t' config,
             In t' rest -> config = targetConfig quantifiers t' ->
             in_range_config parser parsed minLength maxLength config ->
             P config)
    by (intros t' config Ht'; apply Hnew; now right).
  destruct (parseRegex parser _) as [p|] eqn:Ep; [|now apply IH].
  destruct ((minLength <=? est_min (estimate (pr_pattern p)))
            && (est_min (estimate (pr_pattern p)) <=? maxLength)) eqn:Et;
    [|now apply IH].
  apply IH; [exact Hrest|]. apply List.Forall_app. split; [exact Hacc|].
  constructor; [|constructor].
  apply (Hnew t); [now left|reflexivity|].
  exists p. split; [exact Ep|].
  apply andb_true_iff in Et as [H1 H2].
  apply Z.leb_le in H1, H2. lia.
Qed.

Lemma targetLoop_break (targets : list Z) (acc : list QuantifierConfig) :
  count <= Z.of_nat (length acc) -> loop targets acc = acc.
Proof.
  intros Hc. destruct targets as [|t rest]; [reflexivity|].
  cbn [targetLoop]. apply Z.leb_le in Hc. now rewrite Hc.
Qed.

End Loop.

Lemma firstn_subset {A : Type} (n : nat) : forall (l : list A) (x : A),
  In x (firstn n l) -> In x l.
Proof.
  induction n as [|n IH]; intros [|y l] x H; simpl in *; try easy.
  destruct H as [->|H]; [now left|right; now apply IH].
Qed.

Lemma slice0_subset {A : Type} (l : list A) (count : Z) (x : A) :
  In x (slice0 l count) -> In x l.
Proof.
  unfold slice0. destruct (0 <=? count); apply firstn_subset.
Qed.

Lemma slice0_length {A : Type} (l : list A) (count : Z) :
  0 <= count -> Z.of_nat (length (slice0 l count)) <= count.
Proof.
  intros Hc. unfold slice0. apply Z.leb_le in Hc as Hb. rewrite Hb.
  rewrite List.length_firstn. lia.
Qed.

Lemma slice0_negative {A : Type} (l : list A) (count : Z) :
  count < 0 -> (length l <= 1)%nat -> slice0 l count = [].
Proof.
  intros Hc Hl. unfold slice0.
  destruct (0 <=? count) eqn:E; [apply Z.leb_le in E; lia|].
  replace (length l - Z.to_nat (- count))%nat with 0%nat by lia.
  reflexivity.
Qed.

Lemma candidateOf_length parser parsed config :
  (length (candidateOf parser parsed config) <= 1)%nat.
Proof.
  unfold candidateOf. destruct (parseRegex parser _); simpl; lia.
Qed.

Lemma candidates_length parser parsed (configs : list QuantifierConfig) :
  (length (flat_map (candidateOf parser parsed) configs)
   <= length configs)%nat.
Proof.
  induction configs as [|c rest IH]; simpl; [lia|].
  rewrite List.length_app.
  pose proof (candidateOf_length parser parsed c). lia.
Qed.

(** What a candidate of a configuration is. *)
Lemma candidateOf_in parser parsed config c :
  In c (candidateOf parser parsed config) ->
  exists p,
    parseRegex parser
      (RegexString (applyQuantifierConfiguration parsed config)) = Some p
    /\ c = {| c_regex := applyQuantifierConfiguration parsed config;
              c_minLength := est_min (estimate (pr_pattern p));
              c_maxLength := est_max (estimate (pr_pattern p)) |}.
Proof.
  unfold candidateOf.
  destruct (parseRegex parser _) as [p|]; [|intros []].
  intros [<-|[]]. now exists p.
Qed.

Lemma generate_in parser parsed minLength maxLength count c :
  findQuantifiers (pr_pattern parsed) <> [] ->
  In c (generate parser parsed minLength maxLength count) ->
  exists config,
    In config (generateQuantifierConfigurations
                 parser parsed (findQuantifiers (pr_pattern parsed))
                 minLength maxLength count)
    /\ In c (candidateOf parser parsed config).
Proof.
  intros Hq Hc.
  rewrite (ConfigurationFacts.generate_unfold _ _ _ _ _ Hq) in Hc.
  apply slice0_subset in Hc. apply in_flat_map in Hc. exact Hc.
Qed.

Lemma configurations_short parser parsed quantifiers
      minLength maxLength count :
  count < 0 ->
  (length (generateQuantifierConfigurations
             parser parsed quantifiers minLength maxLength count) <= 1)%nat.
Proof.
  intros Hc. unfold generateQuantifierConfigurations.
  destruct (growableQuantifiers quantifiers); [simpl; lia|].
  rewrite targetLoop_break by (simpl; lia).
  rewrite slice0_negative; simpl; lia.
Qed.

Lemma generate_length parser parsed minLength maxLength count :
  findQuantifiers (pr_pattern parsed) <> [] ->
  Z.of_nat (length (generate parser parsed minLength maxLength count))
  <= Z.max 0 count.
Proof.
  intros Hq. rewrite (ConfigurationFacts.generate_unfold _ _ _ _ _ Hq).
  destruct (Z.le_gt_cases 0 count) as [Hc|Hc].
  - pose proof (slice0_length
                  (flat_map (candidateOf parser parsed)
                     (generateQuantifierConfigurations
                        parser parsed (findQuantifiers (pr_pattern parsed))
                        minLength maxLength count)) count Hc).
    lia.
  - rewrite slice0_negative; [simpl; lia|exact Hc|].
    etransitivity; [apply candidates_length|].
    now apply configurations_short.
Qed.

End LoopFacts.

(** X9.  When [findQuantifiers] finds a quantifier, every candidate is the
    rewritten text of one of the configurations, this text parses, and the
    bound of the candidate is the estimate of the parsed text. *)
Theorem candidates_carry_their_estimate
        (parseRegExpLiteral : string -> option RegExpLiteral)
        (parsed : ParsedRegex) (minLength maxLength count : Z)
        (c : Candidate) :
  RegexCandidateGenerator.findQuantifiers (pr_pattern parsed) <> [] ->
  In c (RegexCandidateGenerator.generate parseRegExpLiteral parsed
                                         minLength maxLength count) ->
  exists config p,
    In config
       (RegexCandidateGenerator.generateQuantifierConfigurations
          parseRegExpLiteral parsed
          (RegexCandidateGenerator.findQuantifiers (pr_pattern parsed))
          minLength maxLength count)
    /\ c_regex c
       = RegexCandidateGenerator.applyQuantifierConfiguration parsed config
    /\ parseRegex parseRegExpLiteral (RegexString (c_regex c)) = Some p
    /\ c_minLength c
       = est_min (LengthEstimatorVisitor.estimate (pr_pattern p))
    /\ c_maxLength c
       = est_max (LengthEstimatorVisitor.estimate (pr_pattern p)).
Proof.
  intros Hq Hc.
  destruct (LoopFacts.generate_in _ _ _ _ _ _ Hq Hc) as (config & Hin & Hcand).
  destruct (LoopFacts.candidateOf_in _ _ _ _ Hcand) as (p & Hp & ->).
  exists config, p. cbn [c_regex c_minLength c_maxLength]. auto.
Qed.

(** X10.  When a quantifier can grow and at least one target length gives a
    configuration inside the range, every candidate returned has its
    estimated minimum between [minLength] and [maxLength]. *)
Theorem surviving_candidates_in_range
        (parseRegExpLiteral : string -> option RegExpLiteral)
        (parsed : ParsedRegex) (minLength maxLength count : Z)
        (c : Candidate) :
  let quantifiers :=
    RegexCandidateGenerator.findQuantifiers (pr_pattern parsed) in
  RegexCandidateGenerator.growableQuantifiers quantifiers <> [] ->
  RegexCandidateGenerator.targetLoop
    parseRegExpLiteral parsed quantifiers minLength maxLength count
    (RegexCandidateGenerator.targetValues minLength maxLength) [] <> [] ->
  In c (RegexCandidateGenerator.generate parseRegExpLiteral parsed
                                         minLength maxLength count) ->
  minLength <= c_minLength c <= maxLength.
Proof.
  intros quantifiers Hg Hloop Hc.
  assert (Hq : quantifiers <> []).
  { intros Heq. apply Hg. unfold quantifiers in *. now rewrite Heq. }
  destruct (LoopFacts.generate_in _ _ _ _ _ _ Hq Hc) as (config & Hin & Hcand).
  fold quantifiers in Hin.
  unfold RegexCandidateGenerator.generateQuantifierConfigurations in Hin.
  destruct (RegexCandidateGenerator.growableQuantifiers quantifiers);
    [easy|].
  apply LoopFacts.slice0_subset in Hin.
  assert (Hgood : in_range_config parseRegExpLiteral parsed
                                  minLength maxLength config).
  { pose proof (LoopFacts.targetLoop_keeps
                  parseRegExpLiteral parsed quantifiers
                  minLength maxLength count
                  (in_range_config parseRegExpLiteral parsed
                                   minLength maxLength)
                  (RegexCandidateGenerator.targetValues minLength maxLength)
                  (fun _ _ _ _ H => H) [] (List.Forall_nil _)) as Hall.
    rewrite List.Forall_forall in Hall. apply Hall.
    destruct (RegexCandidateGenerator.targetLoop _ _ _ _ _ _ _ _);
      [easy|exact Hin]. }
  destruct Hgood as (p & Hp & Hrange).
  destruct (LoopFacts.candidateOf_in _ _ _ _ Hcand) as (p' & Hp' & ->).
  rewrite Hp in Hp'. injection Hp' as <-. exact Hrange.
Qed.

(** X11.  [generate] never returns more candidates than [count] when
    [findQuantifiers] finds a quantifier (none for a count below one), and
    exactly one candidate, whatever [count], when [findQuantifiers] finds
    none: also for an expression whose quantifiers all sit inside
    lookarounds, which [findQuantifiers] does not enter. *)
Theorem candidate_count_bounded
        (parseRegExpLiteral : string -> option RegExpLiteral)
        (parsed : ParsedRegex) (minLength maxLength count : Z) :
  (RegexCandidateGenerator.findQuantifiers (pr_pattern parsed) <> [] ->
   Z.of_nat (length (RegexCandidateGenerator.generate
                       parseRegExpLiteral parsed minLength maxLength count))
   <= Z.max 0 count)
  /\ (RegexCandidateGenerator.findQuantifiers (pr_pattern parsed) = [] ->
      length (RegexCandidateGenerator.generate
                parseRegExpLiteral parsed minLength maxLength count) = 1%nat).
Proof.
  split; [apply LoopFacts.generate_length|].
  intros Hq. unfold RegexCandidateGenerator.generate. now rewrite Hq.
Qed.

Lemma candidates_carry_their_estimate_witness :
  exists config p,
    In config
       (RegexCandidateGenerator.generateQuantifierConfigurations
          Samples.digits_parser Samples.digits_parsed
          (RegexCandidateGenerator.findQuantifiers
             (pr_pattern Samples.digits_parsed)) 9 9 1)
    /\ "^[0-9]{9}$"
       = RegexCandidateGenerator.applyQuantifierConfiguration
           Samples.digits_parsed config
    /\ parseRegex Samples.digits_parser (RegexString "^[0-9]{9}$") = Some p
    /\ 9 = est_min (LengthEstimatorVisitor.estimate (pr_pattern p))
    /\ Some 9 = est_max (LengthEstimatorVisitor.estimate (pr_pattern p)).
Proof.
  exact (candidates_carry_their_estimate
           Samples.digits_parser Samples.digits_parsed 9 9 1
           {| c_regex := "^[0-9]{9}$"; c_minLength := 9;
              c_maxLength := Some 9 |}
           ltac:(vm_compute; discriminate)
           ltac:(vm_compute; left; reflexivity)).
Defined.

Lemma surviving_candidates_in_range_witness : 9 <= 9 <= 9.
Proof.
  exact (surviving_candidates_in_range
           Samples.digits_parser Samples.digits_parsed 9 9 1
           {| c_regex := "^[0-9]{9}$"; c_minLength := 9;
              c_maxLength := Some 9 |}
           ltac:(vm_compute; discriminate)
           ltac:(vm_compute; discriminate)
           ltac:(vm_compute; left; reflexivity)).
Defined.

Lemma candidate_count_bounded_witness :
  Z.of_nat (length (RegexCandidateGenerator.generate
                      Samples.digits_range_parser
                      (RegexCandidateGenerator.new
                         Samples.digits_range_parser
                         (Samples.regexp "^[0-9]+$")) 5 10 2))
  <= Z.max 0 2
  /\ pattern_has_quantifier
       (lit_pattern LookaheadSample.lookahead_plus) = true
  /\ length (RegexCandidateGenerator.generate
               LookaheadSample.lookahead_parser
               (RegexCandidateGenerator.new
                  LookaheadSample.lookahead_parser
                  (Samples.regexp "(?=a+)b")) 0 10 (-4)) = 1%nat.
Proof.
  split; [|split; [reflexivity|]].
  - exact (proj1 (candidate_count_bounded
                    Samples.digits_range_parser
                    (RegexCandidateGenerator.new
                       Samples.digits_range_parser
                       (Samples.regexp "^[0-9]+$")) 5 10 2)
                 ltac:(vm_compute; discriminate)).
  - exact (proj2 (candidate_count_bounded
                    LookaheadSample.lookahead_parser
                    (RegexCandidateGenerator.new
                       LookaheadSample.lookahead_parser
                       (Samples.regexp "(?=a+)b")) 0 10 (-4))
                 ltac:(vm_compute; reflexivity)).
Defined.

Module BindingFacts.

Import RegexCandidateGenerator.

Lemma fold_left_pointwise {A B : Type} (f g : A -> B -> A) (l : list B) :
  (forall a b, f a b = g a b) ->
  forall acc, fold_left f l acc = fold_left g l acc.
Proof.
  intros Hfg. induction l as [|b rest IH]; intros acc; simpl; [reflexivity|].
  now rewrite Hfg, IH.
Qed.

Lemma bind_fold_other (entry : Quantifier -> Z * num)
      (l : list Quantifier) (id : nat) :
  ~ In id (map q_id l) ->
  forall acc : QuantifierConfig,
    fold_left (fun (config : QuantifierConfig) q =>
                 <[q_id q := entry q]> config) l acc !! id
    = acc !! id.
Proof.
  induction l as [|x rest IH]; intros Hnotin acc; simpl; [reflexivity|].
  rewrite IH by (intros H; apply Hnotin; now right).
  apply lookup_insert_ne. intros Heq. apply Hnotin. now left.
Qed.

Lemma bind_fold_lookup (entry : Quantifier -> Z * num)
      (l : list Quantifier) (q : Quantifier) :
  List.NoDup (map q_id l) -> In q l ->
  forall acc : QuantifierConfig,
    fold_left (fun (config : QuantifierConfig) q =>
                 <[q_id q := entry q]> config) l acc !! q_id q
    = Some (entry q).
Proof.
  induction l as [|x rest IH]; intros Hnd Hin acc; [destruct Hin|].
  simpl in Hnd. inversion Hnd as [|? ? Hnotin Hrest]; subst.
  destruct Hin as [->|Hin]; simpl.
  - rewrite bind_fold_other by exact Hnotin. apply lookup_insert_eq.
  - now apply IH.
Qed.

Lemma bind_all_lookup entry quantifiers q :
  distinct_nodes quantifiers -> In q quantifiers ->
  bind_all entry quantifiers !! q_id q = Some (entry q).
Proof. intros Hnd Hin. now apply bind_fold_lookup. Qed.

Lemma targetConfig_bind quantifiers targetLength :
  targetConfig quantifiers targetLength
  = bind_all (target_entry quantifiers targetLength) quantifiers.
Proof.
  unfold targetConfig, bind_all. apply fold_left_pointwise.
  intros config q. unfold target_entry.
  now destruct (includes (growableQuantifiers quantifiers) q).
Qed.

Lemma fallbackConfig_bind quantifiers minLength :
  fallbackConfig quantifiers minLength
  = bind_all (fallback_entry minLength) quantifiers.
Proof. reflexivity. Qed.

(** The configurations the generator can return. *)
Lemma configuration_cases parser parsed quantifiers
      minLength maxLength count config :
  In config (generateQuantifierConfigurations
               parser parsed quantifiers minLength maxLength count) ->
  config = bind_all own_bounds quantifiers
  \/ (exists t, config = bind_all (target_entry quantifiers t) quantifiers)
  \/ config = bind_all (fallback_entry minLength) quantifiers.
Proof.
  unfold generateQuantifierConfigurations.
  destruct (growableQuantifiers quantifiers) as [|g gs].
  - intros [<-|[]]. now left.
  - intros Hin. apply LoopFacts.slice0_subset in Hin.
    pose proof (LoopFacts.targetLoop_keeps
                  parser parsed quantifiers minLength maxLength count
                  (fun c => exists t,
                       c = bind_all (target_entry quantifiers t) quantifiers)
                  (targetValues minLength maxLength)) as Hkeep.
    assert (Hall : Forall
                     (fun c => exists t,
                          c = bind_all (target_entry quantifiers t)
                                       quantifiers)
                     (targetLoop parser parsed quantifiers
                                 minLength maxLength count
                                 (targetValues minLength maxLength) [])).
    { apply Hkeep; [|constructor].
      intros t c _ -> _. exists t. apply targetConfig_bind. }
    rewrite List.Forall_forall in Hall.
    destruct (targetLoop _ _ _ _ _ _ _ _) as [|c0 cs].
    + destruct Hin as [<-|[]]. right. right. apply fallbackConfig_bind.
    + right. left. now apply Hall.
Qed.

Lemma clampReps_within (q : Quantifier) (repsNeeded fallbackMax : Z) :
  wf_counts (q_min q) (q_max q) = true ->
  q_min q <= clampReps q repsNeeded fallbackMax
  /\ num_le (Fin (clampReps q repsNeeded fallbackMax)) (q_max q).
Proof.
  unfold wf_counts, clampReps. intros Hwf.
  apply andb_true_iff in Hwf as [_ Hord].
  destruct (q_max q) as [m|]; cbn [num_le]; [apply Z.leb_le in Hord|]; lia.
Qed.

Lemma entry_narrows (entry : Quantifier -> Z * num)
      (config : QuantifierConfig) (q : Quantifier) :
  wf_counts (q_min q) (q_max q) = true ->
  config !! q_id q = Some (entry q) ->
  entry q = own_bounds q
  \/ (exists reps fb, entry q = (clampReps q reps fb,
                                 Fin (clampReps q reps fb))) ->
  narrows config q.
Proof.
  intros Hwf Hlook Hentry. unfold narrows.
  destruct Hentry as [Heq|(reps & fb & Heq)]; rewrite Heq in Hlook.
  - unfold own_bounds in Hlook. unfold wf_counts in Hwf.
    apply andb_true_iff in Hwf as [_ Hord].
    destruct (q_max q) as [m|] eqn:Em.
    + apply Z.leb_le in Hord. exists (q_min q), m.
      cbn [num_le]. repeat split; auto; lia.
    + exists (q_min q), (q_min q). cbn [num_le]. repeat split; auto; lia.
  - destruct (clampReps_within q reps fb Hwf) as [Hlo Hhi].
    exists (clampReps q reps fb), (clampReps q reps fb).
    repeat split; auto; lia.
Qed.

End BindingFacts.

(** X12.  In every configuration the generator builds for a list of
    quantifier nodes that are pairwise distinct and of well-ordered counts,
    each node is bound to finite counts [lo <= hi] that lie between the
    node's own minimum and maximum. *)
Theorem configurations_narrow
        (parseRegExpLiteral : string -> option RegExpLiteral)
        (parsed : ParsedRegex) (quantifiers : list Quantifier)
        (minLength maxLength count : Z)
        (config : QuantifierConfig) (q : Quantifier) :
  distinct_nodes quantifiers ->
  (forall x, In x quantifiers -> wf_counts (q_min x) (q_max x) = true) ->
  In config (RegexCandidateGenerator.generateQuantifierConfigurations
               parseRegExpLiteral parsed quantifiers
               minLength maxLength count) ->
  In q quantifiers ->
  narrows config q.
Proof.
  intros Hnd Hwf Hconfig Hq.
  destruct (BindingFacts.configuration_cases _ _ _ _ _ _ _ Hconfig)
    as [->|[(t & ->)| ->]].
  - apply (BindingFacts.entry_narrows RegexCandidateGenerator.own_bounds);
      [now apply Hwf|now apply BindingFacts.bind_all_lookup|now left].
  - apply (BindingFacts.entry_narrows (target_entry quantifiers t));
      [now apply Hwf|now apply BindingFacts.bind_all_lookup|].
    unfold target_entry.
    destruct (RegexCandidateGenerator.includes _ q); [right|now left].
    eexists. eexists. reflexivity.
  - apply (BindingFacts.entry_narrows (fallback_entry minLength));
      [now apply Hwf|now apply BindingFacts.bind_all_lookup|].
    right. eexists. eexists. reflexivity.
Qed.

Lemma configurations_narrow_witness :
  narrows
    (RegexCandidateGenerator.targetConfig
       (RegexCandidateGenerator.findQuantifiers
          (pr_pattern Samples.digits_parsed)) 9)
    (mkQuantifier 1 1 Infinity true Samples.digits).
Proof.
  apply (configurations_narrow
           Samples.digits_parser Samples.digits_parsed
           (RegexCandidateGenerator.findQuantifiers
              (pr_pattern Samples.digits_parsed)) 9 9 1).
  - vm_compute. constructor; [intros []|constructor].
  - intros x [<-|[]]. reflexivity.
  - vm_compute. left. reflexivity.
  - left. reflexivity.
Defined.

(** X13.  When the input does not parse, the generator does not fail: it
    returns the single candidate made of the input text and the bound
    [(0, 0)], whatever the range and the count. *)
Theorem unparseable_input_single_candidate
        (parseRegExpLiteral : string -> option RegExpLiteral)
        (regex : RegexInput) (minLength maxLength count : Z) :
  parseRegex parseRegExpLiteral regex = None ->
  generateFor parseRegExpLiteral regex minLength maxLength count
  = [{| c_regex := source_of regex; c_minLength := 0;
        c_maxLength := Some 0 |}].
Proof.
  intros Hparse. unfold generateFor, RegexCandidateGenerator.new.
  rewrite Hparse. now destruct regex.
Qed.

Lemma unparseable_input_single_candidate_witness :
  generateFor Samples.hello_parser (RegexString "(") 3 8 5
  = [{| c_regex := "("; c_minLength := 0; c_maxLength := Some 0 |}].
Proof.
  exact (unparseable_input_single_candidate
           Samples.hello_parser (RegexString "(") 3 8 5 eq_refl).
Defined.

(* ================================================================== *)
(** ** Further properties of the public entry points *)

(** X14.  [regexToStringMinMax] throws exactly when the expression does not
    parse (for a [RegExp] object, one whose source does not start with a
    slash): in every other case it returns a result. *)
Theorem fails_exactly_on_parse_error
        (parseRegExpLiteral : string -> option RegExpLiteral)
        (regex : RegexInput) (minLength maxLength : Z)
        (options : MinMaxOptions) :
  regexp_source_ok regex = true ->
  (regexToStringMinMax parseRegExpLiteral regex minLength maxLength options
   = None
   <-> parseRegex parseRegExpLiteral regex = None).
Proof.
  intros Hok. split.
  - intros Hnone.
    destruct (parseRegex parseRegExpLiteral regex) as [parsed|] eqn:Hparse;
      [|reflexivity].
    destruct (Z.lt_ge_cases
                maxLength
                (est_min (LengthEstimatorVisitor.estimate
                            (pr_pattern parsed)))) as [Hlt|Hge].
    + rewrite (ApiFacts.infeasible_result _ _ _ _ options _ Hparse Hlt)
        in Hnone. discriminate.
    + rewrite (ApiFacts.feasible_result _ _ _ _ options _ Hparse Hok Hge)
        in Hnone. discriminate.
  - intros Hparse. unfold regexToStringMinMax. now rewrite Hparse.
Qed.

Lemma fails_exactly_on_parse_error_witness :
  regexToStringMinMax Samples.hello_parser (RegexString "(") 0 5
                      Samples.no_options = None.
Proof.
  apply (fails_exactly_on_parse_error
           Samples.hello_parser (RegexString "(") 0 5 Samples.no_options
           eq_refl).
  reflexivity.
Defined.

(** X15.  In every result, the warning is present exactly when the reported
    minimum exceeds [maxLength]; and when [isExact] is true the reported
    minimum is at least [minLength] and a finite reported maximum is at most
    [maxLength]. *)
Theorem warning_and_exactness
        (parseRegExpLiteral : string -> option RegExpLiteral)
        (regex : RegexInput) (minLength maxLength : Z)
        (options : MinMaxOptions) (r : RegexTransformResult) :
  regexToStringMinMax parseRegExpLiteral regex minLength maxLength options
  = Some r ->
  (warning r <> None <-> maxLength < actualMinLength r)
  /\ (isExact r = true ->
      minLength <= actualMinLength r
      /\ forall m, actualMaxLength r = Some m -> m <= maxLength).
Proof.
  unfold regexToStringMinMax.
  destruct (parseRegex parseRegExpLiteral regex) as [parsed|];
    [|discriminate].
  destruct (maxLength <? est_min _) eqn:Elt.
  - intros [= <-]. cbn [warning actualMinLength isExact].
    apply Z.ltb_lt in Elt. split; [now split|discriminate].
  - destruct (MinMaxTransformer.transform _ _ _ _ _ _) as [text|];
      [|discriminate].
    intros [= <-]. cbn [warning actualMinLength actualMaxLength isExact].
    set (final := finalEstimateOf _ _ _ _ _). split.
    + destruct (maxLength <? est_min final) eqn:Ew.
      * apply Z.ltb_lt in Ew. now split.
      * apply Z.ltb_ge in Ew. split; [easy|lia].
    + intros Hexact. apply andb_true_iff in Hexact as [Hlo Hhi].
      apply Z.leb_le in Hlo. split; [exact Hlo|].
      intros m Hm. rewrite Hm in Hhi. now apply Z.leb_le.
Qed.

Lemma warning_and_exactness_witness :
  exists r,
    regexToStringMinMax Samples.lower_parser (Samples.regexp "[a-z]{20}")
                        5 10 Samples.no_options = Some r
    /\ (warning r <> None <-> 10 < actualMinLength r)
    /\ actualMinLength r = 20.
Proof.
  assert (Hr : exists r,
             regexToStringMinMax Samples.lower_parser
                                 (Samples.regexp "[a-z]{20}")
                                 5 10 Samples.no_options = Some r
             /\ actualMinLength r = 20)
    by (eexists; split; [vm_compute; reflexivity|reflexivity]).
  destruct Hr as (r & Hr & Hmin).
  exists r. split; [exact Hr|]. split; [|exact Hmin].
  exact (proj1 (warning_and_exactness _ _ _ _ _ _ Hr)).
Defined.

(** X16.  The candidates of a result are present exactly when they were
    requested, and there are never more of them than the requested count
    (5 when none is given), for a count of at least one. *)
Theorem result_candidates_bounded
        (parseRegExpLiteral : string -> option RegExpLiteral)
        (regex : RegexInput) (minLength maxLength : Z)
        (options : MinMaxOptions) (r : RegexTransformResult) :
  regexToStringMinMax parseRegExpLiteral regex minLength maxLength options
  = Some r ->
  1 <= candidateCount_or_5 options ->
  (candidates r = None
   <-> is_true_option (generateCandidates options) = false)
  /\ forall cs,
       candidates r = Some cs ->
       Z.of_nat (length cs) <= candidateCount_or_5 options.
Proof.
  intros Hr Hcount.
  assert (Hgen : forall lo hi,
             Z.of_nat (length (generateFor parseRegExpLiteral regex lo hi
                                           (candidateCount_or_5 options)))
             <= candidateCount_or_5 options).
  { intros lo hi. unfold generateFor.
    destruct (RegexCandidateGenerator.findQuantifiers
                (pr_pattern (RegexCandidateGenerator.new
                               parseRegExpLiteral regex))) eqn:Eq.
    - unfold RegexCandidateGenerator.generate. rewrite Eq. simpl. lia.
    - pose proof (LoopFacts.generate_length
                    parseRegExpLiteral
                    (RegexCandidateGenerator.new parseRegExpLiteral regex)
                    lo hi (candidateCount_or_5 options)) as Hlen.
      rewrite Eq in Hlen. specialize (Hlen ltac:(discriminate)). lia. }
  revert Hr. unfold regexToStringMinMax.
  destruct (parseRegex parseRegExpLiteral regex) as [parsed|];
    [|discriminate].
  destruct (maxLength <? est_min _).
  - intros [= <-]. cbn [candidates].
    destruct (is_true_option (generateCandidates options)); split;
      try easy.
    intros cs [= <-]. apply Hgen.
  - destruct (MinMaxTransformer.transform _ _ _ _ _ _) as [text|];
      [|discriminate].
    intros [= <-]. cbn [candidates].
    destruct (is_true_option (generateCandidates options)); split;
      try easy.
    intros cs [= <-]. apply Hgen.
Qed.

Lemma result_candidates_bounded_witness :
  exists r cs,
    regexToStringMinMax Samples.digits_range_parser
                        (Samples.regexp "^[0-9]+$") 5 10
                        (Samples.candidates_wanted 3) = Some r
    /\ candidates r = Some cs
    /\ Z.of_nat (length cs) <= 3.
Proof.
  assert (Hr : exists r cs,
             regexToStringMinMax Samples.digits_range_parser
                                 (Samples.regexp "^[0-9]+$") 5 10
                                 (Samples.candidates_wanted 3) = Some r
             /\ candidates r = Some cs)
    by (eexists; eexists; split; [vm_compute; reflexivity|reflexivity]).
  destruct Hr as (r & cs & Hr & Hcs).
  exists r, cs. split; [exact Hr|]. split; [exact Hcs|].
  exact (proj2 (result_candidates_bounded
                  _ _ _ _ _ _ Hr ltac:(vm_compute; discriminate)) cs Hcs).
Defined.

Module SourceFacts.

Lemma append_cons (c : ascii) (a b : string) :
  String c a +:+ b = String c (a +:+ b).
Proof. reflexivity. Qed.

Lemma lastIndexOf_absent (s : string) (c : ascii) :
  includes_char s c = false -> lastIndexOf s c = None.
Proof.
  induction s as [|d rest IH]; simpl; [reflexivity|].
  intros H. apply orb_false_iff in H as [Hd Hrest].
  now rewrite (IH Hrest), Hd.
Qed.

Lemma lastIndexOf_last (a b : string) (c : ascii) :
  includes_char b c = false ->
  lastIndexOf (a +:+ String c b) c = Some (String.length a).
Proof.
  intros Hb. induction a as [|d rest IH].
  - change (EmptyString +:+ String c b) with (String c b). simpl.
    now rewrite (lastIndexOf_absent b c Hb), Ascii.eqb_refl.
  - rewrite append_cons. simpl. now rewrite IH.
Qed.

Lemma substring_prefix (a b : string) :
  String.substring 0 (String.length a) (a +:+ b) = a.
Proof.
  induction a as [|d rest IH]; [now destruct b|].
  rewrite append_cons. simpl. now rewrite IH.
Qed.

(** The source recovered from a text [/source/flags]. *)
Lemma source_of_text (source flags : string) :
  includes_char flags "/" = false ->
  slice_from_1 ("/" +:+ source +:+ "/" +:+ flags)
               (lastIndexOf ("/" +:+ source +:+ "/" +:+ flags) "/")
  = source.
Proof.
  intros Hflags.
  change ("/" +:+ source +:+ "/" +:+ flags)
    with (String "/" (source +:+ String "/" flags)).
  cbn [lastIndexOf]. rewrite (lastIndexOf_last source flags "/" Hflags).
  cbn [slice_from_1]. rewrite Nat.sub_succ, Nat.sub_0_r.
  cbn [String.substring]. apply substring_prefix.
Qed.

End SourceFacts.

(** X17.  A text [/source/flags] whose flags hold no slash is parsed as the
    [RegExp] object of this source and these flags is: the same tree, the
    same flags and the same source.  A text that does not start with a slash
    is parsed as the object without flags whose source it is. *)
Theorem text_and_object_agree
        (parseRegExpLiteral : string -> option RegExpLiteral)
        (source flags : string) :
  includes_char flags "/" = false ->
  parseRegex parseRegExpLiteral
             (RegexString (regex_toString (RegExpObject source flags)))
  = parseRegex parseRegExpLiteral (RegExpObject source flags)
  /\ (startsWith source "/" = false ->
      parseRegex parseRegExpLiteral (RegexString source)
      = parseRegex parseRegExpLiteral (RegExpObject source EmptyString)).
Proof.
  intros Hflags. split.
  - unfold parseRegex. cbn [regex_toString literal_of].
    rewrite ApiFacts.startsWith_slash.
    destruct (parseRegExpLiteral _) as [ast|]; [|reflexivity].
    now rewrite (SourceFacts.source_of_text source flags Hflags).
  - intros Hstart. unfold parseRegex. cbn [literal_of]. rewrite Hstart.
    reflexivity.
Qed.

Lemma text_and_object_agree_witness :
  option_map pr_source
    (parseRegex MoreSamples.test_g_parser (RegexString "/^test$/g"))
  = Some "^test$"
  /\ parseRegex MoreSamples.test_g_parser (RegexString "/^test$/g")
     = parseRegex MoreSamples.test_g_parser (RegExpObject "^test$" "g").
Proof.
  split; [vm_compute; reflexivity|].
  exact (proj1 (text_and_object_agree MoreSamples.test_g_parser
                                      "^test$" "g" eq_refl)).
Defined.

Module AnalysisFacts.

Lemma fold_state (entered : list Element) : forall st,
  let st' := fold_left onEnter entered st in
  st_backreferences st'
  = st_backreferences st || existsb is_backreference entered
  /\ st_lookarounds st' = st_lookarounds st || existsb is_lookaround entered
  /\ st_namedGroups st'
     = st_namedGroups st || existsb is_named_group entered
  /\ st_captureGroups st'
     = st_captureGroups st
       + Z.of_nat (length (List.filter is_capturing entered)).
Proof.
  induction entered as [|e rest IH]; intros st; cbn zeta.
  - simpl. rewrite !orb_false_r. repeat split; lia.
  - cbn [fold_left]. destruct (IH (onEnter st e)) as (Hb & Hl & Hn & Hc).
    rewrite Hb, Hl, Hn, Hc. clear.
    destruct e as [| | | |name alts| |kind negate alts| |]; cbn;
      try (destruct name as [n|]; [destruct (truthy_string n)|]);
      try destruct kind; cbn; rewrite ?orb_true_r, ?orb_false_r;
      repeat split; lia.
Qed.

Lemma named_is_capturing (entered : list Element) :
  existsb is_named_group entered = true ->
  (1 <= length (List.filter is_capturing entered))%nat.
Proof.
  induction entered as [|e rest IH]; [discriminate|].
  cbn [existsb List.filter]. intros H. apply orb_true_iff in H as [H|H].
  - destruct e; try discriminate. cbn. lia.
  - specialize (IH H). destruct (is_capturing e); cbn; lia.
Qed.

End AnalysisFacts.

(** X18.  [analyzeRegex] throws exactly when the expression does not parse.
    Otherwise, whatever elements the visitor enters: the count of capturing
    groups is the number of capturing groups entered; the three flags tell
    whether a backreference, a lookaround, a named group was entered; a
    named group implies a count of at least one; and the lengths are those
    of [estimateMinLength] and [estimateMaxLength]. *)
Theorem analysis_reports_what_was_entered
        (parseRegExpLiteral : string -> option RegExpLiteral)
        (enteredElements : Node -> list Element) (regex : RegexInput) :
  (analyzeRegex parseRegExpLiteral enteredElements regex = None
   <-> parseRegex parseRegExpLiteral regex = None)
  /\ forall a,
       analyzeRegex parseRegExpLiteral enteredElements regex = Some a ->
       exists parsed,
         parseRegex parseRegExpLiteral regex = Some parsed
         /\ captureGroupCount a
            = Z.of_nat (length (List.filter
                                  is_capturing
                                  (enteredElements (pr_ast parsed))))
         /\ hasBackreferences a
            = existsb is_backreference (enteredElements (pr_ast parsed))
         /\ hasLookarounds a
            = existsb is_lookaround (enteredElements (pr_ast parsed))
         /\ hasNamedGroups a
            = existsb is_named_group (enteredElements (pr_ast parsed))
         /\ (hasNamedGroups a = true -> 1 <= captureGroupCount a)
         /\ estimateMinLength parseRegExpLiteral regex
            = Some (an_minLength a)
         /\ estimateMaxLength parseRegExpLiteral regex
            = Some (an_maxLength a)
         /\ an_flags a = raw (pr_flags parsed).
Proof.
  unfold analyzeRegex, estimateMinLength, estimateMaxLength.
  destruct (parseRegex parseRegExpLiteral regex) as [parsed|];
    [|split; [now split|discriminate]].
  split; [split; discriminate|].
  intros a [= <-]. exists parsed. split; [reflexivity|].
  cbn [captureGroupCount hasBackreferences hasLookarounds hasNamedGroups
       an_minLength an_maxLength an_flags].
  destruct (AnalysisFacts.fold_state
              (enteredElements (pr_ast parsed))
              {| st_backreferences := false; st_lookarounds := false;
                 st_namedGroups := false; st_captureGroups := 0 |})
    as (Hb & Hl & Hn & Hc).
  cbn zeta in *. cbn [st_backreferences st_lookarounds st_namedGroups
                      st_captureGroups orb] in *.
  rewrite Hb, Hl, Hn, Hc. repeat split; try reflexivity.
  intros Hnamed. apply AnalysisFacts.named_is_capturing in Hnamed. lia.
Qed.

Lemma analysis_reports_what_was_entered_witness :
  exists a,
    analyzeRegex MoreSamples.year_month_parser MoreSamples.enter_all
                 (Samples.regexp "(?<year>\d{4})-(?<month>\d{2})") = Some a
    /\ captureGroupCount a = 2
    /\ hasNamedGroups a = true
    /\ an_minLength a = 7
    /\ 1 <= captureGroupCount a.
Proof.
  assert (Ha : exists a,
             analyzeRegex MoreSamples.year_month_parser MoreSamples.enter_all
                          (Samples.regexp "(?<year>\d{4})-(?<month>\d{2})")
             = Some a
             /\ captureGroupCount a = 2
             /\ hasNamedGroups a = true
             /\ an_minLength a = 7)
    by (eexists; split; [vm_compute; reflexivity|repeat split]).
  destruct Ha as (a & Ha & Hcount & Hnamed & Hmin).
  exists a. repeat split; try assumption.
  destruct (proj2 (analysis_reports_what_was_entered
                     MoreSamples.year_month_parser MoreSamples.enter_all
                     (Samples.regexp "(?<year>\d{4})-(?<month>\d{2})"))
                  a Ha)
    as (parsed & _ & _ & _ & _ & _ & Himp & _).
  exact (Himp Hnamed).
Defined.

(* ================================================================== *)
(** ** The schema walker *)

Module WalkerFacts.

Import SchemaWalker.

Section Facts.

Variables Payload Value Rng : Type.
Variable undefined : Value.
Variable is_VOID : Value -> bool.
Variable safeParse : Item Payload -> Value -> option Value.

Abbreviation pipe_list s := (match it_pipe Payload s with
                             | Some items => items
                             | None => []
                             end).

(** What the loop returns: the innermost schema, and the flat pipe in front
    of the accumulator. *)
Lemma unwrap_spec (s : Item Payload) : forall acc descended,
  exists base tail descended',
    unwrap Payload s acc descended = (base, flat_pipe Payload s ++ acc,
                                      descended')
    /\ it_type Payload base = it_type Payload s
    /\ flat_pipe Payload s = pipe_list base ++ tail
    /\ (it_pipe Payload s <> None -> it_pipe Payload base <> None)
    /\ (descended' = false ->
        descended = false /\ base = s
        /\ flat_pipe Payload s = pipe_list s).
Proof.
  induction s as [type payload|type payload|type payload firstItem rest IH]
    using first_item_ind; intros acc descended.
  - exists (mkItem type payload None), [], descended. now repeat split.
  - exists (mkItem type payload (Some [])), [], descended. now repeat split.
  - cbn [unwrap flat_pipe].
    destruct (nested_schema Payload firstItem type) eqn:En.
    + destruct (IH (rest ++ acc) true)
        as (base & tail & d' & Hrun & Htype & Hflat & Hpipe & Hd).
      exists base, (tail ++ rest), d'.
      rewrite Hrun, <- app_assoc. split; [reflexivity|].
      unfold nested_schema in En.
      destruct (it_pipe Payload firstItem) eqn:Ep; [|discriminate].
      apply String.eqb_eq in En.
      split; [now rewrite Htype|]. split; [now rewrite Hflat, app_assoc|].
      split; [intros _; apply Hpipe; discriminate|].
      intros ->. now destruct (Hd eq_refl).
    + exists (mkItem type payload (Some (firstItem :: rest))), [], descended.
      cbn [it_pipe it_type]. rewrite app_nil_r. now repeat split.
Qed.

Lemma unwrapped_pipe (s : Item Payload) :
  it_type Payload (unwrapped Payload s) = it_type Payload s
  /\ (it_pipe Payload s = None -> unwrapped Payload s = s)
  /\ (it_pipe Payload s <> None ->
      it_pipe Payload (unwrapped Payload s) = Some (flat_pipe Payload s)).
Proof.
  unfold unwrapped.
  destruct (unwrap_spec s [] false)
    as (base & tail & d' & Hrun & Htype & Hflat & Hpipe & Hd).
  rewrite Hrun, app_nil_r.
  destruct (flat_pipe Payload s) as [|x items] eqn:Ef.
  - split; [exact Htype|]. split.
    + intros Hnone. destruct s as [t p pipe]. cbn in Hnone. subst pipe.
      cbn in Hrun. now injection Hrun as <- _.
    + intros Hsome. specialize (Hpipe Hsome).
      destruct (it_pipe Payload base) as [items|] eqn:Eb; [|easy].
      symmetry in Hflat. apply app_eq_nil in Hflat as [-> _]. reflexivity.
  - destruct d'.
    + cbn [it_type it_pipe]. split; [exact Htype|]. split; [|reflexivity].
      intros Hnone. destruct s as [t p pipe]. cbn in Hnone. subst pipe.
      discriminate Ef.
    + destruct (Hd eq_refl) as (_ & -> & Hs). split; [reflexivity|].
      split; [reflexivity|]. intros Hsome. rewrite Hs.
      now destruct (it_pipe Payload s).
Qed.

Lemma find_app_first {A : Type} (test : A -> bool) (l1 l2 : list A) (x : A) :
  List.find test l1 = Some x -> List.find test (l1 ++ l2) = Some x.
Proof.
  induction l1 as [|y l1 IH]; [discriminate|]. simpl.
  destruct (test y); [easy|exact IH].
Qed.

(** A value the loop of attempts returns has passed the validation. *)
Lemma attempts_validated (generator : Generator Value Rng)
      (originalSchema : Item Payload) (message : string) (n : nat) :
  forall rng v rng',
    attempts Payload Value Rng undefined is_VOID safeParse
             generator originalSchema message n rng = (Returned v, rng') ->
    validated Payload Value safeParse originalSchema v.
Proof.
  induction n as [|n IH]; intros rng v rng'; cbn [attempts];
    [discriminate|].
  destruct (generator rng) as [[result|e] rng1]; [|discriminate].
  destruct (safeParse originalSchema _) as [output|] eqn:Ev.
  - intros [= <- _]. unfold validated. eexists. exact Ev.
  - apply IH.
Qed.

End Facts.

End WalkerFacts.

(** X19.  The loop that unwraps nested pipes keeps the type of the schema
    and hands the handlers the flat pipe: the items of the innermost pipe
    first, then the other items of each enclosing pipe in turn.  A schema
    without pipe is left as it is. *)
Theorem unwrapping_flattens_pipes
        (Payload : Type) (schema : SchemaWalker.Item Payload) :
  SchemaWalker.it_type Payload (SchemaWalker.unwrapped Payload schema)
  = SchemaWalker.it_type Payload schema
  /\ (SchemaWalker.it_pipe Payload schema = None ->
      SchemaWalker.unwrapped Payload schema = schema)
  /\ (SchemaWalker.it_pipe Payload schema <> None ->
      SchemaWalker.it_pipe Payload (SchemaWalker.unwrapped Payload schema)
      = Some (SchemaWalker.flat_pipe Payload schema)).
Proof. apply WalkerFacts.unwrapped_pipe. Qed.

Lemma unwrapping_flattens_pipes_witness :
  SchemaWalker.it_pipe Z
    (SchemaWalker.unwrapped Z SchemaWalker.WalkerSamples.outer_pipe)
  = Some [SchemaWalker.WalkerSamples.leaf "string" 0;
          SchemaWalker.WalkerSamples.leaf "max_length" 50;
          SchemaWalker.WalkerSamples.leaf "max_length" 10].
Proof.
  rewrite (proj2 (proj2 (unwrapping_flattens_pipes
                           Z SchemaWalker.WalkerSamples.outer_pipe)))
    by discriminate.
  reflexivity.
Defined.

(** X20.  When the first item of a pipe is itself a piped schema of the
    same type, a search with [find] in the pipe handed to the handlers
    returns the item found in the nested schema's own flat pipe: an inner
    constraint hides an outer one of the same kind. *)
Theorem inner_constraint_wins
        (Payload : Type) (type : string) (payload : Payload)
        (firstItem : SchemaWalker.Item Payload)
        (rest : list (SchemaWalker.Item Payload))
        (test : SchemaWalker.Item Payload -> bool)
        (found : SchemaWalker.Item Payload) :
  SchemaWalker.nested_schema Payload firstItem type = true ->
  List.find test (SchemaWalker.flat_pipe Payload firstItem) = Some found ->
  exists items,
    SchemaWalker.it_pipe Payload
      (SchemaWalker.unwrapped
         Payload (SchemaWalker.mkItem type payload (Some (firstItem :: rest))))
    = Some items
    /\ List.find test items = Some found.
Proof.
  intros Hnested Hfound.
  destruct (WalkerFacts.unwrapped_pipe
              Payload
              (SchemaWalker.mkItem type payload (Some (firstItem :: rest))))
    as (_ & _ & Hpipe).
  eexists. split; [apply Hpipe; discriminate|].
  cbn [SchemaWalker.flat_pipe]. rewrite Hnested.
  now apply WalkerFacts.find_app_first.
Qed.

Lemma inner_constraint_wins_witness :
  exists items,
    SchemaWalker.it_pipe Z
      (SchemaWalker.unwrapped Z SchemaWalker.WalkerSamples.outer_pipe)
    = Some items
    /\ List.find
         (fun item => String.eqb (SchemaWalker.it_type Z item) "max_length")
         items
       = Some (SchemaWalker.WalkerSamples.leaf "max_length" 50).
Proof.
  exact (inner_constraint_wins
           Z "string" 0 SchemaWalker.WalkerSamples.inner_pipe
           [SchemaWalker.WalkerSamples.leaf "max_length" 10]
           (fun item => String.eqb (SchemaWalker.it_type Z item) "max_length")
           (SchemaWalker.WalkerSamples.leaf "max_length" 50)
           eq_refl eq_refl).
Defined.

Section WalkerProperties.

Import SchemaWalker.

Variables Payload Value Rng : Type.
Variable undefined : Value.
Variable is_VOID : Value -> bool.
Variable getFakeGenerator : Item Payload -> option (Generator Value Rng).
Variable schemaHandlers :
  string -> option (Item Payload -> Generator Value Rng).
Variable safeParse : Item Payload -> Value -> option Value.
Variable word : Rng -> Value * Rng.

Abbreviation handle :=
  (handleSchema Payload Value Rng undefined is_VOID getFakeGenerator
                schemaHandlers safeParse word).
Abbreviation many :=
  (generateMany Payload Value Rng undefined is_VOID getFakeGenerator
                schemaHandlers safeParse word).

Lemma handle_validated (schema : Item Payload) (maxAttempts : Z)
      (rng rng' : Rng) (v : Value) :
  schemaHandlers (it_type Payload (unwrapped Payload schema)) <> None ->
  handle (Some schema) maxAttempts rng = (Returned v, rng') ->
  validated Payload Value safeParse schema v.
Proof.
  intros Hhandler. unfold handleSchema, defaultHandlers.
  destruct (schemaHandlers _) as [handler|]; [clear Hhandler|easy].
  destruct (getFakeGenerator _) as [custom|].
  - destruct (attempts _ _ _ _ _ _ custom _ _ _ rng) as [[out|e] rng1] eqn:Ec.
    + intros [= <- _].
      exact (WalkerFacts.attempts_validated _ _ _ _ _ _ _ _ _ _ _ _ _ Ec).
    + apply WalkerFacts.attempts_validated.
  - apply WalkerFacts.attempts_validated.
Qed.

(** X21.  When a handler exists for the type of the schema, every value
    [handleSchema] returns, from the custom generator or from the handler,
    is an output of the validation of the original schema. *)
Theorem returned_values_are_validated
        (schema : Item Payload) (maxAttempts : Z) (rng rng' : Rng)
        (v : Value) :
  schemaHandlers (it_type Payload (unwrapped Payload schema)) <> None ->
  handle (Some schema) maxAttempts rng = (Returned v, rng') ->
  validated Payload Value safeParse schema v.
Proof.
  intros Hhandler Hrun. unfold handleSchema, defaultHandlers in Hrun.
  destruct (schemaHandlers _) as [handler|]; [clear Hhandler|easy].
  destruct (getFakeGenerator _) as [custom|];
    [destruct (attempts _ _ _ _ _ _ custom _ _ _ rng)
       as [[out|e] rng1] eqn:Ec|].
  - injection Hrun as <- _.
    exact (WalkerFacts.attempts_validated _ _ _ _ _ _ _ _ _ _ _ _ _ Ec).
  - exact (WalkerFacts.attempts_validated _ _ _ _ _ _ _ _ _ _ _ _ _ Hrun).
  - exact (WalkerFacts.attempts_validated _ _ _ _ _ _ _ _ _ _ _ _ _ Hrun).
Qed.

(** X22.  [handleSchema] throws only from the default handlers: if it
    throws, a handler exists for the type, whatever the custom generator
    did.  With no attempt allowed and a handler, it throws the error of the
    exhausted attempts without drawing from the random source. *)
Theorem throws_only_from_default_handlers
        (schema : Item Payload) (maxAttempts : Z) (rng : Rng) :
  (forall e rng',
      handle (Some schema) maxAttempts rng = (Thrown e, rng') ->
      schemaHandlers (it_type Payload (unwrapped Payload schema)) <> None)
  /\ (maxAttempts <= 0 ->
      schemaHandlers (it_type Payload (unwrapped Payload schema)) <> None ->
      handle (Some schema) maxAttempts rng
      = (Thrown ("Max attempts reached for schema type: "
                   +:+ it_type Payload schema), rng)).
Proof.
  split.
  - intros e rng'. unfold handleSchema, defaultHandlers.
    destruct (schemaHandlers _) as [handler|]; [discriminate|].
    destruct (getFakeGenerator _) as [custom|].
    + destruct (attempts _ _ _ _ _ _ custom _ _ _ rng) as [[out|e1] rng1];
        [discriminate|].
      destruct (word rng1). discriminate.
    + destruct (word rng). discriminate.
  - intros Hzero Hhandler. unfold handleSchema, defaultHandlers.
    destruct (schemaHandlers _) as [handler|]; [|easy].
    replace (Z.to_nat maxAttempts) with 0%nat by lia.
    rewrite (proj1 (WalkerFacts.unwrapped_pipe Payload schema)).
    now destruct (getFakeGenerator _).
Qed.

(** X23.  When a handler exists for the type of the schema and
    [generateMany] returns, it returns exactly [count] values, each one an
    output of the validation of the schema. *)
Theorem generateMany_returns_count_validated
        (schema : Item Payload) (maxAttempts : option Z) (count : nat)
        (rng rng' : Rng) (values : list Value) :
  schemaHandlers (it_type Payload (unwrapped Payload schema)) <> None ->
  many schema maxAttempts count rng = (Returned values, rng') ->
  length values = count
  /\ Forall (validated Payload Value safeParse schema) values.
Proof.
  intros Hhandler. revert rng rng' values.
  induction count as [|n IH]; intros rng rng' values; cbn [generateMany].
  - intros [= <- _]. split; [reflexivity|constructor].
  - unfold generate.
    destruct (handle (Some schema) _ rng) as [[v|e] rng1] eqn:Ev;
      [|discriminate].
    destruct (many schema maxAttempts n rng1) as [[vs|e] rng2] eqn:Em;
      [|discriminate].
    intros [= <- _]. destruct (IH _ _ _ Em) as [Hlen Hall].
    split; [simpl; now rewrite Hlen|].
    constructor; [|exact Hall].
    exact (handle_validated schema _ _ _ _ Hhandler Ev).
Qed.

End WalkerProperties.

Lemma returned_values_are_validated_witness :
  SchemaWalker.handleSchema
    Z Z nat (-2) (Z.eqb (-3)) SchemaWalker.WalkerSamples.no_custom
    SchemaWalker.WalkerSamples.handlers SchemaWalker.WalkerSamples.from_three
    SchemaWalker.WalkerSamples.a_word
    (Some SchemaWalker.WalkerSamples.outer_pipe) 10 0%nat
  = (SchemaWalker.Returned 3, 4%nat)
  /\ SchemaWalker.validated Z Z SchemaWalker.WalkerSamples.from_three
       SchemaWalker.WalkerSamples.outer_pipe 3.
Proof.
  assert (Hrun : SchemaWalker.handleSchema
                   Z Z nat (-2) (Z.eqb (-3))
                   SchemaWalker.WalkerSamples.no_custom
                   SchemaWalker.WalkerSamples.handlers
                   SchemaWalker.WalkerSamples.from_three
                   SchemaWalker.WalkerSamples.a_word
                   (Some SchemaWalker.WalkerSamples.outer_pipe) 10 0%nat
                 = (SchemaWalker.Returned 3, 4%nat))
    by (vm_compute; reflexivity).
  split; [exact Hrun|].
  exact (returned_values_are_validated
           Z Z nat (-2) (Z.eqb (-3)) SchemaWalker.WalkerSamples.no_custom
           SchemaWalker.WalkerSamples.handlers
           SchemaWalker.WalkerSamples.from_three
           SchemaWalker.WalkerSamples.a_word
           SchemaWalker.WalkerSamples.outer_pipe 10 0%nat 4%nat 3
           ltac:(vm_compute; discriminate) Hrun).
Defined.

Lemma throws_only_from_default_handlers_witness :
  SchemaWalker.handleSchema
    Z Z nat (-2) (Z.eqb (-3)) SchemaWalker.WalkerSamples.no_custom
    SchemaWalker.WalkerSamples.handlers SchemaWalker.WalkerSamples.from_three
    SchemaWalker.WalkerSamples.a_word
    (Some SchemaWalker.WalkerSamples.outer_pipe) 0 7%nat
  = (SchemaWalker.Thrown "Max attempts reached for schema type: string",
     7%nat).
Proof.
  exact (proj2 (throws_only_from_default_handlers
                  Z Z nat (-2) (Z.eqb (-3))
                  SchemaWalker.WalkerSamples.no_custom
                  SchemaWalker.WalkerSamples.handlers
                  SchemaWalker.WalkerSamples.from_three
                  SchemaWalker.WalkerSamples.a_word
                  SchemaWalker.WalkerSamples.outer_pipe 0 7%nat)
               ltac:(lia) ltac:(vm_compute; discriminate)).
Defined.

Lemma generateMany_returns_count_validated_witness :
  length [3; 4] = 2%nat
  /\ Forall (SchemaWalker.validated
               Z Z SchemaWalker.WalkerSamples.from_three
               SchemaWalker.WalkerSamples.outer_pipe) [3; 4].
Proof.
  exact (generateMany_returns_count_validated
           Z Z nat (-2) (Z.eqb (-3)) SchemaWalker.WalkerSamples.no_custom
           SchemaWalker.WalkerSamples.handlers
           SchemaWalker.WalkerSamples.from_three
           SchemaWalker.WalkerSamples.a_word
           SchemaWalker.WalkerSamples.outer_pipe None 2 0%nat 5%nat [3; 4]
           ltac:(vm_compute; discriminate)
           ltac:(vm_compute; reflexivity)).
Defined.

(* ================================================================== *)
(** ** The estimator on counts that overflow *)

(** On a tree with integer counts the estimator over all numbers returns the
    bound of the estimator over integers. *)
Module WideFacts.

Lemma sequence_fold_widen (results : list RegexLengthEstimate) :
  forall acc,
    fold_left WideCounts.sequence_step (map widen_estimate results)
              (widen_estimate acc)
    = widen_estimate
        (fold_left LengthEstimatorVisitor.sequence_step results acc).
Proof.
  induction results as [|r rest IH]; intros acc; [reflexivity|].
  cbn [map fold_left]. rewrite <- IH. f_equal.
  unfold WideCounts.sequence_step, LengthEstimatorVisitor.sequence_step,
    widen_estimate.
  cbn [WideCounts.est_min WideCounts.est_max est_min est_max].
  now destruct (est_max r), (est_max acc).
Qed.

Lemma sequence_loop_widen (results : list RegexLengthEstimate) :
  WideCounts.sequence_loop (map widen_estimate results)
  = widen_estimate (LengthEstimatorVisitor.sequence_loop results).
Proof.
  exact (sequence_fold_widen results {| est_min := 0; est_max := Some 0 |}).
Qed.

Lemma alternatives_fold_widen (results : list RegexLengthEstimate) :
  forall acc,
    fold_left WideCounts.alternatives_step (map widen_estimate results)
              (widen_num (fst acc), option_map WideCounts.Finite (snd acc))
    = (let r := fold_left LengthEstimatorVisitor.alternatives_step
                          results acc in
       (widen_num (fst r), option_map WideCounts.Finite (snd r))).
Proof.
  induction results as [|r rest IH]; intros acc; [reflexivity|].
  cbn [map fold_left]. rewrite <- IH. f_equal.
  unfold WideCounts.alternatives_step,
    LengthEstimatorVisitor.alternatives_step, widen_estimate.
  cbn [WideCounts.est_min WideCounts.est_max fst snd].
  destruct acc as [[m|] [overallMax|]]; destruct (est_max r); reflexivity.
Qed.

Lemma alternatives_loop_widen (results : list RegexLengthEstimate) :
  WideCounts.alternatives_loop (map widen_estimate results)
  = widen_estimate (LengthEstimatorVisitor.alternatives_loop results).
Proof.
  destruct results as [|r rest]; [reflexivity|].
  unfold WideCounts.alternatives_loop,
    LengthEstimatorVisitor.alternatives_loop.
  cbn [map].
  change (widen_estimate r :: map widen_estimate rest)
    with (map widen_estimate (r :: rest)).
  pose proof (alternatives_fold_widen (r :: rest) (Infinity, Some 0)) as Hf.
  cbn [fst snd widen_num option_map] in Hf. rewrite Hf. cbn zeta.
  destruct (fold_left LengthEstimatorVisitor.alternatives_step (r :: rest)
                      (Infinity, Some 0)) as [[m|] overallMax];
    reflexivity.
Qed.

Lemma quantifier_result_widen (qmin : Z) (qmax : num)
      (elementResult : RegexLengthEstimate) :
  WideCounts.quantifier_result (WideCounts.Finite qmin) (widen_num qmax)
                               (widen_estimate elementResult)
  = widen_estimate
      (LengthEstimatorVisitor.quantifier_result qmin qmax elementResult).
Proof.
  unfold WideCounts.quantifier_result,
    LengthEstimatorVisitor.quantifier_result, widen_estimate.
  destruct qmax as [m|]; cbn; [|reflexivity].
  now destruct (est_max elementResult).
Qed.

Lemma elements_widen (es : list Element) :
  Forall widen_agrees es ->
  map WideCounts.visitElement (map widen_element es)
  = map widen_estimate (map LengthEstimatorVisitor.visitElement es).
Proof.
  induction 1 as [|e rest He _ IH]; [reflexivity|].
  cbn [map]. now rewrite He, IH.
Qed.

Lemma branches_widen (alternatives : list Alternative) :
  all_elements widen_agrees alternatives ->
  map (fun alt => match alt with
                  | WideCounts.mkAlternative es =>
                      WideCounts.sequence_loop
                        (map WideCounts.visitElement es)
                  end)
      (map (fun alt => match alt with
                       | mkAlternative es =>
                           WideCounts.mkAlternative (map widen_element es)
                       end) alternatives)
  = map widen_estimate
        (map (fun alt => match alt with
                         | mkAlternative es =>
                             LengthEstimatorVisitor.sequence_loop
                               (map LengthEstimatorVisitor.visitElement es)
                         end) alternatives).
Proof.
  induction 1 as [|[es] rest Hes _ IH]; [reflexivity|].
  cbn [map alt_elements] in *. rewrite IH. f_equal.
  now rewrite (elements_widen es Hes), sequence_loop_widen.
Qed.

Lemma group_widen (alternatives : list Alternative) :
  all_elements widen_agrees alternatives ->
  widen_agrees (Group alternatives).
Proof.
  intros Hall. unfold widen_agrees.
  cbn [widen_element WideCounts.visitElement
       LengthEstimatorVisitor.visitElement].
  rewrite (branches_widen alternatives Hall).
  destruct alternatives as [|alt rest]; [reflexivity|].
  cbn [map]. apply (alternatives_loop_widen (_ :: _)).
Qed.

Lemma capturing_widen (name : option string)
      (alternatives : list Alternative) :
  all_elements widen_agrees alternatives ->
  widen_agrees (CapturingGroup name alternatives).
Proof.
  intros Hall. unfold widen_agrees.
  cbn [widen_element WideCounts.visitElement
       LengthEstimatorVisitor.visitElement].
  rewrite (branches_widen alternatives Hall).
  destruct alternatives as [|alt rest]; [reflexivity|].
  cbn [map]. apply (alternatives_loop_widen (_ :: _)).
Qed.

Lemma visitElement_widen (e : Element) : widen_agrees e.
Proof.
  induction e using Element_nested_ind; try reflexivity.
  - unfold widen_agrees in *.
    cbn [widen_element WideCounts.visitElement
         LengthEstimatorVisitor.visitElement].
    rewrite IHe. apply quantifier_result_widen.
  - now apply capturing_widen.
  - now apply group_widen.
Qed.

Lemma visitSequence_widen (es : list Element) :
  WideCounts.visitSequence (map widen_element es)
  = widen_estimate (LengthEstimatorVisitor.visitSequence es).
Proof.
  unfold WideCounts.visitSequence, LengthEstimatorVisitor.visitSequence.
  rewrite <- sequence_loop_widen. f_equal.
  apply elements_widen, List.Forall_forall. intros e _.
  apply visitElement_widen.
Qed.

Lemma estimate_pattern_widen (p : Pattern) :
  WideCounts.estimate (WideCounts.NPattern (widen_pattern p))
  = widen_estimate (LengthEstimatorVisitor.estimate (NPattern p)).
Proof.
  unfold WideCounts.estimate, LengthEstimatorVisitor.estimate.
  cbn [WideCounts.visitNode LengthEstimatorVisitor.visitNode
       widen_pattern WideCounts.p_alternatives].
  unfold WideCounts.visitAlternatives,
    LengthEstimatorVisitor.visitAlternatives.
  replace (map (fun alt => WideCounts.visitSequence
                             (WideCounts.alt_elements alt))
               (map widen_alternative (p_alternatives p)))
    with (map widen_estimate
              (map (fun alt => LengthEstimatorVisitor.visitSequence
                                 (alt_elements alt))
                   (p_alternatives p))).
  - rewrite alternatives_loop_widen. reflexivity.
  - rewrite !map_map. apply map_ext. intros alt.
    symmetry. apply visitSequence_widen.
Qed.

(** An overflowing count over an element that may match the empty text:
    [Infinity * 0]. *)
Lemma overflow_over_nullable (i : nat) (qmax : WideCounts.double)
      (greedy : bool) (element : WideCounts.Element) :
  WideCounts.est_min (WideCounts.visitElement element) = WideCounts.Finite 0 ->
  WideCounts.est_min
    (WideCounts.visitQuantifier
       (WideCounts.mkQuantifier i WideCounts.PosInfinity qmax greedy element))
  = WideCounts.NaN.
Proof.
  intros Hzero. unfold WideCounts.visitQuantifier.
  cbn [WideCounts.q_min WideCounts.q_max WideCounts.q_element].
  unfold WideCounts.quantifier_result. rewrite Hzero.
  destruct (WideCounts.is_Infinity qmax); [reflexivity|].
  now destruct (WideCounts.est_max (WideCounts.visitElement element)).
Qed.

End WideFacts.

(** C8.  The expression made of the group of [a] starred under a braced
    count of 400 digits parses, with the count read as [Infinity].  For it
    [visitQuantifier] computes the minimum [Infinity * 0], so the bound of
    the quantifier node has the minimum [NaN], and [estimateMinLength]
    returns [NaN] at the root while [estimateMaxLength] returns [null]: the
    minimum is no non-negative integer, and the invariant of a length bound
    fails at the node and at the root. *)
Theorem overflowing_count_estimate_is_NaN :
  let parser := WideCounts.Samples.overflowing_parser in
  let regex := RegexString WideCounts.Samples.overflowing_text in
  WideCounts.visitQuantifier WideCounts.Samples.overflowing_node
  = {| WideCounts.est_min := WideCounts.NaN; WideCounts.est_max := None |}
  /\ WideCounts.estimateMinLength parser regex = Some WideCounts.NaN
  /\ WideCounts.estimateMaxLength parser regex = Some None
  /\ ~ WideCounts.bound_ok
       (WideCounts.visitQuantifier WideCounts.Samples.overflowing_node)
  /\ (forall pattern,
        WideCounts.parsed_pattern parser regex = Some pattern ->
        ~ WideCounts.bound_ok (WideCounts.estimate pattern)).
Proof.
  cbn zeta.
  assert (Hnode : WideCounts.visitQuantifier
                    WideCounts.Samples.overflowing_node
                  = {| WideCounts.est_min := WideCounts.NaN;
                       WideCounts.est_max := None |})
    by (vm_compute; reflexivity).
  split; [exact Hnode|].
  split; [vm_compute; reflexivity|].
  split; [vm_compute; reflexivity|].
  split.
  - rewrite Hnode. intros (lo & Hlo & _). discriminate Hlo.
  - intros pattern Hparsed.
    assert (Hp : WideCounts.parsed_pattern
                   WideCounts.Samples.overflowing_parser
                   (RegexString WideCounts.Samples.overflowing_text)
                 = Some (WideCounts.NPattern
                           (WideCounts.lit_pattern
                              WideCounts.Samples.overflowing_tree)))
      by (vm_compute; reflexivity).
    rewrite Hp in Hparsed. injection Hparsed as <-.
    intros (lo & Hlo & _). vm_compute in Hlo. discriminate Hlo.
Qed.
